(** * Responsive navigation widget ([custom.layout])

    A shallow embedding of the jQuery UI widget of [assets/layout.js]
    (version 1.0.1) and of its predecessor (version 1.0.0), together with
    the part of the browser that the widget talks to: the class list and
    the inline style of the four bound elements, jQuery's [fx] queue, the
    animation-frame scheduler and the widget factory's event bindings. *)

From stdpp Require Import gmap strings list pretty.

#[local] Set Warnings "-clear-no-such-hyp".

Open Scope Z_scope.

(** ** The page: elements, inline styles, effects queue *)

(** A value on the right-hand side of a [.css({...})] entry.  JavaScript
    numbers that are integers are [Num]; [NaN] is what [-undefined] gives. *)
Inductive CssVal :=
  | Str (s : string)
  | Num (n : Z)
  | NaN.

(** An entry of jQuery's [fx] queue. *)
Inductive Anim :=
  | Animate (props : list (string * CssVal)) (duration : Z) (easing : string)
  | FadeIn (duration : Z) (easing : string)
  | FadeOut (duration : Z) (easing : string).

(** One DOM element, as far as the widget can see or change it: its class
    list, its inline style declaration, its [fx] queue, whose head is the
    animation in progress, and the inline [display] that jQuery keeps in
    the element's data when [.hide()] overwrites it (the empty string when
    there is nothing to restore). *)
Record Elem := mkElem {
  classList : gset string;
  style : gmap string string;
  fx : list Anim;
  olddisplay : string
}.

Definition with_classList (c : gset string) (e : Elem) : Elem :=
  mkElem c (style e) (fx e) (olddisplay e).
Definition with_style (st : gmap string string) (e : Elem) : Elem :=
  mkElem (classList e) st (fx e) (olddisplay e).
Definition with_fx (q : list Anim) (e : Elem) : Elem :=
  mkElem (classList e) (style e) q (olddisplay e).
Definition with_olddisplay (d : string) (e : Elem) : Elem :=
  mkElem (classList e) (style e) (fx e) d.

(** The properties jQuery writes without a unit ([jQuery.cssNumber]), as far
    as the widget uses them. *)
Definition cssNumber (prop : string) : bool :=
  String.eqb prop "z-index" || String.eqb prop "opacity".

(** The properties whose setter never writes a negative length
    ([jQuery.cssHooks.width] and [.height]). *)
Definition nonNegative (prop : string) : bool :=
  String.eqb prop "width" || String.eqb prop "height".

(** jQuery turns a number into a string, appending [px] unless the property
    is unit-less, a negative [width] or [height] becoming [0]; [NaN] and
    [null] are never written.  The strings the widget passes ([""], ["0"],
    ["none"], ["absolute"], ["1040"], ["1045"], ["100%"]) are written as
    they are. *)
Definition css_render (prop : string) (v : CssVal) : option string :=
  match v with
  | Str s => Some s
  | Num n =>
      Some (pretty (if nonNegative prop then Z.max 0 n else n)
            +:+ (if cssNumber prop then "" else "px"))
  | NaN => None
  end.

(** [inset] is a shorthand: the style declaration stores its four
    longhands. *)
Definition longhands (prop : string) : list string :=
  if String.eqb prop "inset" then ["top"; "right"; "bottom"; "left"]
  else [prop].

(** Assigning the empty string removes a declaration. *)
Definition decl_set (val : string) (st : gmap string string) (prop : string)
  : gmap string string :=
  if String.eqb val "" then delete prop st else <[prop := val]> st.

Definition style_set (prop val : string) (st : gmap string string)
  : gmap string string :=
  foldl (decl_set val) st (longhands prop).

Definition css_set (st : gmap string string) (pv : string * CssVal)
  : gmap string string :=
  match css_render pv.1 pv.2 with
  | Some val => style_set pv.1 val st
  | None => st
  end.

(** [.css({...})]: the entries are written in the order of the object
    literal. *)
Definition css (props : list (string * CssVal)) (e : Elem) : Elem :=
  with_style (foldl css_set (style e) props) e.

Definition addClass (c : string) (e : Elem) : Elem :=
  with_classList ({[c]} ∪ classList e) e.
Definition removeClass (c : string) (e : Elem) : Elem :=
  with_classList (classList e ∖ {[c]}) e.
Definition toggleClass (c : string) (state : bool) (e : Elem) : Elem :=
  if state then addClass c e else removeClass c e.

(** Whether the inline [display] is [none]. *)
Definition display_none (e : Elem) : bool :=
  match style e !! "display" with
  | Some d => String.eqb d "none"
  | None => false
  end.

(** [.show()] and [.hide()] act on the inline [display] (jQuery 3's
    [showHide]).  [.hide()] on an element whose inline [display] is not
    [none] keeps that value in the element's data and writes [none];
    [.show()] on an element whose inline [display] is [none] writes the
    kept value back, which removes the declaration when nothing was kept.
    Otherwise neither does anything.  The style sheet is taken not to hide
    the element, so [.show()] never has to force a default [display]. *)
Definition show (e : Elem) : Elem :=
  if display_none e then css [("display", Str (olddisplay e))] e else e.
Definition hide (e : Elem) : Elem :=
  if display_none e then e
  else with_olddisplay (default "" (style e !! "display"))
         (css [("display", Str "none")] e).
Definition toggle (state : bool) (e : Elem) : Elem :=
  if state then show e else hide e.

(** An element is hidden by the widget when its inline [display] is
    [none]. *)
Definition hidden (e : Elem) : Prop := style e !! "display" = Some "none".
Definition displayed (e : Elem) : Prop := style e !! "display" = None.

(** What an animation does when it starts and when it reaches its end.  A
    fade-in makes the element displayed before it animates the opacity; a
    fade-out hides it once the opacity is down; [animate] leaves every
    property at its end value. *)
Definition fx_start (a : Anim) (e : Elem) : Elem :=
  match a with
  | FadeIn _ _ => show e
  | _ => e
  end.

Definition fx_finish (a : Anim) (e : Elem) : Elem :=
  match a with
  | Animate props _ _ => css props e
  | FadeIn _ _ => e
  | FadeOut _ _ => hide e
  end.

Definition anim_duration (a : Anim) : Z :=
  match a with
  | Animate _ d _ | FadeIn d _ | FadeOut d _ => d
  end.

(** An animation with no time to run is at its end on its first tick,
    which jQuery runs inside the call that starts it. *)
Definition instant (a : Anim) : bool := anim_duration a <=? 0.

(** The queue [q] goes on from its head: the entry at the head starts; one
    that is [instant] ends at once and the next entry starts. *)
Fixpoint fx_go (q : list Anim) (e : Elem) : Elem :=
  match q with
  | [] => with_fx [] e
  | a :: q' =>
      if instant a then fx_go q' (fx_finish a (fx_start a e))
      else fx_start a (with_fx (a :: q') e)
  end.

(** [.animate], [.fadeIn], [.fadeOut]: appended to the queue; started at once
    when nothing is in progress. *)
Definition fx_enqueue (a : Anim) (e : Elem) : Elem :=
  match fx e with
  | [] => fx_go [a] e
  | q => with_fx (q ++ [a]) e
  end.

(** [.stop()] with no argument: the animation in progress is dropped where
    it is (no jump to its end), the rest of the queue is kept and goes on. *)
Definition fx_stop (e : Elem) : Elem :=
  match fx e with
  | [] => e
  | _ :: q => fx_go q e
  end.

(** The animation in progress reaches its end. *)
Definition fx_done (e : Elem) : Elem :=
  match fx e with
  | [] => e
  | a :: q => fx_go q (fx_finish a e)
  end.

(** The jQuery calls the widget makes on an element. *)
Inductive JOp :=
  | AddClass (c : string)
  | RemoveClass (c : string)
  | ToggleClass (c : string) (state : bool)
  | Css (props : list (string * CssVal))
  | Show
  | Hide
  | Toggle (state : bool)
  | Stop
  | Fx (a : Anim).

Definition jq_apply (op : JOp) (e : Elem) : Elem :=
  match op with
  | AddClass c => addClass c e
  | RemoveClass c => removeClass c e
  | ToggleClass c b => toggleClass c b e
  | Css props => css props e
  | Show => show e
  | Hide => hide e
  | Toggle b => toggle b e
  | Stop => fx_stop e
  | Fx a => fx_enqueue a e
  end.

(** The four elements a widget instance holds ([this.$layout] or
    [this.$wrapper], [this.$navbtn], [this.$navbar], [this.$overlay]); each
    selector is taken to match one element, and the four are distinct. *)
Inductive Region := Layout | Navbtn | Navbar | Overlay.

(** Where an event comes from. *)
Inductive Source := Window | On (r : Region).

Definition Region_eqb (a b : Region) : bool :=
  match a, b with
  | Layout, Layout | Navbtn, Navbtn | Navbar, Navbar | Overlay, Overlay => true
  | _, _ => false
  end.

Definition Source_eqb (a b : Source) : bool :=
  match a, b with
  | Window, Window => true
  | On r, On r' => Region_eqb r r'
  | _, _ => false
  end.

(** An event binding made with the widget factory's [_on]: source, event
    name, and the name of the instance method to call. *)
Record Binding := mkBinding {
  b_source : Source;
  b_event : string;
  b_handler : string
}.

(** The world of one widget instance.  [this] holds the instance's own
    fields, [W] being their record; the rest is the page and the browser:
    the bound elements, the viewport width, the pending animation-frame
    callbacks (each is the widget's resize thunk, known by its handle), the
    next handle the browser will give out, the instance's bindings, and the
    trace of jQuery calls made on the elements. *)
Record World (W : Type) := mkWorld {
  this : W;
  el_layout : Elem;
  el_navbtn : Elem;
  el_navbar : Elem;
  el_overlay : Elem;
  windowWidth : Z;
  frames : list positive;
  nextFrame : positive;
  bindings : list Binding;
  writes : list (Region * JOp)
}.

Arguments mkWorld {W}.
Arguments this {W}.
Arguments el_layout {W}.
Arguments el_navbtn {W}.
Arguments el_navbar {W}.
Arguments el_overlay {W}.
Arguments windowWidth {W}.
Arguments frames {W}.
Arguments nextFrame {W}.
Arguments bindings {W}.
Arguments writes {W}.

Section World.
Context {W : Type}.
Implicit Types s : World W.

Definition with_this (t : W) s : World W :=
  mkWorld t (el_layout s) (el_navbtn s) (el_navbar s) (el_overlay s) (windowWidth s)
    (frames s) (nextFrame s) (bindings s) (writes s).

Definition with_windowWidth (w : Z) s : World W :=
  mkWorld (this s) (el_layout s) (el_navbtn s) (el_navbar s) (el_overlay s) w
    (frames s) (nextFrame s) (bindings s) (writes s).

Definition with_frames (q : list positive) (n : positive) s : World W :=
  mkWorld (this s) (el_layout s) (el_navbtn s) (el_navbar s) (el_overlay s)
    (windowWidth s) q n (bindings s) (writes s).

Definition with_bindings (bs : list Binding) s : World W :=
  mkWorld (this s) (el_layout s) (el_navbtn s) (el_navbar s) (el_overlay s)
    (windowWidth s) (frames s) (nextFrame s) bs (writes s).

Definition elem (r : Region) s : Elem :=
  match r with
  | Layout => el_layout s
  | Navbtn => el_navbtn s
  | Navbar => el_navbar s
  | Overlay => el_overlay s
  end.

(** Replace one element, leaving the trace alone. *)
Definition with_elem (r : Region) (e : Elem) s : World W :=
  match r with
  | Layout =>
      mkWorld (this s) e (el_navbtn s) (el_navbar s) (el_overlay s)
        (windowWidth s) (frames s) (nextFrame s) (bindings s) (writes s)
  | Navbtn =>
      mkWorld (this s) (el_layout s) e (el_navbar s) (el_overlay s)
        (windowWidth s) (frames s) (nextFrame s) (bindings s) (writes s)
  | Navbar =>
      mkWorld (this s) (el_layout s) (el_navbtn s) e (el_overlay s)
        (windowWidth s) (frames s) (nextFrame s) (bindings s) (writes s)
  | Overlay =>
      mkWorld (this s) (el_layout s) (el_navbtn s) (el_navbar s) e
        (windowWidth s) (frames s) (nextFrame s) (bindings s) (writes s)
  end.

Definition traced (r : Region) (op : JOp) s : World W :=
  mkWorld (this s) (el_layout s) (el_navbtn s) (el_navbar s) (el_overlay s)
    (windowWidth s) (frames s) (nextFrame s) (bindings s)
    (writes s ++ [(r, op)]).

(** A jQuery call on a bound element: it changes the element and is
    recorded. *)
Definition jq (r : Region) (op : JOp) s : World W :=
  traced r op (with_elem r (jq_apply op (elem r s)) s).

(** [requestAnimationFrame]: the callback is queued under a fresh, non-zero
    handle, which is returned. *)
Definition requestAnimationFrame s : positive * World W :=
  (nextFrame s, with_frames (frames s ++ [nextFrame s]) (Pos.succ (nextFrame s)) s).

(** [cancelAnimationFrame]: the callback with that handle, if it is still
    pending, is dropped. *)
Definition cancelAnimationFrame (h : positive) s : World W :=
  with_frames (List.filter (λ h', negb (Pos.eqb h' h)) (frames s)) (nextFrame s) s.

(** Some other script asks for a frame: a handle is used up. *)
Definition foreign_request s : World W :=
  with_frames (frames s) (Pos.succ (nextFrame s)) s.

(** [this._on(source, { event: handler })]. *)
Definition _on (src : Source) (ev handler : string) s : World W :=
  with_bindings (bindings s ++ [mkBinding src ev handler]) s.

(** The handlers bound to an event of a source, in binding order. *)
Definition handlers (src : Source) (ev : string) s : list string :=
  b_handler <$>
    List.filter (λ b, Source_eqb (b_source b) src && String.eqb (b_event b) ev)
      (bindings s).

(** [$.Widget.prototype.destroy] of the widget factory: it calls the
    [_destroy] hook, a no-op unless the widget defines it, and takes every
    binding made with [_on] away.  A widget that defines [destroy] itself
    replaces this method. *)
Definition Widget_destroy (_destroy : World W → World W) s : World W :=
  with_bindings [] (_destroy s).

(** The animation in progress on an element ends. *)
Definition fx_end (r : Region) s : World W :=
  with_elem r (fx_done (elem r s)) s.
End World.

(** JavaScript truthiness of a field that is [undefined] or a boolean. *)
Definition truthy (v : option bool) : bool :=
  match v with
  | Some true => true
  | _ => false
  end.

(** [v !== b] for a field that is [undefined] or a boolean. *)
Definition strict_neq (v : option bool) (b : bool) : bool :=
  negb (bool_decide (v = Some b)).

(** A block of statements, run in order. *)
Definition block {S : Type} (stmts : list (S → S)) (s : S) : S :=
  foldl (λ s f, f s) s stmts.

(** The events a widget instance lives through. *)
Inductive Event :=
  | Resized (w : Z)        (* the viewport gets width [w]; [resize] fires *)
  | AnimationFrame         (* the browser runs the pending frame callbacks *)
  | Click (r : Region)     (* [click] fires on a bound element *)
  | FxEnd (r : Region)     (* the animation in progress on [r] ends *)
  | ForeignRequest         (* another script requests an animation frame *)
  | CallOpen               (* [.layout("open")] *)
  | CallClose              (* [.layout("close")] *)
  | CallDestroy.           (* [.layout("destroy")] *)

(** ** [assets/layout.js], version 1.0.1 *)

Module Layout.

Record Classes := mkClasses {
  desktop : string;
  mobile : string;
  sidebar : string;
  active : string
}.

Record LayoutOptions := mkOptions {
  o_sidebar : bool;
  breakpoint : Z;
  width : Z;
  duration : Z;
  easing : string;
  navbtn : string;
  navbar : string;
  overlay : string;
  classes : Classes
}.

(** The [options] of the prototype: the defaults. *)
Definition defaults : LayoutOptions :=
  {| o_sidebar := false;
     breakpoint := 1200;
     width := 300;
     duration := 300;
     easing := "linear";
     navbtn := "#navbtn";
     navbar := "#navbar";
     overlay := "#overlay";
     classes :=
       {| desktop := "layout-desktop";
          mobile := "layout-mobile";
          sidebar := "layout-sidebar";
          active := "active" |} |}.

(** The fields of an instance; a field never assigned is [undefined]. *)
Record Instance := mkInstance {
  options : LayoutOptions;
  isMobile : option bool;
  isShown : option bool;
  resizeAnimationFrame : option positive
}.

Abbreviation State := (World Instance).

Definition set_isMobile (b : bool) (s : State) : State :=
  with_this
    (mkInstance (options (this s)) (Some b) (isShown (this s))
       (resizeAnimationFrame (this s))) s.

Definition set_isShown (b : bool) (s : State) : State :=
  with_this
    (mkInstance (options (this s)) (isMobile (this s)) (Some b)
       (resizeAnimationFrame (this s))) s.

Definition set_resizeAnimationFrame (h : positive) (s : State) : State :=
  with_this
    (mkInstance (options (this s)) (isMobile (this s)) (isShown (this s))
       (Some h)) s.

Definition opts (s : State) : LayoutOptions := options (this s).

Definition _open (s : State) : State :=
  block
    [ set_isShown true;
      jq Navbtn (AddClass (active (classes (opts s))));
      jq Navbar Stop;
      jq Navbar (Fx (Animate [("left", Num 0)] (duration (opts s)) (easing (opts s))));
      jq Overlay Stop;
      jq Overlay (Fx (FadeIn (duration (opts s)) (easing (opts s)))) ] s.

Definition _close (s : State) : State :=
  block
    [ set_isShown false;
      jq Navbtn (RemoveClass (active (classes (opts s))));
      jq Navbar Stop;
      jq Navbar
        (Fx (Animate [("left", Num (- width (opts s)))] (duration (opts s))
              (easing (opts s))));
      jq Overlay Stop;
      jq Overlay (Fx (FadeOut (duration (opts s)) (easing (opts s)))) ] s.

(** [this[this.isShown ? "_close" : "_open"]()] *)
Definition _onToggle (s : State) : State :=
  if truthy (isShown (this s)) then _close s else _open s.

Definition _applyMobile (s : State) : State :=
  block
    [ jq Layout (AddClass (mobile (classes (opts s))));
      jq Layout (RemoveClass (desktop (classes (opts s))));
      jq Layout (RemoveClass (sidebar (classes (opts s))));
      jq Navbtn (Css [("display", Str "")]);
      jq Navbar
        (Css [ ("position", Str "absolute"); ("z-index", Str "1045");
               ("inset", Str "0");
               ("left", if truthy (isShown (this s)) then Str "0"
                        else Num (- width (opts s)));
               ("width", Num (width (opts s))) ]);
      jq Overlay
        (Css [ ("position", Str "absolute"); ("z-index", Str "1040");
               ("inset", Str "0");
               ("display", Str (if truthy (isShown (this s)) then "" else "none")) ])
    ] s.

Definition _applyDesktop (s : State) : State :=
  block
    [ jq Layout (AddClass (desktop (classes (opts s))));
      jq Layout (RemoveClass (mobile (classes (opts s))));
      jq Layout (RemoveClass (sidebar (classes (opts s))));
      jq Navbtn (Css [("display", Str "none")]);
      jq Navbar
        (Css [ ("position", Str ""); ("z-index", Str ""); ("inset", Str "");
               ("width", Str "") ]);
      jq Overlay
        (Css [ ("position", Str ""); ("z-index", Str ""); ("inset", Str "");
               ("display", Str "none") ]) ] s.

Definition _applySidebar (s : State) : State :=
  block
    [ jq Layout (AddClass (sidebar (classes (opts s))));
      jq Layout (RemoveClass (desktop (classes (opts s))));
      jq Layout (RemoveClass (mobile (classes (opts s))));
      jq Navbtn (Css [("display", Str "none")]);
      jq Navbar
        (Css [ ("position", Str ""); ("z-index", Str ""); ("inset", Str "");
               ("width", Num (width (opts s))) ]);
      jq Overlay
        (Css [ ("position", Str ""); ("z-index", Str ""); ("inset", Str "");
               ("display", Str "none") ]) ] s.

Definition _resize (s : State) : State :=
  let isSidebar := o_sidebar (opts s) in
  let isMobile' := windowWidth s <? breakpoint (opts s) in
  if strict_neq (isMobile (this s)) isMobile' then
    let s := set_isMobile isMobile' s in
    (if isMobile' then _applyMobile
     else if isSidebar then _applySidebar else _applyDesktop) s
  else s.

Definition _onResize (s : State) : State :=
  let s :=
    match resizeAnimationFrame (this s) with
    | Some h => cancelAnimationFrame h s
    | None => s
    end in
  let (h, s) := requestAnimationFrame s in
  set_resizeAnimationFrame h s.

Definition _initEvents (s : State) : State :=
  block
    [ _on Window "resize" "_onResize";
      _on (On Navbtn) "click" "_onToggle";
      _on (On Overlay) "click" "_onToggle";
      _resize ] s.

(** [_create]; the merge of the defaults with the element's data attributes
    is the [options] the instance starts with. *)
Definition _create (s : State) : State := _initEvents s.

Definition open (s : State) : State :=
  if truthy (isMobile (this s)) && negb (truthy (isShown (this s)))
  then _open s else s.

Definition close (s : State) : State :=
  if truthy (isMobile (this s)) && truthy (isShown (this s))
  then _close s else s.

Definition destroy (s : State) : State :=
  block
    [ jq Layout (RemoveClass (desktop (classes (opts s))));
      jq Layout (RemoveClass (mobile (classes (opts s))));
      jq Layout (RemoveClass (sidebar (classes (opts s))));
      jq Navbtn (RemoveClass (active (classes (opts s))));
      jq Navbtn (Css [("display", Str "")]);
      jq Navbar
        (Css [ ("position", Str ""); ("z-index", Str ""); ("inset", Str "");
               ("width", Str "") ]);
      jq Overlay
        (Css [ ("position", Str ""); ("z-index", Str ""); ("inset", Str "");
               ("display", Str "") ]) ] s.

(** A handler bound by name is looked up on the instance. *)
Definition call (method : string) (s : State) : State :=
  if String.eqb method "_onResize" then _onResize s
  else if String.eqb method "_onToggle" then _onToggle s
  else s.

Definition trigger (src : Source) (ev : string) (s : State) : State :=
  foldl (λ s h, call h s) s (handlers src ev s).

(** The browser takes the pending callbacks and runs them; each one is
    [() => this._resize()]. *)
Definition animationFrame (s : State) : State :=
  foldl (λ s _, _resize s) (with_frames [] (nextFrame s) s) (frames s).

Definition step (s : State) (ev : Event) : State :=
  match ev with
  | Resized w => trigger Window "resize" (with_windowWidth w s)
  | AnimationFrame => animationFrame s
  | Click r => trigger (On r) "click" s
  | FxEnd r => fx_end r s
  | ForeignRequest => foreign_request s
  | CallOpen => open s
  | CallClose => close s
  | CallDestroy => destroy s
  end.

Definition run (evs : list Event) (s : State) : State := foldl step s evs.

(** A page on which the widget has not run yet. *)
Definition page (o : LayoutOptions) (root btn bar ovl : Elem) (w : Z)
    (h : positive) : State :=
  mkWorld (mkInstance o None None None) root btn bar ovl w [] h [] [].

(** [$(element).layout(o)] on such a page. *)
Definition init (o : LayoutOptions) (root btn bar ovl : Elem) (w : Z)
    (h : positive) : State :=
  _create (page o root btn bar ovl w h).

End Layout.

(** ** The earlier widget, version 1.0.0 *)

Module Layout100.

Record Classes := mkClasses {
  layoutDesktop : string;
  layoutMobile : string;
  layoutSidebar : string;
  navbtnActive : string
}.

Record LayoutOptions := mkOptions {
  breakpoint : Z;
  sidebar : bool;
  duration : Z;
  easing : string;
  navbtn : string;
  navbar : string;
  overlay : string;
  classes : Classes
}.

Definition defaults : LayoutOptions :=
  {| breakpoint := 1200;
     sidebar := false;
     duration := 300;
     easing := "linear";
     navbtn := "#navbtn";
     navbar := "#navbar";
     overlay := "#overlay";
     classes :=
       {| layoutDesktop := "layout-desktop";
          layoutMobile := "layout-mobile";
          layoutSidebar := "layout-sidebar";
          navbtnActive := "active" |} |}.

(** The fields of an instance.  [navbarOpen] and [navbarWidth] are assigned
    by [_initWidget] before anything reads them. *)
Record Instance := mkInstance {
  options : LayoutOptions;
  navbarOpen : option bool;
  navbarWidth : option Z;
  isMobile : option bool;
  resizeAnimationFrame : option positive
}.

Abbreviation State := (World Instance).

Definition set_navbar (open : bool) (w : Z) (s : State) : State :=
  with_this
    (mkInstance (options (this s)) (Some open) (Some w) (isMobile (this s))
       (resizeAnimationFrame (this s))) s.

Definition set_navbarOpen (b : bool) (s : State) : State :=
  with_this
    (mkInstance (options (this s)) (Some b) (navbarWidth (this s))
       (isMobile (this s)) (resizeAnimationFrame (this s))) s.

Definition set_isMobile (b : bool) (s : State) : State :=
  with_this
    (mkInstance (options (this s)) (navbarOpen (this s)) (navbarWidth (this s))
       (Some b) (resizeAnimationFrame (this s))) s.

Definition set_resizeAnimationFrame (h : positive) (s : State) : State :=
  with_this
    (mkInstance (options (this s)) (navbarOpen (this s)) (navbarWidth (this s))
       (isMobile (this s)) (Some h)) s.

Definition opts (s : State) : LayoutOptions := options (this s).

(** [-this.navbarWidth] *)
Definition neg (w : option Z) : CssVal :=
  match w with
  | Some z => Num (- z)
  | None => NaN
  end.

Definition _openNavbar (s : State) : State :=
  block
    [ set_navbarOpen true;
      jq Navbtn (AddClass (navbtnActive (classes (opts s))));
      jq Navbar Stop;
      jq Navbar (Fx (Animate [("left", Num 0)] (duration (opts s)) (easing (opts s))));
      jq Overlay Stop;
      jq Overlay (Fx (FadeIn (duration (opts s)) (easing (opts s)))) ] s.

Definition _closeNavbar (s : State) : State :=
  block
    [ set_navbarOpen false;
      jq Navbtn (RemoveClass (navbtnActive (classes (opts s))));
      jq Navbar Stop;
      jq Navbar
        (Fx (Animate [("left", neg (navbarWidth (this s)))] (duration (opts s))
              (easing (opts s))));
      jq Overlay Stop;
      jq Overlay (Fx (FadeOut (duration (opts s)) (easing (opts s)))) ] s.

Definition _onToggle (s : State) : State :=
  if truthy (navbarOpen (this s)) then _closeNavbar s else _openNavbar s.

Definition _applyMobileLayout (s : State) : State :=
  block
    [ jq Navbtn Show;
      jq Layout (AddClass (layoutMobile (classes (opts s))));
      jq Layout (RemoveClass (layoutDesktop (classes (opts s))));
      jq Layout (ToggleClass (layoutSidebar (classes (opts s))) (sidebar (opts s)));
      jq Navbar
        (Css [ ("position", Str "absolute");
               ("left", if truthy (navbarOpen (this s)) then Str ""
                        else neg (navbarWidth (this s)));
               ("width", Str "") ]);
      jq Overlay (Toggle (truthy (navbarOpen (this s)))) ] s.

Definition _applyDesktopLayout (s : State) : State :=
  block
    [ jq Navbtn Hide;
      jq Layout (AddClass (layoutDesktop (classes (opts s))));
      jq Layout (RemoveClass (layoutMobile (classes (opts s))));
      jq Layout (ToggleClass (layoutSidebar (classes (opts s))) (sidebar (opts s)));
      jq Navbar
        (Css [ ("position", Str ""); ("left", Str "");
               ("width", Str (if sidebar (opts s) then "" else "100%")) ]);
      jq Overlay Hide ] s.

Definition _resizeLayout (s : State) : State :=
  let isMobile' := windowWidth s <? breakpoint (opts s) in
  if strict_neq (isMobile (this s)) isMobile' then
    let s := set_isMobile isMobile' s in
    (if isMobile' then _applyMobileLayout else _applyDesktopLayout) s
  else s.

(** [outerWidth] is what [this.$navbar.outerWidth()] measures. *)
Definition _initWidget (outerWidth : Z) (s : State) : State :=
  _resizeLayout (set_navbar false outerWidth s).

Definition _initEvents (s : State) : State :=
  block
    [ _on Window "resize" "_onResize";
      _on (On Navbtn) "click" "_onToggle";
      _on (On Overlay) "click" "_onToggle" ] s.

Definition _create (outerWidth : Z) (s : State) : State :=
  _initEvents (_initWidget outerWidth s).

Definition _onResize (s : State) : State :=
  let s :=
    match resizeAnimationFrame (this s) with
    | Some h => cancelAnimationFrame h s
    | None => s
    end in
  let (h, s) := requestAnimationFrame s in
  set_resizeAnimationFrame h s.

(** The widget defines neither [destroy] nor [_destroy]: [destroy] is the
    factory's. *)
Definition destroy (s : State) : State := Widget_destroy (λ s, s) s.

Definition call (method : string) (s : State) : State :=
  if String.eqb method "_onResize" then _onResize s
  else if String.eqb method "_onToggle" then _onToggle s
  else s.

Definition trigger (src : Source) (ev : string) (s : State) : State :=
  foldl (λ s h, call h s) s (handlers src ev s).

Definition animationFrame (s : State) : State :=
  foldl (λ s _, _resizeLayout s) (with_frames [] (nextFrame s) s) (frames s).

(** There is no [open] or [close] method to call. *)
Definition step (s : State) (ev : Event) : State :=
  match ev with
  | Resized w => trigger Window "resize" (with_windowWidth w s)
  | AnimationFrame => animationFrame s
  | Click r => trigger (On r) "click" s
  | FxEnd r => fx_end r s
  | ForeignRequest => foreign_request s
  | CallOpen => s
  | CallClose => s
  | CallDestroy => destroy s
  end.

Definition run (evs : list Event) (s : State) : State := foldl step s evs.

Definition page (o : LayoutOptions) (root btn bar ovl : Elem) (w : Z)
    (h : positive) : State :=
  mkWorld (mkInstance o None None None None) root btn bar ovl w [] h [] [].

Definition init (o : LayoutOptions) (outerWidth : Z) (root btn bar ovl : Elem)
    (w : Z) (h : positive) : State :=
  _create outerWidth (page o root btn bar ovl w h).

End Layout100.

(** * Vocabulary of the properties *)

(** An element the page has not styled inline, with no class and nothing
    animating. *)
Definition blank : Elem := mkElem ∅ ∅ [] "".

(** The inline [display] does not hide the element. *)
Definition visible (e : Elem) : Prop := style e !! "display" ≠ Some "none".

(** jQuery keeps an inline [display] only when it is not [none]. *)
Definition restorable (e : Elem) : Prop := olddisplay e ≠ "none".

(** The queue of an idle element after an animation is put on it: the
    animation, unless it has no time to run and is already over. *)
Definition pending (a : Anim) : list Anim := if instant a then [] else [a].

(** A trace that grew by a non-empty list of calls. *)
Definition extends {A} (l l' : list A) : Prop := ∃ k, k ≠ [] ∧ l' = l ++ k.

(** The widget started with the defaults on a blank page of width [w]. *)
Definition started (w : Z) : Layout.State :=
  Layout.init Layout.defaults blank blank blank blank w 1.

Definition started100 (w : Z) : Layout100.State :=
  Layout100.init Layout100.defaults 300 blank blank blank blank w 1.

(** How many of the given classes an element carries. *)
Definition count_present (cs : list string) (e : Elem) : nat :=
  length (filter (λ c, c ∈ classList e) cs).

(** The three presentation classes of version 1.0.1, and of version 1.0.0. *)
Definition mode_classes (o : Layout.LayoutOptions) : list string :=
  [ Layout.mobile (Layout.classes o); Layout.desktop (Layout.classes o);
    Layout.sidebar (Layout.classes o) ].

Definition mode_classes100 (o : Layout100.LayoutOptions) : list string :=
  [ Layout100.layoutMobile (Layout100.classes o);
    Layout100.layoutDesktop (Layout100.classes o);
    Layout100.layoutSidebar (Layout100.classes o) ].

(** The defaults with the sidebar flag set. *)
Definition sidebar_on : Layout.LayoutOptions :=
  Layout.mkOptions true 1200 300 300 "linear" "#navbtn" "#navbar" "#overlay"
    (Layout.classes Layout.defaults).


Definition sidebar_on100 : Layout100.LayoutOptions :=
  Layout100.mkOptions 1200 true 300 "linear" "#navbtn" "#navbar" "#overlay"
    (Layout100.classes Layout100.defaults).

(** The three bindings [_initEvents] makes. *)
Definition wiring : list Binding :=
  [ mkBinding Window "resize" "_onResize";
    mkBinding (On Navbtn) "click" "_onToggle";
    mkBinding (On Overlay) "click" "_onToggle" ].

(** The scheduler as the widget keeps it: at most one of its callbacks is
    pending, under the handle the instance remembers, and every handle in
    use is older than the next one the browser gives out. *)
Definition sched_ok {W} (raf : option positive) (s : World W) : Prop :=
  (frames s = [] ∨ ∃ h, frames s = [h] ∧ raf = Some h) ∧
  (∀ h, raf = Some h → (h < nextFrame s)%positive).

(** What the open/close transitions, the mode applications and [destroy]
    leave alone. *)
Definition same_frame (s s' : Layout.State) : Prop :=
  Layout.opts s' = Layout.opts s ∧
  Layout.isMobile (this s') = Layout.isMobile (this s) ∧
  Layout.resizeAnimationFrame (this s') = Layout.resizeAnimationFrame (this s) ∧
  windowWidth s' = windowWidth s ∧
  frames s' = frames s ∧
  nextFrame s' = nextFrame s ∧
  bindings s' = bindings s.

(** The invariant of a running instance of version 1.0.1. *)
Definition running (s : Layout.State) : Prop :=
  bindings s = wiring ∧ sched_ok (Layout.resizeAnimationFrame (this s)) s.

Definition same_frame100 (s s' : Layout100.State) : Prop :=
  Layout100.opts s' = Layout100.opts s ∧
  Layout100.isMobile (this s') = Layout100.isMobile (this s) ∧
  Layout100.resizeAnimationFrame (this s') =
    Layout100.resizeAnimationFrame (this s) ∧
  windowWidth s' = windowWidth s ∧
  frames s' = frames s ∧
  nextFrame s' = nextFrame s ∧
  bindings s' = bindings s.

(** The invariant of an instance of version 1.0.0; its bindings are gone
    once it is destroyed. *)
Definition running100 (s : Layout100.State) : Prop :=
  (bindings s = wiring ∨ bindings s = []) ∧
  sched_ok (Layout100.resizeAnimationFrame (this s)) s.

(** No animation waits behind another on the panel or the overlay. *)
Definition calm {W} (s : World W) : Prop :=
  (length (fx (el_navbar s)) ≤ 1)%nat ∧ (length (fx (el_overlay s)) ≤ 1)%nat.

(** What jQuery keeps for the toggle and for the overlay can be restored. *)
Definition kept {W} (s : World W) : Prop :=
  restorable (el_navbtn s) ∧ restorable (el_overlay s).

(** The events that are, or lead to, an open or close transition. *)
Definition transition (ev : Event) : bool :=
  match ev with
  | Click Navbtn | Click Overlay | CallOpen | CallClose => true
  | _ => false
  end.

(** The inline declarations the widget makes on the panel and the
    overlay. *)
Definition positioning : list string :=
  ["position"; "z-index"; "top"; "right"; "bottom"; "left"].

(** The four bound elements of a world. *)
Definition elems {W} (s : World W) : Elem * Elem * Elem * Elem :=
  (el_layout s, el_navbtn s, el_navbar s, el_overlay s).

(** The animations the widget itself starts on the panel. *)
Definition slides (a : Anim) : Prop :=
  ∃ z d e, a = Animate [("left", Num z)] d e.

(** The animations the widget itself starts on the overlay. *)
Definition fades (a : Anim) : Prop :=
  ∃ d e, a = FadeIn d e ∨ a = FadeOut d e.

(** The stored mode is that of the current viewport width whenever no
    layout evaluation is pending. *)
Definition in_sync (s : Layout.State) : Prop :=
  frames s = [] →
  Layout.isMobile (this s) =
    Some (windowWidth s <? Layout.breakpoint (Layout.opts s)).

(** The toggle carries the active class exactly when the navigation is
    shown. *)
Definition marked (s : Layout.State) : Prop :=
  Layout.active (Layout.classes (Layout.opts s)) ∈ classList (el_navbtn s) ↔
  Layout.isShown (this s) = Some true.

(** Nothing but the widget's own slides is queued on the panel, and nothing
    at all on the toggle. *)
Definition tidy {W} (s : World W) : Prop :=
  fx (el_navbtn s) = [] ∧ Forall slides (fx (el_navbar s)).

(** The root, the toggle and the panel are presented as the stored mode
    says. *)
Definition shaped (s : Layout.State) : Prop :=
  let o := Layout.opts s in
  match Layout.isMobile (this s) with
  | Some true =>
      Layout.mobile (Layout.classes o) ∈ classList (el_layout s) ∧
      count_present (mode_classes o) (el_layout s) = 1%nat ∧
      displayed (el_navbtn s) ∧
      style (el_navbar s) !! "position" = Some "absolute"
  | Some false =>
      (if Layout.o_sidebar o then Layout.sidebar (Layout.classes o)
       else Layout.desktop (Layout.classes o)) ∈ classList (el_layout s) ∧
      count_present (mode_classes o) (el_layout s) = 1%nat ∧
      hidden (el_navbtn s) ∧
      style (el_navbar s) !! "position" = None
  | None => False
  end.

(** * Properties *)

(** ** Inline styles and traces *)

Lemma px_nonempty (s : string) : String.eqb (s +:+ "px") "" = false.
Proof. destruct s; reflexivity. Qed.

Lemma decl_set_px (n : Z) (st : gmap string string) (p : string) :
  decl_set (pretty n +:+ "px") st p = <[p := pretty n +:+ "px"]> st.
Proof. unfold decl_set. by rewrite px_nonempty. Qed.

(** Unfold a [.css] call on concrete property names. *)
Ltac css_norm :=
  cbn; unfold css_set, style_set, longhands, css_render; cbn;
  rewrite ?decl_set_px.

Ltac open_state s :=
  destruct s as [[o m sh raf] lay btn bar ovl w fr nf bs wr].

Ltac open_state100 s :=
  destruct s as [[o nopen nwidth m raf] lay btn bar ovl w fr nf bs wr].

Lemma extends_snoc {A} (l l' : list A) (x : A) :
  l' = l ∨ extends l l' → extends l (l' ++ [x]).
Proof.
  intros [-> | (k & Hk & ->)].
  - exists [x]. by split.
  - exists (k ++ [x]). split; [by destruct k | by rewrite app_assoc].
Qed.

Ltac extends_tac :=
  repeat (apply extends_snoc; first [left; reflexivity | right]).

(** ** Layout evaluation ([_resize], [_resizeLayout]) *)

Lemma strict_neq_same (b : bool) : strict_neq (Some b) b = false.
Proof. unfold strict_neq. by rewrite bool_decide_eq_true_2. Qed.

Lemma strict_neq_undefined (b : bool) : strict_neq None b = true.
Proof. reflexivity. Qed.

Lemma resize_mode (s : Layout.State) :
  Layout.isMobile (this (Layout._resize s)) =
    Some (windowWidth s <? Layout.breakpoint (Layout.opts s)).
Proof.
  open_state s. unfold Layout._resize. cbn.
  destruct (strict_neq m _) eqn:Hne.
  - by destruct (_ <? _), (Layout.o_sidebar o).
  - unfold strict_neq in Hne. apply negb_false_iff, bool_decide_eq_true in Hne.
    done.
Qed.

Lemma resize_keeps (s : Layout.State) :
  Layout.opts (Layout._resize s) = Layout.opts s ∧
  windowWidth (Layout._resize s) = windowWidth s ∧
  Layout.isShown (this (Layout._resize s)) = Layout.isShown (this s) ∧
  frames (Layout._resize s) = frames s ∧
  nextFrame (Layout._resize s) = nextFrame s ∧
  Layout.resizeAnimationFrame (this (Layout._resize s)) =
    Layout.resizeAnimationFrame (this s) ∧
  bindings (Layout._resize s) = bindings s.
Proof.
  open_state s. unfold Layout._resize. cbn.
  destruct (strict_neq m _); [|done].
  by destruct (_ <? _), (Layout.o_sidebar o).
Qed.

Lemma resize_stable (s : Layout.State) :
  Layout.isMobile (this s) =
    Some (windowWidth s <? Layout.breakpoint (Layout.opts s)) →
  Layout._resize s = s.
Proof. intros H. unfold Layout._resize. by rewrite H, strict_neq_same. Qed.

Lemma resize_first (s : Layout.State) :
  Layout.isMobile (this s) = None →
  extends (writes s) (writes (Layout._resize s)).
Proof.
  intros H. open_state s. cbn in H. subst. unfold Layout._resize. cbn.
  destruct (_ <? _), (Layout.o_sidebar o); cbn; extends_tac.
Qed.

Lemma resizeLayout_mode (s : Layout100.State) :
  Layout100.isMobile (this (Layout100._resizeLayout s)) =
    Some (windowWidth s <? Layout100.breakpoint (Layout100.opts s)).
Proof.
  open_state100 s. unfold Layout100._resizeLayout. cbn.
  destruct (strict_neq m _) eqn:Hne.
  - by destruct (_ <? _).
  - unfold strict_neq in Hne. apply negb_false_iff, bool_decide_eq_true in Hne.
    done.
Qed.

Lemma resizeLayout_keeps (s : Layout100.State) :
  Layout100.opts (Layout100._resizeLayout s) = Layout100.opts s ∧
  windowWidth (Layout100._resizeLayout s) = windowWidth s ∧
  Layout100.navbarOpen (this (Layout100._resizeLayout s)) =
    Layout100.navbarOpen (this s) ∧
  frames (Layout100._resizeLayout s) = frames s ∧
  nextFrame (Layout100._resizeLayout s) = nextFrame s ∧
  Layout100.resizeAnimationFrame (this (Layout100._resizeLayout s)) =
    Layout100.resizeAnimationFrame (this s) ∧
  bindings (Layout100._resizeLayout s) = bindings s.
Proof.
  open_state100 s. unfold Layout100._resizeLayout. cbn.
  destruct (strict_neq m _); [|done].
  by destruct (_ <? _).
Qed.

Lemma resizeLayout_stable (s : Layout100.State) :
  Layout100.isMobile (this s) =
    Some (windowWidth s <? Layout100.breakpoint (Layout100.opts s)) →
  Layout100._resizeLayout s = s.
Proof. intros H. unfold Layout100._resizeLayout. by rewrite H, strict_neq_same. Qed.

Lemma resizeLayout_first (s : Layout100.State) :
  Layout100.isMobile (this s) = None →
  extends (writes s) (writes (Layout100._resizeLayout s)).
Proof.
  intros H. open_state100 s. cbn in H. subst. unfold Layout100._resizeLayout.
  cbn. destruct (_ <? _); cbn; extends_tac.
Qed.

(** A page the widget has not run on holds the undefined sentinel. *)
Lemma page_undefined o root btn bar ovl w h :
  Layout.isMobile (this (Layout.page o root btn bar ovl w h)) = None ∧
  Layout.isShown (this (Layout.page o root btn bar ovl w h)) = None.
Proof. done. Qed.

(** ** The public [open] and [close] *)

Lemma open_changes (s : Layout.State) :
  Layout.isMobile (this s) = Some true →
  Layout.isShown (this s) ≠ Some true →
  Layout.isShown (this (Layout.open s)) = Some true ∧
  extends (writes s) (writes (Layout.open s)).
Proof.
  intros Hm Hs. open_state s. cbn in *. subst. unfold Layout.open. cbn.
  destruct sh as [[]|]; try done; cbn; (split; [done | extends_tac]).
Qed.

Lemma close_changes (s : Layout.State) :
  Layout.isMobile (this s) = Some true →
  Layout.isShown (this s) = Some true →
  Layout.isShown (this (Layout.close s)) = Some false ∧
  extends (writes s) (writes (Layout.close s)).
Proof.
  intros Hm Hs. open_state s. cbn in *. subst. unfold Layout.close. cbn.
  split; [done | extends_tac].
Qed.

(** C4.  [open] returns the world it was given, instance fields, elements
    and trace of calls alike, unless the instance is in mobile mode and not
    shown; [close] does unless it is in mobile mode and shown. *)
Theorem open_close_guarded (s : Layout.State) :
  (Layout.isMobile (this s) ≠ Some true ∨ Layout.isShown (this s) = Some true →
   Layout.open s = s) ∧
  (Layout.isMobile (this s) ≠ Some true ∨ Layout.isShown (this s) ≠ Some true →
   Layout.close s = s).
Proof.
  unfold Layout.open, Layout.close.
  destruct (Layout.isMobile (this s)) as [[]|], (Layout.isShown (this s)) as [[]|];
    cbn; split; intros [H | H]; congruence.
Qed.

Lemma open_close_guarded_witness :
  Layout.open (started 1300) = started 1300 ∧
  Layout.close (started 1000) = started 1000.
Proof.
  split.
  - apply (proj1 (open_close_guarded (started 1300))). left. discriminate.
  - apply (proj2 (open_close_guarded (started 1000))). right. discriminate.
Defined.

(** ** Mode and presentation class of the root *)

Lemma NoDup3 (a b c : string) : NoDup [a; b; c] → a ≠ b ∧ a ≠ c ∧ b ≠ c.
Proof. rewrite !NoDup_cons, !not_elem_of_cons. naive_solver. Qed.

Lemma NoDup2 (a b : string) : NoDup [a; b] → a ≠ b.
Proof. rewrite !NoDup_cons, !not_elem_of_cons. naive_solver. Qed.

(** Count the classes of a list one membership test at a time. *)
Ltac count_tac :=
  unfold count_present; rewrite ?filter_cons, ?filter_nil;
  repeat first [ rewrite decide_True by set_solver
               | rewrite decide_False by set_solver ];
  reflexivity.

Lemma applyMobile_classList (s : Layout.State) :
  classList (el_layout (Layout._applyMobile s)) =
    ({[Layout.mobile (Layout.classes (Layout.opts s))]} ∪ classList (el_layout s))
      ∖ {[Layout.desktop (Layout.classes (Layout.opts s))]}
      ∖ {[Layout.sidebar (Layout.classes (Layout.opts s))]}.
Proof. by open_state s. Qed.

Lemma applyDesktop_classList (s : Layout.State) :
  classList (el_layout (Layout._applyDesktop s)) =
    ({[Layout.desktop (Layout.classes (Layout.opts s))]} ∪ classList (el_layout s))
      ∖ {[Layout.mobile (Layout.classes (Layout.opts s))]}
      ∖ {[Layout.sidebar (Layout.classes (Layout.opts s))]}.
Proof. by open_state s. Qed.

Lemma applySidebar_classList (s : Layout.State) :
  classList (el_layout (Layout._applySidebar s)) =
    ({[Layout.sidebar (Layout.classes (Layout.opts s))]} ∪ classList (el_layout s))
      ∖ {[Layout.desktop (Layout.classes (Layout.opts s))]}
      ∖ {[Layout.mobile (Layout.classes (Layout.opts s))]}.
Proof. by open_state s. Qed.

Lemma applyMobile_root (s : Layout.State) :
  NoDup (mode_classes (Layout.opts s)) →
  Layout.mobile (Layout.classes (Layout.opts s)) ∈
    classList (el_layout (Layout._applyMobile s)) ∧
  count_present (mode_classes (Layout.opts s))
    (el_layout (Layout._applyMobile s)) = 1%nat.
Proof.
  intros (Hmd & Hms & Hds)%NoDup3. rewrite applyMobile_classList.
  split; [set_solver|]. unfold mode_classes.
  unfold count_present. rewrite applyMobile_classList. count_tac.
Qed.

Lemma applyDesktop_root (s : Layout.State) :
  NoDup (mode_classes (Layout.opts s)) →
  Layout.desktop (Layout.classes (Layout.opts s)) ∈
    classList (el_layout (Layout._applyDesktop s)) ∧
  count_present (mode_classes (Layout.opts s))
    (el_layout (Layout._applyDesktop s)) = 1%nat.
Proof.
  intros (Hmd & Hms & Hds)%NoDup3. rewrite applyDesktop_classList.
  split; [set_solver|]. unfold mode_classes.
  unfold count_present. rewrite applyDesktop_classList. count_tac.
Qed.

Lemma applySidebar_root (s : Layout.State) :
  NoDup (mode_classes (Layout.opts s)) →
  Layout.sidebar (Layout.classes (Layout.opts s)) ∈
    classList (el_layout (Layout._applySidebar s)) ∧
  count_present (mode_classes (Layout.opts s))
    (el_layout (Layout._applySidebar s)) = 1%nat.
Proof.
  intros (Hmd & Hms & Hds)%NoDup3. rewrite applySidebar_classList.
  split; [set_solver|]. unfold mode_classes.
  unfold count_present. rewrite applySidebar_classList. count_tac.
Qed.

Lemma applyMobileLayout_classList (s : Layout100.State) :
  classList (el_layout (Layout100._applyMobileLayout s)) =
    classList
      (toggleClass (Layout100.layoutSidebar (Layout100.classes (Layout100.opts s)))
         (Layout100.sidebar (Layout100.opts s))
         (removeClass (Layout100.layoutDesktop (Layout100.classes (Layout100.opts s)))
            (addClass (Layout100.layoutMobile (Layout100.classes (Layout100.opts s)))
               (el_layout s)))).
Proof. by open_state100 s. Qed.

Lemma applyDesktopLayout_classList (s : Layout100.State) :
  classList (el_layout (Layout100._applyDesktopLayout s)) =
    classList
      (toggleClass (Layout100.layoutSidebar (Layout100.classes (Layout100.opts s)))
         (Layout100.sidebar (Layout100.opts s))
         (removeClass (Layout100.layoutMobile (Layout100.classes (Layout100.opts s)))
            (addClass (Layout100.layoutDesktop (Layout100.classes (Layout100.opts s)))
               (el_layout s)))).
Proof. by open_state100 s. Qed.

(** In version 1.0.0 the sidebar class follows the flag in both modes, next
    to the class of the mode. *)
Lemma applyLayout100_root (s : Layout100.State) :
  NoDup (mode_classes100 (Layout100.opts s)) →
  let c := Layout100.classes (Layout100.opts s) in
  let m := el_layout (Layout100._applyMobileLayout s) in
  let d := el_layout (Layout100._applyDesktopLayout s) in
  (Layout100.layoutMobile c ∈ classList m ∧
   (Layout100.layoutDesktop c ∉ classList m) ∧
   (Layout100.layoutSidebar c ∈ classList m ↔ Layout100.sidebar (Layout100.opts s) = true)) ∧
  (Layout100.layoutDesktop c ∈ classList d ∧
   (Layout100.layoutMobile c ∉ classList d) ∧
   (Layout100.layoutSidebar c ∈ classList d ↔ Layout100.sidebar (Layout100.opts s) = true)).
Proof.
  intros (Hmd & Hms & Hds)%NoDup3. cbn zeta.
  rewrite applyMobileLayout_classList, applyDesktopLayout_classList.
  destruct (Layout100.sidebar (Layout100.opts s)); cbn; set_solver.
Qed.

Lemma applyLayout100_count (s : Layout100.State) :
  NoDup (mode_classes100 (Layout100.opts s)) →
  let c := Layout100.classes (Layout100.opts s) in
  count_present [Layout100.layoutMobile c; Layout100.layoutDesktop c]
    (el_layout (Layout100._applyMobileLayout s)) = 1%nat ∧
  count_present [Layout100.layoutMobile c; Layout100.layoutDesktop c]
    (el_layout (Layout100._applyDesktopLayout s)) = 1%nat.
Proof.
  intros H. destruct (applyLayout100_root s H) as ((? & ? & _) & (? & ? & _)).
  split; count_tac.
Qed.

(** C1, amended.  After a layout evaluation the stored mode is mobile
    exactly when the viewport is narrower than the breakpoint, in both
    versions.  With three distinct presentation classes, each mode
    application of version 1.0.1 leaves exactly one of them on the root,
    that of its mode.  A mode application of version 1.0.0 leaves exactly
    one of the mobile and desktop classes on the root, and the sidebar
    class exactly when the sidebar flag is set. *)
Theorem mode_and_root_class :
  (∀ s : Layout.State,
     Layout.isMobile (this (Layout._resize s)) = Some true ↔
     windowWidth s < Layout.breakpoint (Layout.opts s)) ∧
  (∀ s : Layout.State,
     NoDup (mode_classes (Layout.opts s)) →
     let c := Layout.classes (Layout.opts s) in
     (Layout.mobile c ∈ classList (el_layout (Layout._applyMobile s)) ∧
      count_present (mode_classes (Layout.opts s))
        (el_layout (Layout._applyMobile s)) = 1%nat) ∧
     (Layout.desktop c ∈ classList (el_layout (Layout._applyDesktop s)) ∧
      count_present (mode_classes (Layout.opts s))
        (el_layout (Layout._applyDesktop s)) = 1%nat) ∧
     (Layout.sidebar c ∈ classList (el_layout (Layout._applySidebar s)) ∧
      count_present (mode_classes (Layout.opts s))
        (el_layout (Layout._applySidebar s)) = 1%nat)) ∧
  (∀ s : Layout100.State,
     Layout100.isMobile (this (Layout100._resizeLayout s)) = Some true ↔
     windowWidth s < Layout100.breakpoint (Layout100.opts s)) ∧
  (∀ s : Layout100.State,
     NoDup (mode_classes100 (Layout100.opts s)) →
     let c := Layout100.classes (Layout100.opts s) in
     let m := el_layout (Layout100._applyMobileLayout s) in
     let d := el_layout (Layout100._applyDesktopLayout s) in
     (Layout100.layoutMobile c ∈ classList m ∧
      count_present [Layout100.layoutMobile c; Layout100.layoutDesktop c] m = 1%nat ∧
      (Layout100.layoutSidebar c ∈ classList m ↔
       Layout100.sidebar (Layout100.opts s) = true)) ∧
     (Layout100.layoutDesktop c ∈ classList d ∧
      count_present [Layout100.layoutMobile c; Layout100.layoutDesktop c] d = 1%nat ∧
      (Layout100.layoutSidebar c ∈ classList d ↔
       Layout100.sidebar (Layout100.opts s) = true))).
Proof.
  split; [|split; [|split]].
  - intros s. rewrite resize_mode, <- Z.ltb_lt. split; congruence.
  - intros s H. cbn zeta.
    split; [exact (applyMobile_root s H)|].
    split; [exact (applyDesktop_root s H) | exact (applySidebar_root s H)].
  - intros s. rewrite resizeLayout_mode, <- Z.ltb_lt. split; congruence.
  - intros s H. cbn zeta.
    destruct (applyLayout100_root s H) as ((Hm & _ & Hms) & (Hd & _ & Hds)).
    destruct (applyLayout100_count s H) as (Hcm & Hcd).
    split; (split; [assumption | split; assumption]).
Qed.

(** ** Bindings, dispatch and the frame scheduler *)

Lemma init_unfold o root btn bar ovl w h :
  Layout.init o root btn bar ovl w h =
    Layout._resize
      (mkWorld (Layout.mkInstance o None None None) root btn bar ovl w [] h
         wiring []).
Proof. reflexivity. Qed.

Lemma init_wired o root btn bar ovl w h :
  bindings (Layout.init o root btn bar ovl w h) = wiring.
Proof.
  rewrite init_unfold.
  match goal with |- context [Layout._resize ?s] =>
    destruct (resize_keeps s) as (_ & _ & _ & _ & _ & _ & Hb) end.
  by rewrite Hb.
Qed.

Lemma trigger_wired (s : Layout.State) :
  bindings s = wiring →
  Layout.trigger Window "resize" s = Layout._onResize s ∧
  Layout.trigger (On Navbtn) "click" s = Layout._onToggle s ∧
  Layout.trigger (On Overlay) "click" s = Layout._onToggle s ∧
  Layout.trigger (On Layout) "click" s = s ∧
  Layout.trigger (On Navbar) "click" s = s.
Proof. intros H. unfold Layout.trigger, handlers. by rewrite H. Qed.

Lemma same_frame_refl (s : Layout.State) : same_frame s s.
Proof. by repeat split. Qed.

Lemma open_frame (s : Layout.State) : same_frame s (Layout._open s).
Proof. by open_state s. Qed.

Lemma close_frame (s : Layout.State) : same_frame s (Layout._close s).
Proof. by open_state s. Qed.

Lemma onToggle_frame (s : Layout.State) : same_frame s (Layout._onToggle s).
Proof.
  unfold Layout._onToggle.
  destruct (truthy _); [apply close_frame | apply open_frame].
Qed.

Lemma public_open_frame (s : Layout.State) : same_frame s (Layout.open s).
Proof.
  unfold Layout.open.
  destruct (_ && _); [apply open_frame | apply same_frame_refl].
Qed.

Lemma public_close_frame (s : Layout.State) : same_frame s (Layout.close s).
Proof.
  unfold Layout.close.
  destruct (_ && _); [apply close_frame | apply same_frame_refl].
Qed.

Lemma destroy_frame (s : Layout.State) : same_frame s (Layout.destroy s).
Proof. by open_state s. Qed.

Lemma fx_end_frame (r : Region) (s : Layout.State) : same_frame s (fx_end r s).
Proof. open_state s. by destruct r. Qed.

Lemma same_frame_running (s s' : Layout.State) :
  same_frame s s' → running s → running s'.
Proof.
  intros (_ & _ & Hr & _ & Hf & Hn & Hb) [Hw [Hs Hlt]].
  unfold running, sched_ok. by rewrite Hr, Hf, Hn, Hb.
Qed.

(** A resize notification leaves exactly the freshly requested callback
    pending. *)
Lemma onResize_frames (s : Layout.State) :
  sched_ok (Layout.resizeAnimationFrame (this s)) s →
  frames (Layout._onResize s) = [nextFrame s] ∧
  Layout.resizeAnimationFrame (this (Layout._onResize s)) = Some (nextFrame s) ∧
  nextFrame (Layout._onResize s) = Pos.succ (nextFrame s) ∧
  bindings (Layout._onResize s) = bindings s ∧
  windowWidth (Layout._onResize s) = windowWidth s ∧
  Layout.opts (Layout._onResize s) = Layout.opts s ∧
  Layout.isMobile (this (Layout._onResize s)) = Layout.isMobile (this s) ∧
  Layout.isShown (this (Layout._onResize s)) = Layout.isShown (this s).
Proof.
  intros [Hs _]. open_state s. unfold Layout._onResize. cbn in *.
  destruct Hs as [-> | (h & -> & ->)]; [by destruct raf|].
  cbn. by rewrite Pos.eqb_refl.
Qed.

Lemma animationFrame_cases (s : Layout.State) :
  sched_ok (Layout.resizeAnimationFrame (this s)) s →
  (frames s = [] ∧ Layout.animationFrame s = s) ∨
  (∃ h, frames s = [h] ∧
        Layout.animationFrame s =
          Layout._resize (with_frames [] (nextFrame s) s)).
Proof.
  intros [[H | (h & H & _)] _]; unfold Layout.animationFrame; rewrite H.
  - left. split; [done|]. open_state s. cbn in *. by subst.
  - right. by exists h.
Qed.

Lemma init_running o root btn bar ovl w h :
  running (Layout.init o root btn bar ovl w h).
Proof.
  split; [apply init_wired|]. rewrite init_unfold.
  match goal with |- context [Layout._resize ?s] =>
    destruct (resize_keeps s) as (_ & _ & _ & Hf & Hn & Hr & _) end.
  unfold sched_ok. rewrite Hf, Hr. split; [by left | done].
Qed.

Lemma step_running (s : Layout.State) (ev : Event) :
  running s → running (Layout.step s ev).
Proof.
  intros Hrun. pose proof Hrun as [Hw Hs].
  destruct ev as [w | | r | r | | | |]; cbn [Layout.step].
  - assert (Hw' : bindings (with_windowWidth w s) = wiring) by done.
    destruct (trigger_wired _ Hw') as (-> & _).
    assert (Hs' : sched_ok (Layout.resizeAnimationFrame (this (with_windowWidth w s)))
                    (with_windowWidth w s)) by done.
    destruct (onResize_frames _ Hs') as (Hf & Hr & Hn & Hb & _).
    split; [by rewrite Hb|]. unfold sched_ok. rewrite Hf, Hr, Hn. split.
    + right. by eexists.
    + intros h [= <-]. cbn. lia.
  - destruct (animationFrame_cases s Hs) as [[_ ->] | (h & Hh & ->)]; [done|].
    match goal with |- context [Layout._resize ?s] =>
      destruct (resize_keeps s) as (_ & _ & _ & Hf & Hn & Hr & Hb) end.
    split; [by rewrite Hb|]. unfold sched_ok. rewrite Hf, Hn, Hr. cbn.
    split; [by left | apply Hs].
  - destruct (trigger_wired _ Hw) as (_ & Hb & Ho & Hl & Hn).
    destruct r; rewrite ?Hb, ?Ho, ?Hl, ?Hn; try done;
      exact (same_frame_running _ _ (onToggle_frame s) Hrun).
  - exact (same_frame_running _ _ (fx_end_frame r s) Hrun).
  - destruct Hs as [Hs Hlt]. split; [done|]. split; [done|].
    intros h Hh. specialize (Hlt h Hh). cbn. lia.
  - exact (same_frame_running _ _ (public_open_frame s) Hrun).
  - exact (same_frame_running _ _ (public_close_frame s) Hrun).
  - exact (same_frame_running _ _ (destroy_frame s) Hrun).
Qed.

Lemma run_app (evs evs' : list Event) (s : Layout.State) :
  Layout.run (evs ++ evs') s = Layout.run evs' (Layout.run evs s).
Proof. apply foldl_app. Qed.

Lemma run_running (evs : list Event) (s : Layout.State) :
  running s → running (Layout.run evs s).
Proof.
  revert s. induction evs as [|ev evs IH]; intros s H; [done|].
  cbn. apply IH. by apply step_running.
Qed.

Lemma init_wired100 o ow root btn bar ovl w h :
  bindings (Layout100.init o ow root btn bar ovl w h) = wiring.
Proof.
  unfold Layout100.init, Layout100._create, Layout100._initEvents,
    Layout100._initWidget, block. cbn [foldl].
  match goal with |- context [Layout100._resizeLayout ?s] =>
    destruct (resizeLayout_keeps s) as (_ & _ & _ & _ & _ & _ & Hb) end.
  cbn. by rewrite Hb.
Qed.

Lemma trigger_wired100 (s : Layout100.State) :
  bindings s = wiring →
  Layout100.trigger Window "resize" s = Layout100._onResize s ∧
  Layout100.trigger (On Navbtn) "click" s = Layout100._onToggle s ∧
  Layout100.trigger (On Overlay) "click" s = Layout100._onToggle s ∧
  Layout100.trigger (On Layout) "click" s = s ∧
  Layout100.trigger (On Navbar) "click" s = s.
Proof. intros H. unfold Layout100.trigger, handlers. by rewrite H. Qed.

Lemma trigger_unbound100 (src : Source) (ev : string) (s : Layout100.State) :
  bindings s = [] → Layout100.trigger src ev s = s.
Proof. intros H. unfold Layout100.trigger, handlers. by rewrite H. Qed.

Lemma same_frame100_refl (s : Layout100.State) : same_frame100 s s.
Proof. by repeat split. Qed.

Lemma onToggle_frame100 (s : Layout100.State) :
  same_frame100 s (Layout100._onToggle s).
Proof.
  unfold Layout100._onToggle. destruct (truthy _); by open_state100 s.
Qed.

Lemma fx_end_frame100 (r : Region) (s : Layout100.State) :
  same_frame100 s (fx_end r s).
Proof. open_state100 s. by destruct r. Qed.

Lemma same_frame_running100 (s s' : Layout100.State) :
  same_frame100 s s' → running100 s → running100 s'.
Proof.
  intros (_ & _ & Hr & _ & Hf & Hn & Hb) [Hw [Hs Hlt]].
  unfold running100, sched_ok. by rewrite Hr, Hf, Hn, Hb.
Qed.

Lemma onResize_frames100 (s : Layout100.State) :
  sched_ok (Layout100.resizeAnimationFrame (this s)) s →
  frames (Layout100._onResize s) = [nextFrame s] ∧
  Layout100.resizeAnimationFrame (this (Layout100._onResize s)) =
    Some (nextFrame s) ∧
  nextFrame (Layout100._onResize s) = Pos.succ (nextFrame s) ∧
  bindings (Layout100._onResize s) = bindings s ∧
  windowWidth (Layout100._onResize s) = windowWidth s ∧
  Layout100.opts (Layout100._onResize s) = Layout100.opts s ∧
  Layout100.isMobile (this (Layout100._onResize s)) =
    Layout100.isMobile (this s).
Proof.
  intros [Hs _]. open_state100 s. unfold Layout100._onResize. cbn in *.
  destruct Hs as [-> | (h & -> & ->)]; [by destruct raf|].
  cbn. by rewrite Pos.eqb_refl.
Qed.

Lemma animationFrame_cases100 (s : Layout100.State) :
  sched_ok (Layout100.resizeAnimationFrame (this s)) s →
  (frames s = [] ∧ Layout100.animationFrame s = s) ∨
  (∃ h, frames s = [h] ∧
        Layout100.animationFrame s =
          Layout100._resizeLayout (with_frames [] (nextFrame s) s)).
Proof.
  intros [[H | (h & H & _)] _]; unfold Layout100.animationFrame; rewrite H.
  - left. split; [done|]. open_state100 s. cbn in *. by subst.
  - right. by exists h.
Qed.

Lemma init_running100 o ow root btn bar ovl w h :
  running100 (Layout100.init o ow root btn bar ovl w h).
Proof.
  split; [left; apply init_wired100|].
  unfold Layout100.init, Layout100._create, Layout100._initEvents,
    Layout100._initWidget, block. cbn [foldl].
  match goal with |- context [Layout100._resizeLayout ?s] =>
    destruct (resizeLayout_keeps s) as (_ & _ & _ & Hf & Hn & Hr & _) end.
  unfold sched_ok. cbn. rewrite Hf, Hr. split; [by left | done].
Qed.

Lemma step_running100 (s : Layout100.State) (ev : Event) :
  running100 s → running100 (Layout100.step s ev).
Proof.
  intros Hrun. pose proof Hrun as [Hw Hs].
  destruct ev as [w | | r | r | | | |]; cbn [Layout100.step]; try done.
  - destruct Hw as [Hw | Hw]; [|by rewrite trigger_unbound100].
    assert (Hw' : bindings (with_windowWidth w s) = wiring) by done.
    destruct (trigger_wired100 _ Hw') as (-> & _).
    assert (Hs' : sched_ok
                    (Layout100.resizeAnimationFrame (this (with_windowWidth w s)))
                    (with_windowWidth w s)) by done.
    destruct (onResize_frames100 _ Hs') as (Hf & Hr & Hn & Hb & _).
    split; [left; by rewrite Hb|]. unfold sched_ok. rewrite Hf, Hr, Hn. split.
    + right. by eexists.
    + intros h [= <-]. cbn. lia.
  - destruct (animationFrame_cases100 s Hs) as [[_ ->] | (h & Hh & ->)]; [done|].
    match goal with |- context [Layout100._resizeLayout ?s] =>
      destruct (resizeLayout_keeps s) as (_ & _ & _ & Hf & Hn & Hr & Hb) end.
    split; [by rewrite Hb|]. unfold sched_ok. rewrite Hf, Hn, Hr. cbn.
    split; [by left | apply Hs].
  - destruct Hw as [Hw | Hw]; [|by rewrite trigger_unbound100].
    destruct (trigger_wired100 _ Hw) as (_ & Hb & Ho & Hl & Hn).
    destruct r; rewrite ?Hb, ?Ho, ?Hl, ?Hn; try done;
      exact (same_frame_running100 _ _ (onToggle_frame100 s) Hrun).
  - exact (same_frame_running100 _ _ (fx_end_frame100 r s) Hrun).
  - destruct Hs as [Hs Hlt]. split; [done|]. split; [done|].
    intros h Hh. specialize (Hlt h Hh). cbn. lia.
  - split; [by right | done].
Qed.

Lemma run_running100 (evs : list Event) (s : Layout100.State) :
  running100 s → running100 (Layout100.run evs s).
Proof.
  revert s. induction evs as [|ev evs IH]; intros s H; [done|].
  cbn. apply IH. by apply step_running100.
Qed.

(** Until it is destroyed, an instance of version 1.0.0 keeps its
    bindings. *)
Lemma step_wired100 (s : Layout100.State) (ev : Event) :
  running100 s → bindings s = wiring → ev ≠ CallDestroy →
  bindings (Layout100.step s ev) = wiring.
Proof.
  intros [_ Hs] Hw Hev.
  destruct ev as [w | | r | r | | | |]; cbn [Layout100.step]; try done.
  - assert (Hw' : bindings (with_windowWidth w s) = wiring) by done.
    destruct (trigger_wired100 _ Hw') as (-> & _).
    assert (Hs' : sched_ok
                    (Layout100.resizeAnimationFrame (this (with_windowWidth w s)))
                    (with_windowWidth w s)) by done.
    destruct (onResize_frames100 _ Hs') as (_ & _ & _ & Hb & _). by rewrite Hb.
  - destruct (animationFrame_cases100 s Hs) as [[_ ->] | (h & Hh & ->)]; [done|].
    match goal with |- context [Layout100._resizeLayout ?s] =>
      destruct (resizeLayout_keeps s) as (_ & _ & _ & _ & _ & _ & Hb) end.
    by rewrite Hb.
  - destruct (trigger_wired100 _ Hw) as (_ & Hb & Ho & Hl & Hn).
    destruct r; rewrite ?Hb, ?Ho, ?Hl, ?Hn; try done;
      by destruct (onToggle_frame100 s) as (_ & _ & _ & _ & _ & _ & ->).
  - by destruct (fx_end_frame100 r s) as (_ & _ & _ & _ & _ & _ & ->).
Qed.

Lemma run_wired100 (evs : list Event) (s : Layout100.State) :
  running100 s → bindings s = wiring → CallDestroy ∉ evs →
  bindings (Layout100.run evs s) = wiring.
Proof.
  revert s. induction evs as [|ev evs IH]; intros s Hr Hw Hd; [done|].
  apply not_elem_of_cons in Hd as [Hev Hd].
  cbn. apply IH; [by apply step_running100 | by apply step_wired100 | done].
Qed.


Lemma resized_running (s : Layout.State) (w : Z) :
  running s →
  frames (Layout.step s (Resized w)) = [nextFrame s] ∧
  windowWidth (Layout.step s (Resized w)) = w.
Proof.
  intros [Hw Hs]. cbn [Layout.step].
  assert (Hw' : bindings (with_windowWidth w s) = wiring) by done.
  destruct (trigger_wired _ Hw') as (-> & _).
  assert (Hs' : sched_ok (Layout.resizeAnimationFrame (this (with_windowWidth w s)))
                  (with_windowWidth w s)) by done.
  by destruct (onResize_frames _ Hs') as (-> & _ & _ & _ & -> & _).
Qed.





(** ** Open and close: the effects queues *)

Ltac open_queue e :=
  let c := fresh "c" in
  let st := fresh "st" in
  let q := fresh "q" in
  let od := fresh "od" in
  destruct e as [c st q od]; destruct q as [|? [|? ?]].

Lemma display_none_hidden (e : Elem) : display_none e = true ↔ hidden e.
Proof.
  unfold display_none, hidden. destruct (style e !! "display") as [d|]; [|done].
  split.
  - intros H. apply String.eqb_eq in H. by subst.
  - intros [= ->]. reflexivity.
Qed.

Lemma css_fx (props : list (string * CssVal)) (e : Elem) :
  fx (css props e) = fx e.
Proof. done. Qed.

Lemma show_fx (e : Elem) : fx (show e) = fx e.
Proof. unfold show. by destruct (display_none e). Qed.

Lemma hide_fx (e : Elem) : fx (hide e) = fx e.
Proof. unfold hide. by destruct (display_none e). Qed.

Lemma hide_hidden (e : Elem) : hidden (hide e).
Proof.
  unfold hide. destruct (display_none e) eqn:H.
  - by apply display_none_hidden.
  - unfold hidden. cbn. unfold css_set, style_set. cbn. apply lookup_insert_eq.
Qed.

Lemma fx_start_fx (a : Anim) (e : Elem) : fx (fx_start a e) = fx e.
Proof. destruct a; cbn; auto using show_fx. Qed.

Lemma fx_finish_fx (a : Anim) (e : Elem) : fx (fx_finish a e) = fx e.
Proof. destruct a; cbn; auto using hide_fx. Qed.

(** The queue after an animation is put on an idle element. *)
Lemma fx_go_one (a : Anim) (e : Elem) : fx (fx_go [a] e) = pending a.
Proof.
  unfold pending. cbn. destruct (instant a); [done|].
  by rewrite fx_start_fx.
Qed.

Lemma pending_calm (a : Anim) : (length (pending a) ≤ 1)%nat.
Proof. unfold pending. destruct (instant a); cbn; lia. Qed.

Lemma stop_calm (e : Elem) :
  (length (fx e) ≤ 1)%nat → fx_stop e = with_fx [] e.
Proof. open_queue e; cbn; [done | done | lia]. Qed.

Lemma stop_enqueue (a : Anim) (e : Elem) :
  (length (fx e) ≤ 1)%nat → fx (fx_enqueue a (fx_stop e)) = pending a.
Proof.
  intros H. rewrite stop_calm by done. unfold fx_enqueue.
  cbn [fx with_fx]. apply fx_go_one.
Qed.


Lemma open_calm (s : Layout.State) : calm s → calm (Layout._open s).
Proof.
  intros [Hb Ho]. open_state s. cbn in *.
  split; cbn; rewrite stop_enqueue by done; apply pending_calm.
Qed.

Lemma close_calm (s : Layout.State) : calm s → calm (Layout._close s).
Proof.
  intros [Hb Ho]. open_state s. cbn in *.
  split; cbn; rewrite stop_enqueue by done; apply pending_calm.
Qed.


Lemma applied_fx (s : Layout.State) :
  fx (el_navbar (Layout._applyMobile s)) = fx (el_navbar s) ∧
  fx (el_overlay (Layout._applyMobile s)) = fx (el_overlay s) ∧
  fx (el_navbar (Layout._applyDesktop s)) = fx (el_navbar s) ∧
  fx (el_overlay (Layout._applyDesktop s)) = fx (el_overlay s) ∧
  fx (el_navbar (Layout._applySidebar s)) = fx (el_navbar s) ∧
  fx (el_overlay (Layout._applySidebar s)) = fx (el_overlay s) ∧
  fx (el_navbar (Layout.destroy s)) = fx (el_navbar s) ∧
  fx (el_overlay (Layout.destroy s)) = fx (el_overlay s).
Proof. by open_state s. Qed.







(** The options never change. *)
Lemma step_opts (s : Layout.State) (ev : Event) :
  running s → Layout.opts (Layout.step s ev) = Layout.opts s.
Proof.
  intros [Hw Hs].
  destruct ev as [w | | r | r | | | |]; cbn [Layout.step].
  - assert (Hw' : bindings (with_windowWidth w s) = wiring) by done.
    destruct (trigger_wired _ Hw') as (-> & _).
    assert (Hs' : sched_ok (Layout.resizeAnimationFrame (this (with_windowWidth w s)))
                    (with_windowWidth w s)) by done.
    by destruct (onResize_frames _ Hs') as (_ & _ & _ & _ & _ & -> & _).
  - destruct (animationFrame_cases s Hs) as [[_ ->] | (h & Hh & ->)]; [done|].
    by destruct (resize_keeps (with_frames [] (nextFrame s) s)) as (-> & _).
  - destruct (trigger_wired _ Hw) as (_ & Hb & Ho & Hl & Hn).
    destruct r; rewrite ?Hb, ?Ho, ?Hl, ?Hn; try done;
      by destruct (onToggle_frame s) as (-> & _).
  - by destruct (fx_end_frame r s) as (-> & _).
  - done.
  - by destruct (public_open_frame s) as (-> & _).
  - by destruct (public_close_frame s) as (-> & _).
  - by destruct (destroy_frame s) as (-> & _).
Qed.

Lemma run_opts (evs : list Event) (s : Layout.State) :
  running s → Layout.opts (Layout.run evs s) = Layout.opts s.
Proof.
  revert s. induction evs as [|ev evs IH]; intros s Hr; [done|].
  change (Layout.run (ev :: evs) s) with (Layout.run evs (Layout.step s ev)).
  rewrite IH by (by apply step_running). by apply step_opts.
Qed.

Lemma init_opts o root btn bar ovl w h :
  Layout.opts (Layout.init o root btn bar ovl w h) = o.
Proof.
  rewrite init_unfold.
  match goal with |- context [Layout._resize ?s] =>
    by destruct (resize_keeps s) as (-> & _) end.
Qed.



(** ** Showing and hiding *)

Lemma show_display (e : Elem) :
  style (show e) !! "display" =
    if display_none e
    then (if String.eqb (olddisplay e) "" then None else Some (olddisplay e))
    else style e !! "display".
Proof.
  unfold show. destruct (display_none e); [|done].
  cbn. unfold css_set, style_set, decl_set. cbn.
  destruct (String.eqb (olddisplay e) ""); by simplify_map_eq.
Qed.

Lemma show_with_fx (q : list Anim) (e : Elem) :
  show (with_fx q e) = with_fx q (show e).
Proof.
  unfold show, display_none. cbn.
  by destruct (style e !! "display") as [x|]; [destruct (String.eqb x "none")|].
Qed.

Lemma show_visible (e : Elem) : restorable e → visible (show e).
Proof.
  intros Hr. unfold visible. rewrite show_display.
  destruct (display_none e) eqn:Hd.
  - destruct (String.eqb _ _); [done|]. intros [= H]. by apply Hr.
  - intros H. apply display_none_hidden in H. congruence.
Qed.

Lemma show_displayed (e : Elem) :
  olddisplay e = "" → hidden e → displayed (show e).
Proof.
  intros Ho Hh. unfold displayed. rewrite show_display.
  apply display_none_hidden in Hh. by rewrite Hh, Ho.
Qed.

Lemma hide_restorable (e : Elem) : restorable e → restorable (hide e).
Proof.
  intros Hr. unfold hide, restorable. destruct (display_none e) eqn:Hd; [done|].
  cbn. unfold display_none in Hd.
  destruct (style e !! "display") as [d|]; cbn; [|done].
  intros ->. done.
Qed.

(** ** One transition on one element *)

(** The panel after [.stop().animate({ left: z }, d, ea)], and after that
    animation has ended. *)
Lemma slide_result (z d : Z) (ea : string) (e : Elem) :
  (length (fx e) ≤ 1)%nat →
  let a := Animate [("left", Num z)] d ea in
  let e1 := fx_enqueue a (fx_stop e) in
  fx e1 = pending a ∧
  (instant a = true → style e1 !! "left" = Some (pretty z +:+ "px")) ∧
  fx (fx_done e1) = [] ∧
  style (fx_done e1) !! "left" = Some (pretty z +:+ "px").
Proof.
  intros H a e1. unfold e1. rewrite stop_calm by done.
  unfold fx_enqueue. cbn [fx with_fx]. unfold pending, a. cbn.
  destruct (instant _); css_norm; split_and!; try done;
    intros; by simplify_map_eq.
Qed.


(** The overlay after [.stop().fadeIn(d, ea)], and after the fade has
    ended: it is shown as soon as the fade starts. *)
Lemma fade_in_result (d : Z) (ea : string) (e : Elem) :
  (length (fx e) ≤ 1)%nat →
  let a := FadeIn d ea in
  let e1 := fx_enqueue a (fx_stop e) in
  fx e1 = pending a ∧
  style e1 !! "display" = style (show e) !! "display" ∧
  fx (fx_done e1) = [] ∧
  style (fx_done e1) !! "display" = style (show e) !! "display".
Proof.
  intros H a e1. unfold e1. rewrite stop_calm by done.
  unfold fx_enqueue. cbn [fx with_fx]. unfold pending, a. cbn.
  destruct (instant _); cbn; rewrite ?show_with_fx; cbn; done.
Qed.



(** ** The presentations *)

Lemma applyMobile_style (s : Layout.State) :
  let s' := Layout._applyMobile s in
  let o := Layout.opts s in
  style (el_navbar s') !! "position" = Some "absolute" ∧
  style (el_navbar s') !! "left" =
    Some (if truthy (Layout.isShown (this s)) then "0"
          else pretty (- Layout.width o) +:+ "px") ∧
  style (el_navbar s') !! "width" =
    Some (pretty (Z.max 0 (Layout.width o)) +:+ "px") ∧
  displayed (el_navbtn s') ∧
  style (el_overlay s') !! "position" = Some "absolute" ∧
  style (el_overlay s') !! "display" =
    (if truthy (Layout.isShown (this s)) then None else Some "none").
Proof.
  open_state s. unfold displayed. css_norm.
  destruct (truthy sh); css_norm; split_and!; by simplify_map_eq.
Qed.

Lemma applySidebar_style (s : Layout.State) :
  let s' := Layout._applySidebar s in
  let o := Layout.opts s in
  style (el_navbar s') !! "position" = None ∧
  style (el_navbar s') !! "width" =
    Some (pretty (Z.max 0 (Layout.width o)) +:+ "px") ∧
  hidden (el_navbtn s') ∧ hidden (el_overlay s').
Proof.
  open_state s. unfold hidden. css_norm. split_and!; by simplify_map_eq.
Qed.

Lemma applyDesktop_style (s : Layout.State) :
  let s' := Layout._applyDesktop s in
  style (el_navbar s') !! "position" = None ∧
  style (el_navbar s') !! "width" = None ∧
  hidden (el_navbtn s') ∧ hidden (el_overlay s').
Proof.
  open_state s. unfold hidden. css_norm. split_and!; by simplify_map_eq.
Qed.

Lemma applyMobileLayout_style (s : Layout100.State) (nw : Z) :
  Layout100.navbarWidth (this s) = Some nw →
  let s' := Layout100._applyMobileLayout s in
  style (el_navbar s') !! "position" = Some "absolute" ∧
  style (el_navbar s') !! "left" =
    (if truthy (Layout100.navbarOpen (this s)) then None
     else Some (pretty (- nw) +:+ "px")) ∧
  style (el_navbar s') !! "width" = None ∧
  el_navbtn s' = show (el_navbtn s) ∧
  el_overlay s' = toggle (truthy (Layout100.navbarOpen (this s))) (el_overlay s).
Proof.
  intros H. open_state100 s. cbn in H. subst.
  split_and!; [| | |reflexivity|reflexivity];
    css_norm; destruct (truthy nopen); css_norm; by simplify_map_eq.
Qed.

Lemma applyDesktopLayout_style (s : Layout100.State) :
  let s' := Layout100._applyDesktopLayout s in
  style (el_navbar s') !! "position" = None ∧
  style (el_navbar s') !! "left" = None ∧
  style (el_navbar s') !! "width" =
    (if Layout100.sidebar (Layout100.opts s) then None else Some "100%") ∧
  hidden (el_navbtn s') ∧ hidden (el_overlay s').
Proof.
  open_state100 s.
  split_and!; [| | |apply hide_hidden|apply hide_hidden];
    css_norm; destruct (Layout100.sidebar o); css_norm; by simplify_map_eq.
Qed.

(** Which procedure a layout evaluation calls. *)
Lemma resize_applies (s : Layout.State) :
  let b := windowWidth s <? Layout.breakpoint (Layout.opts s) in
  Layout.isMobile (this s) ≠ Some b →
  Layout._resize s =
    (if b then Layout._applyMobile
     else if Layout.o_sidebar (Layout.opts s) then Layout._applySidebar
          else Layout._applyDesktop) (Layout.set_isMobile b s).
Proof.
  intros b H. unfold Layout._resize, strict_neq. fold b.
  by rewrite bool_decide_eq_false_2.
Qed.

Lemma resizeLayout_applies (s : Layout100.State) :
  let b := windowWidth s <? Layout100.breakpoint (Layout100.opts s) in
  Layout100.isMobile (this s) ≠ Some b →
  Layout100._resizeLayout s =
    (if b then Layout100._applyMobileLayout else Layout100._applyDesktopLayout)
      (Layout100.set_isMobile b s).
Proof.
  intros b H. unfold Layout100._resizeLayout, strict_neq. fold b.
  by rewrite bool_decide_eq_false_2.
Qed.

(** A resize notification followed by a frame is one layout evaluation at
    the new width. *)
Lemma onResize_exact (s : Layout.State) :
  sched_ok (Layout.resizeAnimationFrame (this s)) s →
  Layout._onResize s =
    Layout.set_resizeAnimationFrame (nextFrame s)
      (with_frames [nextFrame s] (Pos.succ (nextFrame s)) s).
Proof.
  intros [Hs _]. open_state s. unfold Layout._onResize. cbn in *.
  destruct Hs as [-> | (h & -> & ->)]; [by destruct raf|].
  cbn. by rewrite Pos.eqb_refl.
Qed.

Lemma resized_frame (s : Layout.State) (w : Z) :
  running s →
  Layout.run [Resized w; AnimationFrame] s =
    Layout._resize
      (Layout.set_resizeAnimationFrame (nextFrame s)
         (with_frames [] (Pos.succ (nextFrame s)) (with_windowWidth w s))).
Proof.
  intros [Hw Hs]. cbn [Layout.run foldl Layout.step].
  assert (Hw' : bindings (with_windowWidth w s) = wiring) by done.
  destruct (trigger_wired _ Hw') as (-> & _).
  rewrite onResize_exact by done. by destruct s.
Qed.

Lemma cross_into_mobile (s : Layout.State) (w : Z) :
  running s →
  Layout.isMobile (this s) ≠ Some true →
  w < Layout.breakpoint (Layout.opts s) →
  let s' := Layout.run [Resized w; AnimationFrame] s in
  let o := Layout.opts s in
  Layout.isMobile (this s') = Some true ∧
  Layout.isShown (this s') = Layout.isShown (this s) ∧
  style (el_navbar s') !! "position" = Some "absolute" ∧
  style (el_navbar s') !! "left" =
    Some (if truthy (Layout.isShown (this s)) then "0"
          else pretty (- Layout.width o) +:+ "px") ∧
  style (el_navbar s') !! "width" =
    Some (pretty (Z.max 0 (Layout.width o)) +:+ "px") ∧
  displayed (el_navbtn s') ∧
  style (el_overlay s') !! "display" =
    (if truthy (Layout.isShown (this s)) then None else Some "none").
Proof.
  intros Hrun Hm Hw. cbn zeta. rewrite resized_frame by done.
  set (s1 := Layout.set_resizeAnimationFrame _ _).
  assert (Hb : (windowWidth s1 <? Layout.breakpoint (Layout.opts s1)) = true).
  { apply Z.ltb_lt. by destruct s. }
  pose proof (resize_applies s1) as Ha. cbn zeta in Ha. rewrite Hb in Ha.
  rewrite Ha by (by destruct s).
  destruct (applyMobile_style (Layout.set_isMobile true s1))
    as (H1 & H2 & H3 & H4 & H5 & H6).
  split_and!; try done; by destruct s.
Qed.

Lemma init_exact o root btn bar ovl w h :
  Layout.init o root btn bar ovl w h =
    (if w <? Layout.breakpoint o then Layout._applyMobile
     else if Layout.o_sidebar o then Layout._applySidebar
          else Layout._applyDesktop)
      (mkWorld (Layout.mkInstance o (Some (w <? Layout.breakpoint o)) None None)
         root btn bar ovl w [] h wiring []).
Proof.
  unfold Layout.init, Layout._create, Layout._initEvents, block. cbn [foldl].
  by rewrite resize_applies.
Qed.

Lemma init_fields o root btn bar ovl w h :
  let s := Layout.init o root btn bar ovl w h in
  Layout.isMobile (this s) = Some (w <? Layout.breakpoint o) ∧
  Layout.isShown (this s) = None.
Proof.
  cbn zeta. rewrite init_exact.
  by destruct (w <? Layout.breakpoint o), (Layout.o_sidebar o).
Qed.

Lemma onResize_exact100 (s : Layout100.State) :
  sched_ok (Layout100.resizeAnimationFrame (this s)) s →
  Layout100._onResize s =
    Layout100.set_resizeAnimationFrame (nextFrame s)
      (with_frames [nextFrame s] (Pos.succ (nextFrame s)) s).
Proof.
  intros [Hs _]. open_state100 s. unfold Layout100._onResize. cbn in *.
  destruct Hs as [-> | (h & -> & ->)]; [by destruct raf|].
  cbn. by rewrite Pos.eqb_refl.
Qed.

Lemma resized_frame100 (s : Layout100.State) (w : Z) :
  running100 s → bindings s = wiring →
  Layout100.run [Resized w; AnimationFrame] s =
    Layout100._resizeLayout
      (Layout100.set_resizeAnimationFrame (nextFrame s)
         (with_frames [] (Pos.succ (nextFrame s)) (with_windowWidth w s))).
Proof.
  intros [_ Hs] Hw. cbn [Layout100.run foldl Layout100.step].
  assert (Hw' : bindings (with_windowWidth w s) = wiring) by done.
  destruct (trigger_wired100 _ Hw') as (-> & _).
  rewrite onResize_exact100 by done. by destruct s.
Qed.

Lemma init_exact100 o ow root btn bar ovl w h :
  Layout100.init o ow root btn bar ovl w h =
    _on (On Overlay) "click" "_onToggle"
      (_on (On Navbtn) "click" "_onToggle"
         (_on Window "resize" "_onResize"
            ((if w <? Layout100.breakpoint o then Layout100._applyMobileLayout
              else Layout100._applyDesktopLayout)
               (mkWorld
                  (Layout100.mkInstance o (Some false) (Some ow)
                     (Some (w <? Layout100.breakpoint o)) None)
                  root btn bar ovl w [] h [] [])))).
Proof.
  unfold Layout100.init, Layout100._create, Layout100._initEvents,
    Layout100._initWidget, block. cbn [foldl].
  by rewrite resizeLayout_applies.
Qed.


(** What each mode procedure leaves on the panel, the toggle and the
    overlay, and how many jQuery calls it makes. *)
Lemma applied_observables (s : Layout.State) (b : bool) :
  let s' :=
    (if b then Layout._applyMobile
     else if Layout.o_sidebar (Layout.opts s) then Layout._applySidebar
          else Layout._applyDesktop) s in
  style (el_navbar s') !! "position" = (if b then Some "absolute" else None) ∧
  style (el_navbtn s') !! "display" = (if b then None else Some "none") ∧
  style (el_overlay s') !! "position" = (if b then Some "absolute" else None) ∧
  length (writes s') = (length (writes s) + 6)%nat.
Proof.
  open_state s. cbn [Layout.opts this Layout.options].
  destruct b; [|destruct (Layout.o_sidebar o)]; cbn zeta; css_norm;
    try destruct (truthy sh); css_norm;
    (split_and!; [by simplify_map_eq | by simplify_map_eq | by simplify_map_eq |
                  rewrite !length_app; cbn; lia]).
Qed.

Lemma applied_observables100 (s : Layout100.State) (b : bool) :
  let s' :=
    (if b then Layout100._applyMobileLayout
     else Layout100._applyDesktopLayout) s in
  style (el_navbar s') !! "position" = (if b then Some "absolute" else None) ∧
  (if b
   then el_navbtn s' = show (el_navbtn s) ∧
        el_overlay s' =
          toggle (truthy (Layout100.navbarOpen (this s))) (el_overlay s)
   else hidden (el_navbtn s') ∧ hidden (el_overlay s')) ∧
  length (writes s') = (length (writes s) + 6)%nat.
Proof.
  cbn zeta. destruct b.
  - open_state100 s. split_and!; [| reflexivity | reflexivity |].
    + css_norm. destruct (truthy nopen), nwidth; css_norm; by simplify_map_eq.
    + cbn. rewrite !length_app. cbn. lia.
  - destruct (applyDesktopLayout_style s) as (D1 & _ & _ & D2 & D3).
    split_and!; [exact D1 | exact D2 | exact D3 |].
    open_state100 s. cbn. rewrite !length_app. cbn. lia.
Qed.

(** C2.  The first layout evaluation, which finds the stored mode
    undefined, applies a mode: with [b] telling whether the width is below
    the breakpoint, it stores [b] and runs the mode procedure that [b] and
    the sidebar flag select.  Six jQuery calls are made on the elements;
    the panel and the overlay are positioned absolutely exactly when [b]
    holds; the toggle is hidden exactly when it does not (in version 1.0.0
    [.show()] is called on it when [b] holds, and the overlay is shown or
    hidden as [navbarOpen] says, and hidden when [b] does not hold).
    Evaluating again at any width on the same side of the breakpoint leaves
    the whole world, trace of calls included, as it is.  Both hold for
    [_resize] of version 1.0.1 and for [_resizeLayout] of version 1.0.0. *)
Theorem resize_first_pass_then_idempotent :
  (∀ s : Layout.State,
     Layout.isMobile (this s) = None →
     let b := windowWidth s <? Layout.breakpoint (Layout.opts s) in
     let s' := Layout._resize s in
     s' =
       (if b then Layout._applyMobile
        else if Layout.o_sidebar (Layout.opts s) then Layout._applySidebar
             else Layout._applyDesktop) (Layout.set_isMobile b s) ∧
     Layout.isMobile (this s') = Some b ∧
     extends (writes s) (writes s') ∧
     length (writes s') = (length (writes s) + 6)%nat ∧
     style (el_navbar s') !! "position" = (if b then Some "absolute" else None) ∧
     style (el_navbtn s') !! "display" = (if b then None else Some "none") ∧
     style (el_overlay s') !! "position" = (if b then Some "absolute" else None)) ∧
  (∀ (s : Layout.State) (w' : Z),
     (w' <? Layout.breakpoint (Layout.opts s)) =
       (windowWidth s <? Layout.breakpoint (Layout.opts s)) →
     Layout._resize (with_windowWidth w' (Layout._resize s)) =
       with_windowWidth w' (Layout._resize s)) ∧
  (∀ s : Layout100.State,
     Layout100.isMobile (this s) = None →
     let b := windowWidth s <? Layout100.breakpoint (Layout100.opts s) in
     let s' := Layout100._resizeLayout s in
     s' =
       (if b then Layout100._applyMobileLayout
        else Layout100._applyDesktopLayout) (Layout100.set_isMobile b s) ∧
     Layout100.isMobile (this s') = Some b ∧
     extends (writes s) (writes s') ∧
     length (writes s') = (length (writes s) + 6)%nat ∧
     style (el_navbar s') !! "position" = (if b then Some "absolute" else None) ∧
     (if b
      then el_navbtn s' = show (el_navbtn s) ∧
           el_overlay s' =
             toggle (truthy (Layout100.navbarOpen (this s))) (el_overlay s)
      else hidden (el_navbtn s') ∧ hidden (el_overlay s'))) ∧
  (∀ (s : Layout100.State) (w' : Z),
     (w' <? Layout100.breakpoint (Layout100.opts s)) =
       (windowWidth s <? Layout100.breakpoint (Layout100.opts s)) →
     Layout100._resizeLayout (with_windowWidth w' (Layout100._resizeLayout s)) =
       with_windowWidth w' (Layout100._resizeLayout s)).
Proof.
  split_and!.
  - intros s H b s'.
    assert (Ha : s' =
      (if b then Layout._applyMobile
       else if Layout.o_sidebar (Layout.opts s) then Layout._applySidebar
            else Layout._applyDesktop) (Layout.set_isMobile b s)).
    { apply resize_applies. by rewrite H. }
    split; [exact Ha|]. split; [apply resize_mode|].
    split; [by apply resize_first|].
    destruct (applied_observables (Layout.set_isMobile b s) b)
      as (O1 & O2 & O3 & O4).
    cbn zeta in O1, O2, O3, O4.
    change (Layout.opts (Layout.set_isMobile b s)) with (Layout.opts s)
      in O1, O2, O3, O4.
    rewrite <- Ha in O1, O2, O3, O4.
    split_and!; [exact O4 | exact O1 | exact O2 | exact O3].
  - intros s w' Hside. apply resize_stable.
    destruct (resize_keeps s) as (Ho & _).
    change (Layout.opts (with_windowWidth w' (Layout._resize s)))
      with (Layout.opts (Layout._resize s)).
    change (Layout.isMobile (this (with_windowWidth w' (Layout._resize s))))
      with (Layout.isMobile (this (Layout._resize s))).
    rewrite resize_mode, Ho. cbn. by rewrite Hside.
  - intros s H b s'.
    assert (Ha : s' =
      (if b then Layout100._applyMobileLayout
       else Layout100._applyDesktopLayout) (Layout100.set_isMobile b s)).
    { apply resizeLayout_applies. by rewrite H. }
    split; [exact Ha|]. split; [apply resizeLayout_mode|].
    split; [by apply resizeLayout_first|].
    destruct (applied_observables100 (Layout100.set_isMobile b s) b)
      as (O1 & O2 & O3).
    cbn zeta in O1, O2, O3. rewrite <- Ha in O1, O2, O3.
    split_and!; [exact O3 | exact O1 | exact O2].
  - intros s w' Hside. apply resizeLayout_stable.
    destruct (resizeLayout_keeps s) as (Ho & _).
    change (Layout100.opts (with_windowWidth w' (Layout100._resizeLayout s)))
      with (Layout100.opts (Layout100._resizeLayout s)).
    change (Layout100.isMobile
              (this (with_windowWidth w' (Layout100._resizeLayout s))))
      with (Layout100.isMobile (this (Layout100._resizeLayout s))).
    rewrite resizeLayout_mode, Ho. cbn. by rewrite Hside.
Qed.

Lemma resize_first_pass_then_idempotent_witness :
  let p := Layout.page Layout.defaults blank blank blank blank 1000 1 in
  let p100 :=
    Layout100.page Layout100.defaults blank blank blank blank 1300 1 in
  Layout._resize p = Layout._applyMobile (Layout.set_isMobile true p) ∧
  Layout.isMobile (this (Layout._resize p)) = Some true ∧
  extends (writes p) (writes (Layout._resize p)) ∧
  length (writes (Layout._resize p)) = (length (writes p) + 6)%nat ∧
  style (el_navbar (Layout._resize p)) !! "position" = Some "absolute" ∧
  Layout._resize (with_windowWidth 900 (Layout._resize (started 1000))) =
    with_windowWidth 900 (Layout._resize (started 1000)) ∧
  Layout100._resizeLayout p100 =
    Layout100._applyDesktopLayout (Layout100.set_isMobile false p100) ∧
  Layout100.isMobile (this (Layout100._resizeLayout p100)) = Some false ∧
  extends (writes p100) (writes (Layout100._resizeLayout p100)) ∧
  hidden (el_navbtn (Layout100._resizeLayout p100)) ∧
  Layout100._resizeLayout
    (with_windowWidth 1500 (Layout100._resizeLayout (started100 1300))) =
    with_windowWidth 1500 (Layout100._resizeLayout (started100 1300)).
Proof.
  intros p p100.
  destruct resize_first_pass_then_idempotent as (H1 & H2 & H3 & H4).
  pose proof (H1 p eq_refl) as X. pose proof (H3 p100 eq_refl) as Y.
  cbv zeta in X, Y.
  destruct X as (Ha & Hb & Hc & Hd & He & _).
  destruct Y as (Hf & Hg & Hh & _ & _ & Hi & _).
  split_and!.
  - exact Ha.
  - exact Hb.
  - exact Hc.
  - exact Hd.
  - exact He.
  - apply (H2 (started 1000) 900). reflexivity.
  - exact Hf.
  - exact Hg.
  - exact Hh.
  - exact Hi.
  - apply (H4 (started100 1300) 1500). reflexivity.
Defined.

Lemma init_fields100 o ow root btn bar ovl w h :
  this (Layout100.init o ow root btn bar ovl w h) =
    Layout100.mkInstance o (Some false) (Some ow)
      (Some (w <? Layout100.breakpoint o)) None.
Proof. rewrite init_exact100. by destruct (w <? Layout100.breakpoint o). Qed.

Lemma cross_into_mobile100 (s : Layout100.State) (w nw : Z) :
  running100 s → bindings s = wiring →
  Layout100.isMobile (this s) ≠ Some true →
  Layout100.navbarWidth (this s) = Some nw →
  w < Layout100.breakpoint (Layout100.opts s) →
  let s' := Layout100.run [Resized w; AnimationFrame] s in
  Layout100.isMobile (this s') = Some true ∧
  style (el_navbar s') !! "position" = Some "absolute" ∧
  style (el_navbar s') !! "left" =
    (if truthy (Layout100.navbarOpen (this s)) then None
     else Some (pretty (- nw) +:+ "px")) ∧
  el_navbtn s' = show (el_navbtn s) ∧
  el_overlay s' = toggle (truthy (Layout100.navbarOpen (this s))) (el_overlay s).
Proof.
  intros Hrun Hwd Hm Hnw Hw. cbn zeta. rewrite resized_frame100 by done.
  set (s1 := Layout100.set_resizeAnimationFrame _ _).
  assert (Hb : (windowWidth s1 <? Layout100.breakpoint (Layout100.opts s1)) = true).
  { apply Z.ltb_lt. by destruct s. }
  pose proof (resizeLayout_applies s1) as Ha. cbn zeta in Ha. rewrite Hb in Ha.
  rewrite Ha by (by destruct s).
  assert (Hnw1 : Layout100.navbarWidth (this (Layout100.set_isMobile true s1)) = Some nw)
    by (by destruct s).
  destruct (applyMobileLayout_style _ nw Hnw1) as (H1 & H2 & H3 & H4 & H5).
  split_and!; [reflexivity | exact H1 | | |].
  - rewrite H2. by destruct s.
  - rewrite H4. by destruct s.
  - rewrite H5. by destruct s.
Qed.

Lemma minus_300_px : pretty (Z.opp 300) +:+ "px" = "-300px".
Proof. vm_compute. reflexivity. Qed.

Lemma init_nonmobile o root btn bar ovl w h :
  Layout.breakpoint o ≤ w →
  let s := Layout.init o root btn bar ovl w h in
  Layout.isMobile (this s) = Some false ∧
  Layout.isShown (this s) = None ∧
  hidden (el_navbtn s) ∧ hidden (el_overlay s) ∧
  style (el_navbar s) !! "position" = None.
Proof.
  intros Hw. cbn zeta. rewrite init_exact.
  assert (Hb : (w <? Layout.breakpoint o) = false) by (apply Z.ltb_ge; lia).
  rewrite Hb. destruct (Layout.o_sidebar o).
  - match goal with |- context [Layout._applySidebar ?s] =>
      destruct (applySidebar_style s) as (H1 & _ & H2 & H3) end.
    split_and!; [reflexivity | reflexivity | exact H2 | exact H3 | exact H1].
  - match goal with |- context [Layout._applyDesktop ?s] =>
      destruct (applyDesktop_style s) as (H1 & _ & H2 & H3) end.
    split_and!; [reflexivity | reflexivity | exact H2 | exact H3 | exact H1].
Qed.

Lemma on_frame {W} (src : Source) (ev hd : string) (s : World W) :
  this (_on src ev hd s) = this s ∧
  el_layout (_on src ev hd s) = el_layout s ∧
  el_navbtn (_on src ev hd s) = el_navbtn s ∧
  el_navbar (_on src ev hd s) = el_navbar s ∧
  el_overlay (_on src ev hd s) = el_overlay s.
Proof. done. Qed.

Lemma init_nonmobile100 o ow root btn bar ovl w h :
  Layout100.breakpoint o ≤ w →
  let s := Layout100.init o ow root btn bar ovl w h in
  hidden (el_navbtn s) ∧ hidden (el_overlay s) ∧
  style (el_navbar s) !! "position" = None.
Proof.
  intros Hw. cbn zeta. rewrite init_exact100.
  assert (Hb : (w <? Layout100.breakpoint o) = false) by (apply Z.ltb_ge; lia).
  rewrite Hb.
  match goal with |- context [Layout100._applyDesktopLayout ?s] =>
    destruct (applyDesktopLayout_style s) as (H1 & _ & _ & H2 & H3);
    generalize dependent (Layout100._applyDesktopLayout s) end.
  intros s H1 H2 H3.
  split_and!; [exact H2 | exact H3 | exact H1].
Qed.

Lemma init_navbtn100 o ow root btn bar ovl w h :
  el_navbtn (Layout100.init o ow root btn bar ovl w h) =
    (if w <? Layout100.breakpoint o then show btn else hide btn) ∧
  el_overlay (Layout100.init o ow root btn bar ovl w h) = hide ovl.
Proof.
  rewrite init_exact100. by destruct (w <? Layout100.breakpoint o).
Qed.

(** C5.  Breakpoint 1200, panel width 300 (the [width] option in version
    1.0.1, the measured outer width in version 1.0.0).  The widget starts
    at viewport width 1300, so in non-mobile mode, and nothing opens the
    navigation.  When the viewport gets width 1000 and the next frame
    comes, the mode is mobile, the panel's inline [left] is [-300px], the
    overlay has an inline [display: none] and the toggle has none any
    more.  Version 1.0.1 clears the toggle's inline [display]; version
    1.0.0 calls [.hide()] and then [.show()] on it, which puts the inline
    [display] the page gave it back, so there the toggle is what these two
    calls make of the page's toggle, and what jQuery kept for it before
    the widget started must not be [none], as jQuery sees to. *)
Theorem narrowing_to_mobile_closed :
  (∀ o root btn bar ovl h0,
     Layout.breakpoint o = 1200 → Layout.width o = 300 →
     let s0 := Layout.init o root btn bar ovl 1300 h0 in
     let s1 := Layout.run [Resized 1000; AnimationFrame] s0 in
     Layout.isMobile (this s0) = Some false ∧
     hidden (el_navbtn s0) ∧
     Layout.isMobile (this s1) = Some true ∧
     style (el_navbar s1) !! "left" = Some "-300px" ∧
     displayed (el_navbtn s1) ∧
     hidden (el_overlay s1)) ∧
  (∀ o root btn bar ovl h0,
     Layout100.breakpoint o = 1200 →
     restorable btn →
     let s0 := Layout100.init o 300 root btn bar ovl 1300 h0 in
     let s1 := Layout100.run [Resized 1000; AnimationFrame] s0 in
     Layout100.isMobile (this s0) = Some false ∧
     hidden (el_navbtn s0) ∧
     Layout100.isMobile (this s1) = Some true ∧
     style (el_navbar s1) !! "left" = Some "-300px" ∧
     el_navbtn s1 = show (hide btn) ∧
     visible (el_navbtn s1) ∧
     hidden (el_overlay s1)).
Proof.
  split.
  - intros o root btn bar ovl h0 Hbp Hwd s0 s1.
    assert (Hle : Layout.breakpoint o ≤ 1300) by (rewrite Hbp; lia).
    destruct (init_nonmobile o root btn bar ovl 1300 h0 Hle)
      as (Hm & Hs & Hh & _).
    fold s0 in Hm, Hs, Hh.
    assert (Ho : Layout.opts s0 = o) by apply init_opts.
    assert (Hrun : running s0) by apply init_running.
    assert (Hne : Layout.isMobile (this s0) ≠ Some true) by (rewrite Hm; discriminate).
    assert (Hlt : 1000 < Layout.breakpoint (Layout.opts s0)) by (rewrite Ho, Hbp; lia).
    destruct (cross_into_mobile s0 1000 Hrun Hne Hlt)
      as (H1 & _ & _ & H4 & _ & H6 & H7).
    fold s1 in H1, H4, H6, H7. rewrite Hs in H4, H7. rewrite Ho, Hwd in H4.
    change (truthy None) with false in H4, H7. rewrite minus_300_px in H4.
    split_and!; [exact Hm | exact Hh | exact H1 | exact H4 | exact H6 | exact H7].
  - intros o root btn bar ovl h0 Hbp Hres s0 s1.
    pose proof (init_fields100 o 300 root btn bar ovl 1300 h0) as Ht.
    fold s0 in Ht. rewrite Hbp in Ht.
    change (1300 <? 1200) with false in Ht.
    assert (Hle : Layout100.breakpoint o ≤ 1300) by (rewrite Hbp; lia).
    destruct (init_nonmobile100 o 300 root btn bar ovl 1300 h0 Hle) as (Hh & _).
    fold s0 in Hh.
    destruct (init_navbtn100 o 300 root btn bar ovl 1300 h0) as (Hbtn & Hovl).
    fold s0 in Hbtn, Hovl. rewrite Hbp in Hbtn.
    change (1300 <? 1200) with false in Hbtn. cbv iota in Hbtn.
    assert (Hrun : running100 s0) by apply init_running100.
    assert (Hw : bindings s0 = wiring) by apply init_wired100.
    assert (Hne : Layout100.isMobile (this s0) ≠ Some true) by (rewrite Ht; discriminate).
    assert (Hnw : Layout100.navbarWidth (this s0) = Some 300) by (by rewrite Ht).
    assert (Hlt : 1000 < Layout100.breakpoint (Layout100.opts s0)).
    { unfold Layout100.opts. rewrite Ht. cbn [Layout100.options]. rewrite Hbp. lia. }
    destruct (cross_into_mobile100 s0 1000 300 Hrun Hw Hne Hnw Hlt)
      as (H1 & _ & H3 & H4 & H5).
    fold s1 in H1, H3, H4, H5. rewrite Ht in H3, H5.
    cbn [Layout100.navbarOpen] in H3, H5.
    change (truthy (Some false)) with false in H3, H5.
    rewrite minus_300_px in H3. rewrite Hbtn in H4.
    split_and!; [by rewrite Ht | exact Hh | exact H1 | exact H3 | exact H4 | |].
    + rewrite H4. apply show_visible, hide_restorable, Hres.
    + rewrite H5. apply hide_hidden.
Qed.

Lemma resize_out_of_mobile100 (s : Layout100.State) :
  Layout100.breakpoint (Layout100.opts s) ≤ windowWidth s →
  Layout100.isMobile (this s) ≠ Some false →
  Layout100._resizeLayout s =
    Layout100._applyDesktopLayout (Layout100.set_isMobile false s).
Proof.
  intros Hw Hm. pose proof (resizeLayout_applies s) as Ha. cbn zeta in Ha.
  assert (Hb : (windowWidth s <? Layout100.breakpoint (Layout100.opts s)) = false)
    by (apply Z.ltb_ge; lia).
  rewrite Hb in Ha. by apply Ha.
Qed.

(** C6, amended.  Sidebar flag set, viewport not narrower than the
    breakpoint, and a layout evaluation that has a mode to apply.  In
    version 1.0.1 (distinct presentation classes, a width that is not
    negative) the root then carries the sidebar class and no other
    presentation class, the panel's inline width is the [width] option in
    pixels, and the toggle and the overlay are hidden.  Version 1.0.0 has
    no [width] option: there the root carries the sidebar class next to the
    desktop class, the toggle and the overlay are hidden, and the panel's
    inline width is cleared, left to the style sheet. *)
Theorem sidebar_presentation :
  (∀ s : Layout.State,
     Layout.o_sidebar (Layout.opts s) = true →
     NoDup (mode_classes (Layout.opts s)) →
     0 ≤ Layout.width (Layout.opts s) →
     Layout.breakpoint (Layout.opts s) ≤ windowWidth s →
     Layout.isMobile (this s) ≠ Some false →
     let s' := Layout._resize s in
     Layout.sidebar (Layout.classes (Layout.opts s)) ∈ classList (el_layout s') ∧
     count_present (mode_classes (Layout.opts s)) (el_layout s') = 1%nat ∧
     style (el_navbar s') !! "width" =
       Some (pretty (Layout.width (Layout.opts s)) +:+ "px") ∧
     hidden (el_navbtn s') ∧ hidden (el_overlay s')) ∧
  (∀ s : Layout100.State,
     Layout100.sidebar (Layout100.opts s) = true →
     NoDup (mode_classes100 (Layout100.opts s)) →
     Layout100.breakpoint (Layout100.opts s) ≤ windowWidth s →
     Layout100.isMobile (this s) ≠ Some false →
     let s' := Layout100._resizeLayout s in
     let c := Layout100.classes (Layout100.opts s) in
     Layout100.layoutSidebar c ∈ classList (el_layout s') ∧
     Layout100.layoutDesktop c ∈ classList (el_layout s') ∧
     style (el_navbar s') !! "width" = None ∧
     hidden (el_navbtn s') ∧ hidden (el_overlay s')).
Proof.
  split.
  - intros s Hsb Hnd Hpos Hw Hm. cbn zeta.
    pose proof (resize_applies s) as Ha. cbn zeta in Ha.
    assert (Hb : (windowWidth s <? Layout.breakpoint (Layout.opts s)) = false)
      by (apply Z.ltb_ge; lia).
    rewrite Hb, Hsb in Ha. rewrite Ha by done.
    set (s1 := Layout.set_isMobile false s).
    assert (Ho : Layout.opts s = Layout.opts s1) by by destruct s.
    rewrite Ho in Hnd, Hpos |- *.
    destruct (applySidebar_root s1 Hnd) as [H1 H2].
    destruct (applySidebar_style s1) as (_ & H3 & H4 & H5).
    cbn zeta in H3. rewrite Z.max_r in H3 by exact Hpos.
    done.
  - intros s Hsb Hnd Hw Hm. cbn zeta.
    rewrite resize_out_of_mobile100 by done.
    set (s1 := Layout100.set_isMobile false s).
    assert (Ho : Layout100.opts s = Layout100.opts s1) by by destruct s.
    rewrite Ho in Hnd, Hsb |- *.
    destruct (applyLayout100_root s1 Hnd) as (_ & H1 & _ & H2).
    destruct (applyDesktopLayout_style s1) as (_ & _ & H3 & H4 & H5).
    rewrite Hsb in H2, H3. split_and!; try done. by apply H2.
Qed.


(** ** The remembered open state *)

Lemma apply_keeps_shown (s : Layout.State) :
  Layout.isShown (this (Layout._applyMobile s)) = Layout.isShown (this s) ∧
  Layout.isShown (this (Layout._applyDesktop s)) = Layout.isShown (this s) ∧
  Layout.isShown (this (Layout._applySidebar s)) = Layout.isShown (this s) ∧
  Layout.isShown (this (Layout.destroy s)) = Layout.isShown (this s).
Proof. by destruct s. Qed.

Lemma step_isShown (s : Layout.State) (ev : Event) :
  running s → transition ev = false →
  Layout.isShown (this (Layout.step s ev)) = Layout.isShown (this s).
Proof.
  intros [Hw Hs] Hev.
  destruct ev as [w | | r | r | | | |]; cbn [Layout.step]; try discriminate Hev.
  - assert (Hw' : bindings (with_windowWidth w s) = wiring) by exact Hw.
    destruct (trigger_wired _ Hw') as (-> & _).
    assert (Hs' : sched_ok (Layout.resizeAnimationFrame (this (with_windowWidth w s)))
                    (with_windowWidth w s)) by exact Hs.
    destruct (onResize_frames _ Hs') as (_ & _ & _ & _ & _ & _ & _ & ->).
    reflexivity.
  - destruct (animationFrame_cases s Hs) as [[_ ->] | (h & Hh & ->)];
      [reflexivity|].
    destruct (resize_keeps (with_frames [] (nextFrame s) s)) as (_ & _ & -> & _).
    reflexivity.
  - destruct (trigger_wired _ Hw) as (_ & _ & _ & Hl & Hn).
    destruct r; try discriminate Hev; [by rewrite Hl | by rewrite Hn].
  - destruct s. by destruct r.
  - reflexivity.
  - apply apply_keeps_shown.
Qed.

Lemma run_isShown (evs : list Event) (s : Layout.State) :
  running s → Forall (λ ev, transition ev = false) evs →
  Layout.isShown (this (Layout.run evs s)) = Layout.isShown (this s).
Proof.
  revert s. induction evs as [|ev evs IH]; intros s Hr Hq; [done|].
  apply Forall_cons in Hq as [Hev Hq].
  change (Layout.run (ev :: evs) s) with (Layout.run evs (Layout.step s ev)).
  rewrite IH; [by apply step_isShown | by apply step_running | done].
Qed.

(** C10.  Layout evaluation, the three mode applications and [destroy]
    leave [isShown] as it is, and so does every event that is not a click
    on the toggle or the overlay or a call of [open] or [close].  Hence:
    take a state the instance of version 1.0.1 reaches with the navigation
    shown, let any such events pass, and suppose the instance is then in
    non-mobile mode.  A resize to a width under the breakpoint, followed by
    a frame, puts it in mobile mode with the navigation still shown, the
    panel's inline [left] at [0] and the overlay without an inline
    [display: none]. *)
Theorem shown_state_survives_mode_changes :
  (∀ s : Layout.State,
     Layout.isShown (this (Layout._resize s)) = Layout.isShown (this s) ∧
     Layout.isShown (this (Layout._applyMobile s)) = Layout.isShown (this s) ∧
     Layout.isShown (this (Layout._applyDesktop s)) = Layout.isShown (this s) ∧
     Layout.isShown (this (Layout._applySidebar s)) = Layout.isShown (this s)) ∧
  (∀ o root btn bar ovl w0 h0 (evs quiet : list Event) (w : Z),
     let s := Layout.run evs (Layout.init o root btn bar ovl w0 h0) in
     Layout.isShown (this s) = Some true →
     Forall (λ ev, transition ev = false) quiet →
     let s1 := Layout.run quiet s in
     Layout.isShown (this s1) = Some true ∧
     (Layout.isMobile (this s1) = Some false →
      w < Layout.breakpoint o →
      let s2 := Layout.run [Resized w; AnimationFrame] s1 in
      Layout.isMobile (this s2) = Some true ∧
      Layout.isShown (this s2) = Some true ∧
      style (el_navbar s2) !! "left" = Some "0" ∧
      displayed (el_overlay s2))).
Proof.
  split.
  - intros s. destruct (resize_keeps s) as (_ & _ & H & _).
    destruct (apply_keeps_shown s) as (H1 & H2 & H3 & _).
    split_and!; [exact H | exact H1 | exact H2 | exact H3].
  - intros o root btn bar ovl w0 h0 evs quiet w s Hs Hq s1.
    assert (Hrun : running s) by (apply run_running, init_running).
    assert (Hrun1 : running s1) by (by apply run_running).
    assert (Hs1 : Layout.isShown (this s1) = Some true).
    { unfold s1. rewrite run_isShown by done. exact Hs. }
    split; [exact Hs1|]. intros Hm Hw s2.
    assert (Ho : Layout.opts s1 = o).
    { unfold s1, s. rewrite !run_opts; [apply init_opts | apply init_running | exact Hrun]. }
    assert (Hne : Layout.isMobile (this s1) ≠ Some true) by (rewrite Hm; discriminate).
    assert (Hlt : w < Layout.breakpoint (Layout.opts s1)) by (by rewrite Ho).
    destruct (cross_into_mobile s1 w Hrun1 Hne Hlt)
      as (H1 & H2 & _ & H4 & _ & _ & H7).
    fold s2 in H1, H2, H4, H7. rewrite Hs1 in H2, H4, H7.
    change (truthy (Some true)) with true in H4, H7.
    split_and!; [exact H1 | exact H2 | exact H4 | exact H7].
Qed.

(** ** Teardown *)

(** What [destroy] of version 1.0.1 does reset. *)
Lemma destroy_resets (s : Layout.State) :
  NoDup (mode_classes (Layout.opts s)) →
  let s' := Layout.destroy s in
  count_present (mode_classes (Layout.opts s)) (el_layout s') = 0%nat ∧
  (Layout.active (Layout.classes (Layout.opts s)) ∉ classList (el_navbtn s')) ∧
  displayed (el_navbtn s') ∧
  (∀ p, p ∈ positioning ++ ["width"] → style (el_navbar s') !! p = None) ∧
  (∀ p, p ∈ positioning ++ ["display"] → style (el_overlay s') !! p = None).
Proof.
  intros (Hmd & Hms & Hds)%NoDup3. open_state s. cbn in Hmd, Hms, Hds.
  cbn zeta. unfold displayed, positioning. css_norm. split_and!.
  - unfold mode_classes. cbn. count_tac.
  - set_solver.
  - by simplify_map_eq.
  - intros p Hp. repeat (apply elem_of_cons in Hp as [-> | Hp]; [by simplify_map_eq|]).
    by apply elem_of_nil in Hp.
  - intros p Hp. repeat (apply elem_of_cons in Hp as [-> | Hp]; [by simplify_map_eq|]).
    by apply elem_of_nil in Hp.
Qed.

Lemma onToggle_flips (s : Layout.State) :
  Layout.isShown (this (Layout._onToggle s)) =
    Some (negb (truthy (Layout.isShown (this s)))).
Proof.
  unfold Layout._onToggle. destruct (truthy (Layout.isShown (this s))); by destruct s.
Qed.

(** C7.  [destroy] of version 1.0.1 leaves the bindings of the instance in
    place: they are the same list after it as before.  With the defaults,
    on a blank page 1000 wide: after [destroy], a click on the toggle still
    opens the navigation and marks the toggle active, and a resize to 1300
    followed by a frame still puts the desktop class back on the root.
    [destroy] of version 1.0.0, which is the widget factory's, leaves no
    binding. *)
Theorem destroy_leaves_bindings :
  (∀ s : Layout.State, bindings (Layout.destroy s) = bindings s) ∧
  bindings (Layout.run [CallDestroy] (started 1000)) = wiring ∧
  Layout.isShown (this (Layout.run [CallDestroy; Click Navbtn] (started 1000)))
    = Some true ∧
  "active" ∈
    classList (el_navbtn (Layout.run [CallDestroy; Click Navbtn] (started 1000))) ∧
  "layout-desktop" ∈
    classList (el_layout
      (Layout.run [CallDestroy; Resized 1300; AnimationFrame] (started 1000))) ∧
  (∀ s : Layout100.State, bindings (Layout100.destroy s) = []).
Proof.
  split_and!.
  - intros s. by destruct s.
  - vm_compute. reflexivity.
  - vm_compute. reflexivity.
  - vm_compute. reflexivity.
  - vm_compute. reflexivity.
  - intros s. reflexivity.
Qed.

(** C9.  [_onToggle] of version 1.0.1 never reads the mode: it flips
    [isShown] in every state.  With the defaults, on a blank page 1300
    wide, the instance is in non-mobile mode and the public [open] changes
    nothing; yet a click on the toggle sets [isShown], marks the toggle
    active, starts an animation on the panel and makes the overlay
    displayed, and a click on the overlay does the same. *)
Theorem toggle_ignores_mode :
  (∀ s : Layout.State,
     Layout.isShown (this (Layout._onToggle s)) =
       Some (negb (truthy (Layout.isShown (this s))))) ∧
  Layout.isMobile (this (started 1300)) = Some false ∧
  Layout.open (started 1300) = started 1300 ∧
  hidden (el_overlay (started 1300)) ∧
  Layout.isShown (this (Layout.step (started 1300) (Click Navbtn))) = Some true ∧
  "active" ∈ classList (el_navbtn (Layout.step (started 1300) (Click Navbtn))) ∧
  fx (el_navbar (Layout.step (started 1300) (Click Navbtn))) =
    [Animate [("left", Num 0)] 300 "linear"] ∧
  displayed (el_overlay (Layout.step (started 1300) (Click Navbtn))) ∧
  Layout.isShown (this (Layout.step (started 1300) (Click Overlay))) = Some true ∧
  Layout100.navbarOpen (this (Layout100.step (started100 1300) (Click Navbtn)))
    = Some true.
Proof.
  split; [apply onToggle_flips|].
  split_and!; vm_compute; reflexivity.
Qed.

(** ** The theorems at concrete inputs *)

Lemma mode_and_root_class_witness :
  count_present (mode_classes (Layout.opts (started 1300)))
    (el_layout (Layout._applyMobile (started 1300))) = 1%nat ∧
  count_present
    [ Layout100.layoutMobile (Layout100.classes (Layout100.opts (started100 1000)));
      Layout100.layoutDesktop (Layout100.classes (Layout100.opts (started100 1000))) ]
    (el_layout (Layout100._applyDesktopLayout (started100 1000))) = 1%nat.
Proof.
  destruct mode_and_root_class as (_ & H & _ & H100).
  assert (Hd : NoDup (mode_classes (Layout.opts (started 1300)))).
  { apply (bool_decide_unpack _). vm_compute. exact I. }
  assert (Hd100 : NoDup (mode_classes100 (Layout100.opts (started100 1000)))).
  { apply (bool_decide_unpack _). vm_compute. exact I. }
  pose proof (H (started 1300) Hd) as X. cbv zeta in X.
  pose proof (H100 (started100 1000) Hd100) as X100. cbv zeta in X100.
  destruct X as ((_ & X) & _). destruct X100 as (_ & _ & X100 & _).
  split; [exact X | exact X100].
Defined.

Lemma root_class_unique_counterexample :
  count_present (mode_classes100 sidebar_on100)
    (el_layout (Layout100.init sidebar_on100 300 blank blank blank blank 1400 1))
  ≠ 1%nat.
Proof. vm_compute. discriminate. Qed.


Lemma narrowing_to_mobile_closed_witness :
  style (el_navbar (Layout.run [Resized 1000; AnimationFrame]
    (Layout.init Layout.defaults blank blank blank blank 1300 1))) !! "left"
    = Some "-300px" ∧
  style (el_navbar (Layout100.run [Resized 1000; AnimationFrame]
    (Layout100.init Layout100.defaults 300 blank blank blank blank 1300 1))) !! "left"
    = Some "-300px" ∧
  visible (el_navbtn (Layout100.run [Resized 1000; AnimationFrame]
    (Layout100.init Layout100.defaults 300 blank blank blank blank 1300 1))).
Proof.
  destruct narrowing_to_mobile_closed as [H H100].
  assert (Hr : restorable blank).
  { unfold restorable. cbn. discriminate. }
  pose proof (H Layout.defaults blank blank blank blank 1%positive eq_refl eq_refl) as X.
  pose proof (H100 Layout100.defaults blank blank blank blank 1%positive eq_refl Hr)
    as X100.
  cbv zeta in X, X100.
  destruct X as (_ & _ & _ & X & _).
  destruct X100 as (_ & _ & _ & X100 & _ & X101 & _).
  split_and!; [exact X | exact X100 | exact X101].
Defined.

(** The page of the sidebar scenario, before the first layout evaluation. *)
Lemma sidebar_presentation_witness :
  style (el_navbar (Layout._resize
    (Layout.page sidebar_on blank blank blank blank 1400 1))) !! "width" =
    Some (pretty (Layout.width (Layout.opts
      (Layout.page sidebar_on blank blank blank blank 1400 1))) +:+ "px") ∧
  style (el_navbar (Layout100._resizeLayout
    (Layout100.page sidebar_on100 blank blank blank blank 1400 1))) !! "width" = None.
Proof.
  destruct sidebar_presentation as [H H100].
  assert (Hd : NoDup (mode_classes
            (Layout.opts (Layout.page sidebar_on blank blank blank blank 1400 1)))).
  { apply (bool_decide_unpack _). vm_compute. exact I. }
  assert (Hd100 : NoDup (mode_classes100
            (Layout100.opts (Layout100.page sidebar_on100 blank blank blank blank 1400 1)))).
  { apply (bool_decide_unpack _). vm_compute. exact I. }
  assert (Hw : 0 ≤ Layout.width
            (Layout.opts (Layout.page sidebar_on blank blank blank blank 1400 1))).
  { vm_compute. discriminate. }
  assert (Hb : Layout.breakpoint
            (Layout.opts (Layout.page sidebar_on blank blank blank blank 1400 1))
            ≤ windowWidth (Layout.page sidebar_on blank blank blank blank 1400 1)).
  { vm_compute. discriminate. }
  assert (Hb100 : Layout100.breakpoint
            (Layout100.opts (Layout100.page sidebar_on100 blank blank blank blank 1400 1))
            ≤ windowWidth (Layout100.page sidebar_on100 blank blank blank blank 1400 1)).
  { vm_compute. discriminate. }
  pose proof (H (Layout.page sidebar_on blank blank blank blank 1400 1)
                eq_refl Hd Hw Hb ltac:(discriminate)) as X.
  pose proof (H100 (Layout100.page sidebar_on100 blank blank blank blank 1400 1)
                eq_refl Hd100 Hb100 ltac:(discriminate)) as X100.
  cbv zeta in X, X100.
  destruct X as (_ & _ & X & _). destruct X100 as (_ & _ & X100 & _).
  split; [exact X | exact X100].
Defined.

Lemma sidebar_width_counterexample :
  style (el_navbar (Layout100.init sidebar_on100 300 blank blank blank blank 1400 1))
    !! "width" = None.
Proof. vm_compute. reflexivity. Qed.


Lemma shown_state_survives_mode_changes_witness :
  style (el_navbar
    (Layout.run [Resized 1000; AnimationFrame]
       (Layout.run [Resized 1300; AnimationFrame; FxEnd Navbar]
          (Layout.run [Click Navbtn]
             (Layout.init Layout.defaults blank blank blank blank 1000 1)))))
    !! "left" = Some "0".
Proof.
  destruct shown_state_survives_mode_changes as [_ H].
  assert (Hs : Layout.isShown
            (this (Layout.run [Click Navbtn]
               (Layout.init Layout.defaults blank blank blank blank 1000 1)))
            = Some true).
  { vm_compute. reflexivity. }
  assert (Hq : Forall (λ ev, transition ev = false)
                 [Resized 1300; AnimationFrame; FxEnd Navbar]).
  { repeat constructor. }
  pose proof (H Layout.defaults blank blank blank blank 1000 1%positive
                [Click Navbtn] [Resized 1300; AnimationFrame; FxEnd Navbar] 1000
                Hs Hq) as X.
  cbv zeta in X. destruct X as [_ X].
  assert (Hm : Layout.isMobile
            (this (Layout.run [Resized 1300; AnimationFrame; FxEnd Navbar]
               (Layout.run [Click Navbtn]
                  (Layout.init Layout.defaults blank blank blank blank 1000 1))))
            = Some false).
  { vm_compute. reflexivity. }
  assert (Hlt : 1000 < Layout.breakpoint Layout.defaults).
  { vm_compute. reflexivity. }
  destruct (X Hm Hlt) as (_ & _ & X3 & _). exact X3.
Defined.

(** * Further properties of the code *)

(** ** Open, close and toggle *)

(** X1.  [open] and [close] are idempotent: a second call finds the guard
    false and touches nothing, so no animation is restarted. *)
Theorem open_close_idempotent (s : Layout.State) :
  Layout.open (Layout.open s) = Layout.open s ∧
  Layout.close (Layout.close s) = Layout.close s.
Proof.
  split.
  - unfold Layout.open.
    destruct (truthy (Layout.isMobile (this s)) &&
              negb (truthy (Layout.isShown (this s)))) eqn:Hg; [|by rewrite Hg].
    destruct (open_frame s) as (_ & -> & _).
    assert (Hs : Layout.isShown (this (Layout._open s)) = Some true)
      by (by destruct s).
    rewrite Hs. cbn. by rewrite andb_false_r.
  - unfold Layout.close.
    destruct (truthy (Layout.isMobile (this s)) &&
              truthy (Layout.isShown (this s))) eqn:Hg; [|by rewrite Hg].
    destruct (close_frame s) as (_ & -> & _).
    assert (Hs : Layout.isShown (this (Layout._close s)) = Some false)
      by (by destruct s).
    rewrite Hs. cbn. by rewrite andb_false_r.
Qed.

(** X2.  In mobile mode a click on the toggle or on the overlay is [open] when
    the navigation is not shown and [close] when it is. *)
Theorem click_is_open_or_close (s : Layout.State) (r : Region) :
  running s →
  Layout.isMobile (this s) = Some true →
  r = Navbtn ∨ r = Overlay →
  Layout.step s (Click r) =
    (if truthy (Layout.isShown (this s)) then Layout.close s else Layout.open s).
Proof.
  intros [Hw _] Hm Hr. cbn [Layout.step].
  destruct (trigger_wired s Hw) as (_ & Hb & Ho & _).
  assert (Ht : Layout.trigger (On r) "click" s = Layout._onToggle s).
  { destruct Hr as [-> | ->]; [exact Hb | exact Ho]. }
  rewrite Ht. unfold Layout._onToggle, Layout.open, Layout.close. rewrite Hm.
  by destruct (truthy (Layout.isShown (this s))).
Qed.

Lemma click_is_open_or_close_witness :
  Layout.step (started 1000) (Click Overlay) =
    (if truthy (Layout.isShown (this (started 1000)))
     then Layout.close (started 1000) else Layout.open (started 1000)).
Proof.
  apply (click_is_open_or_close (started 1000) Overlay).
  - apply init_running.
  - vm_compute. reflexivity.
  - right. reflexivity.
Defined.

Lemma decl_set_zero_px (st : gmap string string) (p : string) :
  decl_set ("0" +:+ "px") st p = <[p := "0px"]> st.
Proof. reflexivity. Qed.

(** The panel, the overlay and the toggle after [_open] and after
    [_close], element by element. *)
Lemma open_elements (s : Layout.State) :
  let o := Layout.opts s in
  let s' := Layout._open s in
  Layout.opts s' = o ∧
  Layout.isShown (this s') = Some true ∧
  classList (el_navbtn s') =
    {[Layout.active (Layout.classes o)]} ∪ classList (el_navbtn s) ∧
  el_navbar s' =
    fx_enqueue (Animate [("left", Num 0)] (Layout.duration o) (Layout.easing o))
      (fx_stop (el_navbar s)) ∧
  el_overlay s' =
    fx_enqueue (FadeIn (Layout.duration o) (Layout.easing o))
      (fx_stop (el_overlay s)).
Proof. by open_state s. Qed.

Lemma close_elements (s : Layout.State) :
  let o := Layout.opts s in
  let s' := Layout._close s in
  Layout.opts s' = o ∧
  Layout.isShown (this s') = Some false ∧
  classList (el_navbtn s') =
    classList (el_navbtn s) ∖ {[Layout.active (Layout.classes o)]} ∧
  el_navbar s' =
    fx_enqueue
      (Animate [("left", Num (- Layout.width o))] (Layout.duration o)
         (Layout.easing o))
      (fx_stop (el_navbar s)) ∧
  el_overlay s' =
    fx_enqueue (FadeOut (Layout.duration o) (Layout.easing o))
      (fx_stop (el_overlay s)).
Proof. by open_state s. Qed.

Lemma ends_elements (s : Layout.State) :
  let s' := Layout.run [FxEnd Navbar; FxEnd Overlay] s in
  this s' = this s ∧
  el_navbar s' = fx_done (el_navbar s) ∧
  el_overlay s' = fx_done (el_overlay s).
Proof. by destruct s. Qed.

(** X3.  What [_open] leaves behind when nothing was waiting in the queues
    and what jQuery kept for the overlay is not [none]: the flag set, the
    toggle marked, the overlay no longer hidden, its inline [display] being
    what [.show()] makes of it, from the start of its fade.  With a
    positive duration one animation is on the panel and one on the overlay;
    with a duration of zero or less both are over when [_open] returns and
    the panel is at [left: 0px].  At every duration, once what is left of
    them has ended, the panel is at [left: 0px], the overlay is not hidden
    and nothing is queued. *)
Theorem open_result (s : Layout.State) :
  calm s →
  restorable (el_overlay s) →
  let o := Layout.opts s in
  let s' := Layout._open s in
  Layout.isShown (this s') = Some true ∧
  Layout.active (Layout.classes o) ∈ classList (el_navbtn s') ∧
  fx (el_navbar s') =
    (if Layout.duration o <=? 0 then []
     else [Animate [("left", Num 0)] (Layout.duration o) (Layout.easing o)]) ∧
  fx (el_overlay s') =
    (if Layout.duration o <=? 0 then []
     else [FadeIn (Layout.duration o) (Layout.easing o)]) ∧
  (if Layout.duration o <=? 0 then style (el_navbar s') !! "left" = Some "0px"
   else True) ∧
  style (el_overlay s') !! "display" = style (show (el_overlay s)) !! "display" ∧
  visible (el_overlay s') ∧
  let s'' := Layout.run [FxEnd Navbar; FxEnd Overlay] s' in
  Layout.isShown (this s'') = Some true ∧
  style (el_navbar s'') !! "left" = Some "0px" ∧
  visible (el_overlay s'') ∧
  fx (el_navbar s'') = [] ∧ fx (el_overlay s'') = [].
Proof.
  intros [Hb Ho] Hr. cbn zeta.
  destruct (open_elements s) as (_ & Hs & Hc & Hbar & Hovl).
  destruct (ends_elements (Layout._open s)) as (Ht & Hbar' & Hovl').
  rewrite Ht, Hbar', Hovl', Hs, Hc, Hbar, Hovl.
  destruct (slide_result 0 (Layout.duration (Layout.opts s))
              (Layout.easing (Layout.opts s)) (el_navbar s) Hb)
    as (B1 & B2 & B3 & B4).
  destruct (fade_in_result (Layout.duration (Layout.opts s))
              (Layout.easing (Layout.opts s)) (el_overlay s) Ho)
    as (O1 & O2 & O3 & O4).
  pose proof (show_visible _ Hr) as Hv. unfold visible in Hv |- *.
  split_and!.
  - reflexivity.
  - set_solver.
  - exact B1.
  - exact O1.
  - destruct (Layout.duration (Layout.opts s) <=? 0) eqn:Hd; [|exact I].
    apply B2. exact Hd.
  - exact O2.
  - rewrite O2. exact Hv.
  - reflexivity.
  - exact B4.
  - rewrite O4. exact Hv.
  - exact B3.
  - exact O3.
Qed.

Lemma open_result_witness :
  style (el_navbar (Layout.run [FxEnd Navbar; FxEnd Overlay]
    (Layout._open (started 1000)))) !! "left" = Some "0px" ∧
  visible (el_overlay (Layout._open (started 1000))).
Proof.
  assert (Hc : calm (started 1000)).
  { split; vm_compute; lia. }
  assert (Hr : restorable (el_overlay (started 1000))).
  { vm_compute. discriminate. }
  pose proof (open_result (started 1000) Hc Hr) as X. cbv zeta in X.
  destruct X as (_ & _ & _ & _ & _ & _ & X1 & _ & X2 & _).
  split; [exact X2 | exact X1].
Defined.

(** X4.  Two toggles in a row bring the flag and the mark of the toggle
    back, and leave in the queues only what the second one started: its two
    animations when the duration is positive, nothing when it is zero or
    less. *)
Theorem toggle_twice (s : Layout.State) :
  calm s →
  let o := Layout.opts s in
  let s2 := Layout._onToggle (Layout._onToggle s) in
  Layout.isShown (this s2) = Some (truthy (Layout.isShown (this s))) ∧
  (Layout.active (Layout.classes o) ∈ classList (el_navbtn s2) ↔
   truthy (Layout.isShown (this s)) = true) ∧
  fx (el_navbar s2) =
    (if Layout.duration o <=? 0 then []
     else [Animate [("left", Num (if truthy (Layout.isShown (this s)) then 0
                                  else - Layout.width o))]
             (Layout.duration o) (Layout.easing o)]) ∧
  fx (el_overlay s2) =
    (if Layout.duration o <=? 0 then []
     else [(if truthy (Layout.isShown (this s)) then FadeIn else FadeOut)
             (Layout.duration o) (Layout.easing o)]).
Proof.
  intros Hc. cbn zeta.
  assert (H1 : Layout._onToggle s =
    if truthy (Layout.isShown (this s)) then Layout._close s else Layout._open s)
    by reflexivity.
  rewrite H1. clear H1.
  destruct (truthy (Layout.isShown (this s))) eqn:Hsh.
  - pose proof (close_calm s Hc) as [Hb1 Ho1].
    destruct (close_elements s) as (Hopts & Hs1 & Hc1 & _).
    unfold Layout._onToggle. rewrite Hs1. cbn [truthy].
    destruct (open_elements (Layout._close s)) as (_ & Hs2 & Hc2 & Hbar & Hovl).
    rewrite Hs2, Hc2, Hbar, Hovl, Hopts.
    rewrite !stop_enqueue by assumption.
    split_and!; [reflexivity | split; [reflexivity | set_solver]
                | reflexivity | reflexivity].
  - pose proof (open_calm s Hc) as [Hb1 Ho1].
    destruct (open_elements s) as (Hopts & Hs1 & Hc1 & _).
    unfold Layout._onToggle. rewrite Hs1. cbn [truthy].
    destruct (close_elements (Layout._open s)) as (_ & Hs2 & Hc2 & Hbar & Hovl).
    rewrite Hs2, Hc2, Hbar, Hovl, Hopts.
    rewrite !stop_enqueue by assumption.
    split_and!; [reflexivity | split; [set_solver | discriminate]
                | reflexivity | reflexivity].
Qed.

Lemma toggle_twice_witness :
  Layout.isShown (this (Layout._onToggle (Layout._onToggle (started 1000)))) =
    Some (truthy (Layout.isShown (this (started 1000)))).
Proof.
  assert (Hc : calm (started 1000)).
  { split; vm_compute; lia. }
  pose proof (toggle_twice (started 1000) Hc) as X. cbv zeta in X.
  destruct X as (X & _). exact X.
Defined.

(** ** Invariants of a running instance *)

Lemma run_invariant (P : Layout.State → Prop) (ok : Event → Prop) :
  (∀ s ev, running s → P s → ok ev → P (Layout.step s ev)) →
  ∀ evs s, running s → P s → Forall ok evs → P (Layout.run evs s).
Proof.
  intros Hstep evs. induction evs as [|ev evs IH]; intros s Hr HP Hok; [exact HP|].
  apply Forall_cons in Hok as [Hev Hok].
  change (Layout.run (ev :: evs) s) with (Layout.run evs (Layout.step s ev)).
  apply IH; [by apply step_running | by apply Hstep | exact Hok].
Qed.

Lemma same_frame_sync (s s' : Layout.State) :
  same_frame s s' → in_sync s → in_sync s'.
Proof.
  intros (Ho & Hm & _ & Hw & Hf & _) H. unfold in_sync.
  rewrite Ho, Hm, Hw, Hf. exact H.
Qed.

Lemma step_sync (s : Layout.State) (ev : Event) :
  running s → in_sync s → in_sync (Layout.step s ev).
Proof.
  intros Hrun Hsync. pose proof Hrun as [Hw Hs].
  destruct ev as [w | | r | r | | | |]; cbn [Layout.step].
  - destruct (resized_running s w Hrun) as [Hf _]. cbn [Layout.step] in Hf.
    intros Hnil. rewrite Hf in Hnil. discriminate Hnil.
  - destruct (animationFrame_cases s Hs) as [[_ ->] | (h & Hh & ->)];
      [exact Hsync|].
    intros _. rewrite resize_mode.
    by destruct (resize_keeps (with_frames [] (nextFrame s) s)) as (-> & -> & _).
  - destruct (trigger_wired _ Hw) as (_ & Hb & Ho & Hl & Hn).
    destruct r.
    + by rewrite Hl.
    + rewrite Hb. exact (same_frame_sync _ _ (onToggle_frame s) Hsync).
    + by rewrite Hn.
    + rewrite Ho. exact (same_frame_sync _ _ (onToggle_frame s) Hsync).
  - exact (same_frame_sync _ _ (fx_end_frame r s) Hsync).
  - exact Hsync.
  - exact (same_frame_sync _ _ (public_open_frame s) Hsync).
  - exact (same_frame_sync _ _ (public_close_frame s) Hsync).
  - exact (same_frame_sync _ _ (destroy_frame s) Hsync).
Qed.

Lemma init_frames o root btn bar ovl w h :
  frames (Layout.init o root btn bar ovl w h) = [] ∧
  windowWidth (Layout.init o root btn bar ovl w h) = w.
Proof.
  rewrite init_unfold.
  match goal with |- context [Layout._resize ?s] =>
    by destruct (resize_keeps s) as (_ & -> & _ & -> & _) end.
Qed.

Lemma run_sync o root btn bar ovl w0 h0 (evs : list Event) :
  in_sync (Layout.run evs (Layout.init o root btn bar ovl w0 h0)).
Proof.
  apply (run_invariant in_sync (λ _, True)).
  - intros s1 ev Hr Hs _. by apply step_sync.
  - apply init_running.
  - intros _. rewrite init_unfold, resize_mode.
    match goal with |- context [Layout._resize ?s] =>
      by destruct (resize_keeps s) as (-> & -> & _) end.
  - by apply Forall_forall.
Qed.

(** X5.  The stored mode lags the viewport only while a layout evaluation is
    pending: in every state an instance of version 1.0.1 reaches with no
    frame callback pending, [isMobile] is true or false exactly as the
    current viewport width is under the breakpoint or not. *)
Theorem mode_in_sync o root btn bar ovl w0 h0 (evs : list Event) :
  let s := Layout.run evs (Layout.init o root btn bar ovl w0 h0) in
  frames s = [] →
  Layout.isMobile (this s) = Some (windowWidth s <? Layout.breakpoint o).
Proof.
  intros s Hnil.
  assert (Ho : Layout.opts s = o).
  { unfold s. rewrite run_opts by apply init_running. apply init_opts. }
  rewrite <- Ho. by apply (run_sync o root btn bar ovl w0 h0 evs).
Qed.

Lemma mode_in_sync_witness :
  Layout.isMobile
    (this (Layout.run [Resized 1300; AnimationFrame; Click Navbtn]
       (Layout.init Layout.defaults blank blank blank blank 1000 1))) =
  Some (windowWidth
          (Layout.run [Resized 1300; AnimationFrame; Click Navbtn]
             (Layout.init Layout.defaults blank blank blank blank 1000 1))
        <? Layout.breakpoint Layout.defaults).
Proof.
  apply (mode_in_sync Layout.defaults blank blank blank blank 1000 1%positive
           [Resized 1300; AnimationFrame; Click Navbtn]).
  vm_compute. reflexivity.
Defined.

Lemma css_keeps (props : list (string * CssVal)) (e : Elem) :
  classList (css props e) = classList e ∧ fx (css props e) = fx e.
Proof. done. Qed.

Lemma show_classList (e : Elem) : classList (show e) = classList e.
Proof. unfold show. by destruct (display_none e). Qed.

Lemma hide_classList (e : Elem) : classList (hide e) = classList e.
Proof. unfold hide. by destruct (display_none e). Qed.

Lemma fx_start_keeps (a : Anim) (e : Elem) :
  classList (fx_start a e) = classList e ∧ fx (fx_start a e) = fx e.
Proof. split; [|apply fx_start_fx]. destruct a; cbn; auto using show_classList. Qed.

Lemma fx_finish_classList (a : Anim) (e : Elem) :
  classList (fx_finish a e) = classList e.
Proof. destruct a; cbn; auto using hide_classList. Qed.

Lemma fx_go_classList (q : list Anim) (e : Elem) :
  classList (fx_go q e) = classList e.
Proof.
  revert e. induction q as [|a q IH]; intros e; [done|].
  cbn. destruct (instant a).
  - rewrite IH, fx_finish_classList. apply fx_start_keeps.
  - by destruct (fx_start_keeps a (with_fx (a :: q) e)) as [-> _].
Qed.

Lemma fx_done_classList (e : Elem) : classList (fx_done e) = classList e.
Proof.
  unfold fx_done. destruct (fx e) as [|a q]; [done|].
  by rewrite fx_go_classList, fx_finish_classList.
Qed.

Lemma jq_classList (op : JOp) (e : Elem) :
  (∀ c, op ≠ AddClass c) → (∀ c, op ≠ RemoveClass c) →
  (∀ c b, op ≠ ToggleClass c b) →
  classList (jq_apply op e) = classList e.
Proof.
  intros H1 H2 H3. destruct op as [c | c | c b | | | | b | | a]; cbn.
  - by destruct (H1 c).
  - by destruct (H2 c).
  - by destruct (H3 c b).
  - done.
  - apply show_classList.
  - apply hide_classList.
  - destruct b; cbn; [apply show_classList | apply hide_classList].
  - unfold fx_stop. destruct (fx e); [done | apply fx_go_classList].
  - unfold fx_enqueue. destruct (fx e); [apply fx_go_classList | done].
Qed.

(** The elements after the transitions and the mode applications. *)
Lemma open_elems (s : Layout.State) :
  el_layout (Layout._open s) = el_layout s ∧
  classList (el_navbtn (Layout._open s)) =
    {[Layout.active (Layout.classes (Layout.opts s))]} ∪ classList (el_navbtn s) ∧
  style (el_navbtn (Layout._open s)) = style (el_navbtn s) ∧
  fx (el_navbtn (Layout._open s)) = fx (el_navbtn s) ∧
  el_navbar (Layout._open s) =
    fx_enqueue
      (Animate [("left", Num 0)] (Layout.duration (Layout.opts s))
         (Layout.easing (Layout.opts s)))
      (fx_stop (el_navbar s)) ∧
  Layout.isShown (this (Layout._open s)) = Some true.
Proof. by destruct s. Qed.

Lemma close_elems (s : Layout.State) :
  el_layout (Layout._close s) = el_layout s ∧
  classList (el_navbtn (Layout._close s)) =
    classList (el_navbtn s) ∖ {[Layout.active (Layout.classes (Layout.opts s))]} ∧
  style (el_navbtn (Layout._close s)) = style (el_navbtn s) ∧
  fx (el_navbtn (Layout._close s)) = fx (el_navbtn s) ∧
  el_navbar (Layout._close s) =
    fx_enqueue
      (Animate [("left", Num (- Layout.width (Layout.opts s)))]
         (Layout.duration (Layout.opts s)) (Layout.easing (Layout.opts s)))
      (fx_stop (el_navbar s)) ∧
  Layout.isShown (this (Layout._close s)) = Some false.
Proof. by destruct s. Qed.

Lemma resize_navbtn (s : Layout.State) :
  classList (el_navbtn (Layout._resize s)) = classList (el_navbtn s) ∧
  fx (el_navbtn (Layout._resize s)) = fx (el_navbtn s) ∧
  fx (el_navbar (Layout._resize s)) = fx (el_navbar s).
Proof.
  unfold Layout._resize.
  destruct (strict_neq (Layout.isMobile (this s)) _); [|done].
  destruct (windowWidth s <? Layout.breakpoint (Layout.opts s)),
    (Layout.o_sidebar (Layout.opts s)); by destruct s.
Qed.

Lemma onResize_elems (s : Layout.State) :
  sched_ok (Layout.resizeAnimationFrame (this s)) s →
  el_layout (Layout._onResize s) = el_layout s ∧
  el_navbtn (Layout._onResize s) = el_navbtn s ∧
  el_navbar (Layout._onResize s) = el_navbar s ∧
  el_overlay (Layout._onResize s) = el_overlay s.
Proof. intros H. rewrite onResize_exact by done. by destruct s. Qed.

Lemma destroy_elems_keep (s : Layout.State) :
  fx (el_navbtn (Layout.destroy s)) = fx (el_navbtn s) ∧
  fx (el_layout (Layout.destroy s)) = fx (el_layout s).
Proof. by destruct s. Qed.

Lemma toggle_marked (s : Layout.State) : marked (Layout._onToggle s).
Proof.
  unfold marked, Layout._onToggle.
  destruct (truthy (Layout.isShown (this s))).
  - destruct (close_frame s) as (-> & _).
    destruct (close_elems s) as (_ & -> & _ & _ & _ & ->).
    split; [set_solver | discriminate].
  - destruct (open_frame s) as (-> & _).
    destruct (open_elems s) as (_ & -> & _ & _ & _ & ->).
    split; [reflexivity | set_solver].
Qed.

Lemma step_marked (s : Layout.State) (ev : Event) :
  running s → marked s → ev ≠ CallDestroy → marked (Layout.step s ev).
Proof.
  intros Hrun Hmk Hev. pose proof Hrun as [Hw Hs]. unfold marked in *.
  destruct ev as [w | | r | r | | | |]; cbn [Layout.step]; try done.
  - assert (Hw' : bindings (with_windowWidth w s) = wiring) by exact Hw.
    destruct (trigger_wired _ Hw') as (-> & _).
    assert (Hs' : sched_ok (Layout.resizeAnimationFrame (this (with_windowWidth w s)))
                    (with_windowWidth w s)) by exact Hs.
    destruct (onResize_frames _ Hs') as (_ & _ & _ & _ & _ & -> & _ & ->).
    destruct (onResize_elems _ Hs') as (_ & -> & _). exact Hmk.
  - destruct (animationFrame_cases s Hs) as [[_ ->] | (h & Hh & ->)];
      [exact Hmk|].
    destruct (resize_keeps (with_frames [] (nextFrame s) s)) as (-> & _ & -> & _).
    destruct (resize_navbtn (with_frames [] (nextFrame s) s)) as (-> & _).
    exact Hmk.
  - destruct (trigger_wired _ Hw) as (_ & Hb & Ho & Hl & Hn).
    destruct r.
    + by rewrite Hl.
    + rewrite Hb. apply toggle_marked.
    + by rewrite Hn.
    + rewrite Ho. apply toggle_marked.
  - destruct (fx_end_frame r s) as (-> & _).
    assert (Ht : this (fx_end r s) = this s) by (destruct s; by destruct r).
    rewrite Ht.
    assert (Hc : classList (el_navbtn (fx_end r s)) = classList (el_navbtn s)).
    { destruct s; destruct r; try done. cbn. apply fx_done_classList. }
    by rewrite Hc.
  - unfold Layout.open. destruct (_ && _); [|exact Hmk].
    destruct (open_frame s) as (-> & _).
    destruct (open_elems s) as (_ & -> & _ & _ & _ & ->).
    split; [reflexivity | set_solver].
  - unfold Layout.close. destruct (_ && _); [|exact Hmk].
    destruct (close_frame s) as (-> & _).
    destruct (close_elems s) as (_ & -> & _ & _ & _ & ->).
    split; [set_solver | discriminate].
Qed.

(** X7.  As long as [destroy] is not called, the toggle of an instance of
    version 1.0.1 carries the active class exactly when [isShown] is true,
    provided the page did not put that class on the toggle itself. *)
Theorem active_class_tracks_shown
    o root btn bar ovl w0 h0 (evs : list Event) :
  Layout.active (Layout.classes o) ∉ classList btn →
  CallDestroy ∉ evs →
  let s := Layout.run evs (Layout.init o root btn bar ovl w0 h0) in
  Layout.active (Layout.classes o) ∈ classList (el_navbtn s) ↔
  Layout.isShown (this s) = Some true.
Proof.
  intros Hbtn Hd s.
  assert (Ho : Layout.opts s = o).
  { unfold s. rewrite run_opts by apply init_running. apply init_opts. }
  rewrite <- Ho. fold (marked s).
  apply (run_invariant marked (λ ev, ev ≠ CallDestroy)).
  - intros s1 ev Hr Hm Hev. by apply step_marked.
  - apply init_running.
  - unfold marked. rewrite init_opts.
    destruct (init_fields o root btn bar ovl w0 h0) as [_ ->].
    rewrite init_unfold.
    match goal with |- context [Layout._resize ?s] =>
      destruct (resize_navbtn s) as (-> & _) end.
    cbn. split; [by intros ?%Hbtn | discriminate].
  - apply Forall_forall. intros ev Hin ->. by apply Hd.
Qed.

Lemma active_class_tracks_shown_witness :
  "active" ∈ classList (el_navbtn
    (Layout.run [Click Navbtn; Resized 1300; AnimationFrame]
       (Layout.init Layout.defaults blank blank blank blank 1000 1))) ↔
  Layout.isShown
    (this (Layout.run [Click Navbtn; Resized 1300; AnimationFrame]
       (Layout.init Layout.defaults blank blank blank blank 1000 1))) = Some true.
Proof.
  apply (active_class_tracks_shown Layout.defaults blank blank blank blank 1000
           1%positive [Click Navbtn; Resized 1300; AnimationFrame]).
  - vm_compute. intros H. discriminate H.
  - intros H. repeat (apply elem_of_cons in H as [H | H]; [discriminate H|]).
    by apply elem_of_nil in H.
Defined.

Lemma slide_start (a : Anim) (e : Elem) : slides a → fx_start a e = e.
Proof. by intros (z & d & g & ->). Qed.

Lemma slide_finish (a : Anim) (e : Elem) :
  slides a →
  style (fx_finish a e) !! "position" = style e !! "position" ∧
  classList (fx_finish a e) = classList e ∧
  fx (fx_finish a e) = fx e.
Proof.
  intros (z & d & g & ->). destruct e as [c st q od]. css_norm.
  split_and!; [by rewrite lookup_insert_ne | done | done].
Qed.

(** A queue of slides that goes on leaves the positioning alone and holds
    slides only. *)
Lemma slides_go (q : list Anim) (e : Elem) :
  Forall slides q →
  style (fx_go q e) !! "position" = style e !! "position" ∧
  Forall slides (fx (fx_go q e)).
Proof.
  revert e. induction q as [|a q IH]; intros e Hq; [done|].
  apply Forall_cons in Hq as [Ha Hq]. cbn.
  rewrite !(slide_start a) by done.
  destruct (instant a).
  - destruct (IH (fx_finish a e) Hq) as [H1 H2].
    destruct (slide_finish a e Ha) as (H3 & _).
    split; [by rewrite H1 | exact H2].
  - split; [done|]. cbn. by apply Forall_cons.
Qed.

(** A transition on the panel: [.stop()] and a new slide. *)
Lemma panel_transition (a : Anim) (e : Elem) :
  slides a → Forall slides (fx e) →
  style (fx_enqueue a (fx_stop e)) !! "position" = style e !! "position" ∧
  Forall slides (fx (fx_enqueue a (fx_stop e))).
Proof.
  intros Ha He.
  assert (Hs : style (fx_stop e) !! "position" = style e !! "position" ∧
               Forall slides (fx (fx_stop e))).
  { unfold fx_stop. destruct (fx e) as [|b q] eqn:Hq; [by rewrite Hq|].
    apply Forall_cons in He as [_ He]. by apply slides_go. }
  destruct Hs as [Hs1 Hs2]. rewrite <- Hs1.
  generalize dependent (fx_stop e). intros e1 _ Hs2.
  unfold fx_enqueue. destruct (fx e1) as [|b q] eqn:Hq.
  - apply slides_go. by apply Forall_singleton.
  - split; [done|]. cbn [fx with_fx]. rewrite <- Hq in Hs2 |- *.
    apply Forall_app. split; [exact Hs2 | by apply Forall_singleton].
Qed.

Lemma panel_done (e : Elem) :
  Forall slides (fx e) →
  style (fx_done e) !! "position" = style e !! "position" ∧
  Forall slides (fx (fx_done e)).
Proof.
  unfold fx_done. destruct (fx e) as [|a q] eqn:Hq; [by rewrite Hq|].
  intros [Ha Hq']%Forall_cons.
  destruct (slides_go q (fx_finish a e) Hq') as [H1 H2].
  destruct (slide_finish a e Ha) as (H3 & _).
  split; [by rewrite H1 | exact H2].
Qed.

Lemma toggle_tidy (s : Layout.State) :
  tidy s →
  tidy (Layout._open s) ∧ tidy (Layout._close s) ∧
  style (el_navbar (Layout._open s)) !! "position" =
    style (el_navbar s) !! "position" ∧
  style (el_navbar (Layout._close s)) !! "position" =
    style (el_navbar s) !! "position".
Proof.
  intros [Hb Hp].
  destruct (open_elems s) as (_ & _ & _ & Hob & Hop & _).
  destruct (close_elems s) as (_ & _ & _ & Hcb & Hcp & _).
  unfold tidy. rewrite Hob, Hcb, Hop, Hcp.
  destruct (panel_transition
              (Animate [("left", Num 0)] (Layout.duration (Layout.opts s))
                 (Layout.easing (Layout.opts s))) (el_navbar s)) as [H1 H2];
    [by eexists _, _, _ | done |].
  destruct (panel_transition
              (Animate [("left", Num (- Layout.width (Layout.opts s)))]
                 (Layout.duration (Layout.opts s))
                 (Layout.easing (Layout.opts s))) (el_navbar s)) as [H3 H4];
    [by eexists _, _, _ | done |].
  done.
Qed.

Lemma step_tidy (s : Layout.State) (ev : Event) :
  running s → tidy s → tidy (Layout.step s ev).
Proof.
  intros Hrun Ht. pose proof Hrun as [Hw Hs]. pose proof Ht as [Hb Hp].
  destruct (toggle_tidy s Ht) as (Hto & Htc & _).
  destruct ev as [w | | r | r | | | |]; cbn [Layout.step].
  - assert (Hw' : bindings (with_windowWidth w s) = wiring) by exact Hw.
    destruct (trigger_wired _ Hw') as (-> & _).
    assert (Hs' : sched_ok (Layout.resizeAnimationFrame (this (with_windowWidth w s)))
                    (with_windowWidth w s)) by exact Hs.
    destruct (onResize_elems _ Hs') as (_ & H1 & H2 & _).
    unfold tidy. rewrite H1, H2. exact Ht.
  - destruct (animationFrame_cases s Hs) as [[_ ->] | (h & Hh & ->)];
      [exact Ht|].
    destruct (resize_navbtn (with_frames [] (nextFrame s) s)) as (_ & H1 & H2).
    unfold tidy. rewrite H1, H2. exact Ht.
  - destruct (trigger_wired _ Hw) as (_ & Hbt & Ho & Hl & Hn).
    assert (Hg : tidy (Layout._onToggle s)).
    { unfold Layout._onToggle. by destruct (truthy _). }
    destruct r; [by rewrite Hl | by rewrite Hbt | by rewrite Hn | by rewrite Ho].
  - destruct s as [t lay btn bar ovl w fr nf bs wr]. cbn in Hb, Hp.
    destruct r; unfold tidy; cbn.
    + done.
    + split; [|done]. destruct btn as [c st q od]. cbn in Hb. by subst q.
    + split; [done | by apply panel_done].
    + done.
  - exact Ht.
  - unfold Layout.open. by destruct (_ && _).
  - unfold Layout.close. by destruct (_ && _).
  - destruct (applied_fx s) as (_ & _ & _ & _ & _ & _ & H1 & _).
    destruct (destroy_elems_keep s) as (H2 & _).
    unfold tidy. rewrite H1, H2. exact Ht.
Qed.

Lemma init_tidy o root btn bar ovl w h :
  fx btn = [] → fx bar = [] → tidy (Layout.init o root btn bar ovl w h).
Proof.
  intros Hb Hp. rewrite init_unfold.
  match goal with |- context [Layout._resize ?s] =>
    destruct (resize_navbtn s) as (_ & H1 & H2) end.
  unfold tidy. rewrite H1, H2. cbn. by rewrite Hb, Hp.
Qed.

Lemma count_present_classes (cs : list string) (e e' : Elem) :
  classList e = classList e' → count_present cs e = count_present cs e'.
Proof. unfold count_present. by intros ->. Qed.

Lemma shaped_transfer (s s' : Layout.State) :
  Layout.opts s' = Layout.opts s →
  Layout.isMobile (this s') = Layout.isMobile (this s) →
  classList (el_layout s') = classList (el_layout s) →
  style (el_navbtn s') !! "display" = style (el_navbtn s) !! "display" →
  style (el_navbar s') !! "position" = style (el_navbar s) !! "position" →
  shaped s → shaped s'.
Proof.
  intros Ho Hm Hc Hd Hp. unfold shaped, displayed, hidden. cbn zeta.
  rewrite Ho, Hm, Hc, Hd, Hp.
  by rewrite (count_present_classes _ (el_layout s') (el_layout s) Hc).
Qed.

Lemma resize_shaped (s : Layout.State) :
  NoDup (mode_classes (Layout.opts s)) →
  (Layout.isMobile (this s) ≠ None → shaped s) →
  shaped (Layout._resize s).
Proof.
  intros Hnd Hsh. unfold Layout._resize.
  set (b := windowWidth s <? Layout.breakpoint (Layout.opts s)).
  destruct (strict_neq (Layout.isMobile (this s)) b) eqn:Hne.
  - set (s1 := Layout.set_isMobile b s).
    assert (Ho : Layout.opts s1 = Layout.opts s) by (by destruct s).
    assert (Hnd1 : NoDup (mode_classes (Layout.opts s1))) by (by rewrite Ho).
    unfold shaped. cbn zeta. destruct b.
    + destruct (applyMobile_root s1 Hnd1) as [H1 H2].
      destruct (applyMobile_style s1) as (H3 & _ & _ & H4 & _).
      assert (Hm : Layout.isMobile (this (Layout._applyMobile s1)) = Some true)
        by (by destruct s).
      assert (Ho' : Layout.opts (Layout._applyMobile s1) = Layout.opts s1)
        by (by destruct s).
      rewrite Hm, Ho'. split_and!; [exact H1 | exact H2 | exact H4 | exact H3].
    + destruct (Layout.o_sidebar (Layout.opts s)) eqn:Hsb.
      * destruct (applySidebar_root s1 Hnd1) as [H1 H2].
        destruct (applySidebar_style s1) as (H3 & _ & H4 & _).
        assert (Hm : Layout.isMobile (this (Layout._applySidebar s1)) = Some false)
          by (by destruct s).
        assert (Ho' : Layout.opts (Layout._applySidebar s1) = Layout.opts s1)
          by (by destruct s).
        rewrite Hm, Ho', Ho, Hsb. rewrite Ho in H1, H2.
        split_and!; [exact H1 | exact H2 | exact H4 | exact H3].
      * destruct (applyDesktop_root s1 Hnd1) as [H1 H2].
        destruct (applyDesktop_style s1) as (H3 & _ & H4 & _).
        assert (Hm : Layout.isMobile (this (Layout._applyDesktop s1)) = Some false)
          by (by destruct s).
        assert (Ho' : Layout.opts (Layout._applyDesktop s1) = Layout.opts s1)
          by (by destruct s).
        rewrite Hm, Ho', Ho, Hsb. rewrite Ho in H1, H2.
        split_and!; [exact H1 | exact H2 | exact H4 | exact H3].
  - apply Hsh. unfold strict_neq in Hne.
    apply negb_false_iff, bool_decide_eq_true in Hne. by rewrite Hne.
Qed.

Lemma step_shaped (s : Layout.State) (ev : Event) :
  running s → tidy s → NoDup (mode_classes (Layout.opts s)) → shaped s →
  ev ≠ CallDestroy → shaped (Layout.step s ev).
Proof.
  intros Hrun Ht Hnd Hsh Hev. pose proof Hrun as [Hw Hs].
  pose proof Ht as [Hb Hp].
  assert (Hopen : shaped (Layout._open s)).
  { destruct (open_frame s) as (Ho & Hm & _).
    destruct (open_elems s) as (Hl & _ & Hst & _).
    destruct (toggle_tidy s Ht) as (_ & _ & Hbar & _).
    apply (shaped_transfer s); [done | done | by rewrite Hl | by rewrite Hst
                               | by rewrite Hbar | done]. }
  assert (Hclose : shaped (Layout._close s)).
  { destruct (close_frame s) as (Ho & Hm & _).
    destruct (close_elems s) as (Hl & _ & Hst & _).
    destruct (toggle_tidy s Ht) as (_ & _ & _ & Hbar).
    apply (shaped_transfer s); [done | done | by rewrite Hl | by rewrite Hst
                               | by rewrite Hbar | done]. }
  assert (Htoggle : shaped (Layout._onToggle s)).
  { unfold Layout._onToggle. by destruct (truthy _). }
  destruct ev as [w | | r | r | | | |]; cbn [Layout.step]; try done.
  - assert (Hw' : bindings (with_windowWidth w s) = wiring) by exact Hw.
    destruct (trigger_wired _ Hw') as (-> & _).
    assert (Hs' : sched_ok (Layout.resizeAnimationFrame (this (with_windowWidth w s)))
                    (with_windowWidth w s)) by exact Hs.
    destruct (onResize_frames _ Hs') as (_ & _ & _ & _ & _ & Ho & Hm & _).
    destruct (onResize_elems _ Hs') as (H1 & H2 & H3 & _).
    apply (shaped_transfer s); [done | done | by rewrite H1 | by rewrite H2
                               | by rewrite H3 | done].
  - destruct (animationFrame_cases s Hs) as [[_ ->] | (h & Hh & ->)];
      [exact Hsh|].
    apply resize_shaped; [exact Hnd | intros _; exact Hsh].
  - destruct (trigger_wired _ Hw) as (_ & Hbt & Ho & Hl & Hn).
    destruct r; [by rewrite Hl | by rewrite Hbt | by rewrite Hn | by rewrite Ho].
  - destruct (fx_end_frame r s) as (Ho & Hm & _).
    apply (shaped_transfer s); [done | done | | | | done].
    + destruct s; destruct r; try done. cbn. apply fx_done_classList.
    + destruct s as [t lay btn bar ovl w fr nf bs wr]. destruct r; try done.
      cbn in Hb |- *. destruct btn as [c st q]. cbn in Hb. by subst q.
    + destruct s as [t lay btn bar ovl w fr nf bs wr]. destruct r; try done.
      cbn in Hp |- *. by apply panel_done.
  - unfold Layout.open. by destruct (_ && _).
  - unfold Layout.close. by destruct (_ && _).
Qed.

(** X8.  As long as [destroy] is not called, an instance of version 1.0.1
    started with three distinct presentation classes, on a page whose toggle
    and panel were not animating, keeps the root, the toggle and the panel
    presented as its stored mode says.  In mobile mode the root carries the
    mobile class and no other presentation class, the toggle has no inline
    [display], the panel is positioned absolutely; in non-mobile mode the
    root carries the sidebar or the desktop class (by the sidebar flag) and
    no other, the toggle is hidden and the panel has no inline position.
    The mode is never undefined. *)
Theorem presentation_tracks_mode
    o root btn bar ovl w0 h0 (evs : list Event) :
  NoDup (mode_classes o) → fx btn = [] → fx bar = [] →
  CallDestroy ∉ evs →
  let s := Layout.run evs (Layout.init o root btn bar ovl w0 h0) in
  (Layout.isMobile (this s) = Some true ∧
   Layout.mobile (Layout.classes o) ∈ classList (el_layout s) ∧
   count_present (mode_classes o) (el_layout s) = 1%nat ∧
   displayed (el_navbtn s) ∧
   style (el_navbar s) !! "position" = Some "absolute") ∨
  (Layout.isMobile (this s) = Some false ∧
   (if Layout.o_sidebar o then Layout.sidebar (Layout.classes o)
    else Layout.desktop (Layout.classes o)) ∈ classList (el_layout s) ∧
   count_present (mode_classes o) (el_layout s) = 1%nat ∧
   hidden (el_navbtn s) ∧
   style (el_navbar s) !! "position" = None).
Proof.
  intros Hnd Hb Hp Hd s.
  assert (Ho : Layout.opts s = o).
  { unfold s. rewrite run_opts by apply init_running. apply init_opts. }
  assert (Hsh : shaped s ∧ tidy s ∧ Layout.opts s = o).
  { apply (run_invariant (λ s, shaped s ∧ tidy s ∧ Layout.opts s = o)
             (λ ev, ev ≠ CallDestroy)).
    - intros s1 ev Hr (Hs1 & Ht1 & Ho1) Hev. split_and!.
      + apply step_shaped; [done | done | by rewrite Ho1 | done | done].
      + by apply step_tidy.
      + by rewrite step_opts.
    - apply init_running.
    - split_and!; [| by apply init_tidy | apply init_opts].
      rewrite init_unfold. apply resize_shaped; [exact Hnd|].
      intros H. by destruct H.
    - apply Forall_forall. intros ev Hin ->. by apply Hd. }
  destruct Hsh as (Hsh & _). unfold shaped in Hsh. cbn zeta in Hsh.
  rewrite Ho in Hsh.
  destruct (Layout.isMobile (this s)) as [[]|]; [by left | by right | done].
Qed.

Lemma defaults_distinct : NoDup (mode_classes Layout.defaults).
Proof. apply (bool_decide_unpack _). vm_compute. exact I. Qed.

Lemma presentation_tracks_mode_witness :
  Layout.isMobile
    (this (Layout.run [Click Navbtn; Resized 1300; AnimationFrame; FxEnd Navbar]
       (Layout.init Layout.defaults blank blank blank blank 1000 1))) = Some false ∧
  hidden (el_navbtn
    (Layout.run [Click Navbtn; Resized 1300; AnimationFrame; FxEnd Navbar]
       (Layout.init Layout.defaults blank blank blank blank 1000 1))).
Proof.
  assert (Hd : CallDestroy ∉ [Click Navbtn; Resized 1300; AnimationFrame; FxEnd Navbar]).
  { intros H. repeat (apply elem_of_cons in H as [H | H]; [discriminate H|]).
    by apply elem_of_nil in H. }
  destruct (presentation_tracks_mode Layout.defaults blank blank blank blank 1000
              1%positive [Click Navbtn; Resized 1300; AnimationFrame; FxEnd Navbar]
              defaults_distinct eq_refl eq_refl Hd)
    as [(Hm & _) | (Hm & _ & _ & Hh & _)].
  - exfalso. revert Hm. vm_compute. intros H. discriminate H.
  - split; [exact Hm | exact Hh].
Defined.

(** ** How the mode applications and [destroy] compose *)

Lemma elem_eq (e e' : Elem) :
  classList e = classList e' → style e = style e' → fx e = fx e' →
  olddisplay e = olddisplay e' → e = e'.
Proof. destruct e, e'; cbn; by intros -> -> -> ->. Qed.

(** Compare two inline styles built from the same one, key by key. *)
Ltac map_keys k :=
  repeat match goal with
  | |- context [<[?p := _]> _ !! k] =>
      destruct (decide (p = k)) as [<- | ?];
      [by simplify_map_eq | rewrite (lookup_insert_ne _ p k) by done]
  | |- context [delete ?p _ !! k] =>
      destruct (decide (p = k)) as [<- | ?];
      [by simplify_map_eq | rewrite (lookup_delete_ne _ p k) by done]
  end.

Ltac same_elem o sh :=
  apply elem_eq;
  [ cbn; apply set_eq; intros x;
    destruct (decide (x = Layout.mobile (Layout.classes o))),
      (decide (x = Layout.desktop (Layout.classes o))),
      (decide (x = Layout.sidebar (Layout.classes o))),
      (decide (x = Layout.active (Layout.classes o))); set_solver
  | try destruct (truthy sh); css_norm; apply map_eq; intros k; map_keys k;
    reflexivity
  | reflexivity
  | reflexivity ].

Ltac same_elems s :=
  destruct s as [[o m sh raf] lay btn bar ovl w fr nf bs wr];
  unfold elems;
  cbn [Layout._applyMobile Layout._applyDesktop Layout._applySidebar
       Layout.destroy block foldl jq traced with_elem elem el_layout el_navbtn
       el_navbar el_overlay jq_apply this Layout.opts Layout.options
       Layout.isShown];
  repeat apply (f_equal2 pair); same_elem o sh.

Lemma after_applyMobile (s : Layout.State) :
  elems (Layout._applyMobile (Layout._applyMobile s)) = elems (Layout._applyMobile s) ∧
  elems (Layout._applyDesktop (Layout._applyMobile s)) = elems (Layout._applyDesktop s) ∧
  elems (Layout._applySidebar (Layout._applyMobile s)) = elems (Layout._applySidebar s) ∧
  elems (Layout.destroy (Layout._applyMobile s)) = elems (Layout.destroy s).
Proof. split_and!; same_elems s. Qed.

Lemma after_applyDesktop (s : Layout.State) :
  elems (Layout._applyMobile (Layout._applyDesktop s)) = elems (Layout._applyMobile s) ∧
  elems (Layout._applyDesktop (Layout._applyDesktop s)) = elems (Layout._applyDesktop s) ∧
  elems (Layout._applySidebar (Layout._applyDesktop s)) = elems (Layout._applySidebar s) ∧
  elems (Layout.destroy (Layout._applyDesktop s)) = elems (Layout.destroy s).
Proof. split_and!; same_elems s. Qed.

Lemma after_applySidebar (s : Layout.State) :
  elems (Layout._applyMobile (Layout._applySidebar s)) = elems (Layout._applyMobile s) ∧
  elems (Layout._applyDesktop (Layout._applySidebar s)) = elems (Layout._applyDesktop s) ∧
  elems (Layout._applySidebar (Layout._applySidebar s)) = elems (Layout._applySidebar s) ∧
  elems (Layout.destroy (Layout._applySidebar s)) = elems (Layout.destroy s).
Proof. split_and!; same_elems s. Qed.

(** X9.  A mode application, and [destroy], overwrite whatever a mode application
    left on the four elements: applying [A] after [B] gives the same
    elements as applying [A] alone.  The presentation of a mode does not
    depend on the mode the instance was in before. *)
Theorem mode_application_overwrites
    (A B : Layout.State → Layout.State) (s : Layout.State) :
  A ∈ [Layout._applyMobile; Layout._applyDesktop; Layout._applySidebar;
       Layout.destroy] →
  B ∈ [Layout._applyMobile; Layout._applyDesktop; Layout._applySidebar] →
  elems (A (B s)) = elems (A s).
Proof.
  intros HA HB.
  destruct (after_applyMobile s) as (M1 & M2 & M3 & M4).
  destruct (after_applyDesktop s) as (D1 & D2 & D3 & D4).
  destruct (after_applySidebar s) as (S1 & S2 & S3 & S4).
  apply elem_of_cons in HB as [-> | HB];
    [|apply elem_of_cons in HB as [-> | HB];
      [|apply list_elem_of_singleton in HB as ->]];
    (apply elem_of_cons in HA as [-> | HA];
      [|apply elem_of_cons in HA as [-> | HA];
        [|apply elem_of_cons in HA as [-> | HA];
          [|apply list_elem_of_singleton in HA as ->]]]); assumption.
Qed.

Lemma mode_application_overwrites_witness :
  elems (Layout._applyDesktop (Layout._applyMobile (started 1000))) =
  elems (Layout._applyDesktop (started 1000)).
Proof.
  apply (mode_application_overwrites Layout._applyDesktop Layout._applyMobile
           (started 1000)).
  - apply list_elem_of_further, list_elem_of_here.
  - apply list_elem_of_here.
Defined.

(** ** [destroy] of version 1.0.1 *)

Lemma destroy_untouched (s : Layout.State) :
  this (Layout.destroy s) = this s ∧
  windowWidth (Layout.destroy s) = windowWidth s ∧
  frames (Layout.destroy s) = frames s ∧
  nextFrame (Layout.destroy s) = nextFrame s ∧
  fx (el_layout (Layout.destroy s)) = fx (el_layout s) ∧
  fx (el_navbtn (Layout.destroy s)) = fx (el_navbtn s) ∧
  fx (el_navbar (Layout.destroy s)) = fx (el_navbar s) ∧
  fx (el_overlay (Layout.destroy s)) = fx (el_overlay s).
Proof. by destruct s. Qed.

Lemma destroy_twice (s : Layout.State) :
  elems (Layout.destroy (Layout.destroy s)) = elems (Layout.destroy s).
Proof. same_elems s. Qed.

(** X10.  [destroy] takes the three presentation classes off the root and the
    active class off the toggle, whatever their names, and clears every
    inline declaration the widget makes: [display] on the toggle; position,
    z-index, the four insets and the width on the panel; position, z-index,
    the four insets and [display] on the overlay.  It leaves the instance's
    fields, the pending frame callback and the effects queues as they are,
    and a second [destroy] changes no element. *)
Theorem destroy_clears (s : Layout.State) :
  let s' := Layout.destroy s in
  (∀ c, c ∈ mode_classes (Layout.opts s) → c ∉ classList (el_layout s')) ∧
  (Layout.active (Layout.classes (Layout.opts s)) ∉ classList (el_navbtn s')) ∧
  displayed (el_navbtn s') ∧
  (∀ p, p ∈ positioning ++ ["width"] → style (el_navbar s') !! p = None) ∧
  (∀ p, p ∈ positioning ++ ["display"] → style (el_overlay s') !! p = None) ∧
  this s' = this s ∧ frames s' = frames s ∧
  fx (el_navbar s') = fx (el_navbar s) ∧
  fx (el_overlay s') = fx (el_overlay s) ∧
  elems (Layout.destroy s') = elems s'.
Proof.
  cbn zeta.
  destruct (destroy_untouched s) as (Ht & _ & Hf & _ & _ & _ & Hb & Ho).
  split_and!; [| | | | | exact Ht | exact Hf | exact Hb | exact Ho
              | apply destroy_twice].
  - intros c Hc. open_state s. cbn in Hc |- *. unfold mode_classes in Hc.
    cbn in Hc. set_solver.
  - open_state s. cbn. set_solver.
  - open_state s. unfold displayed. css_norm. by simplify_map_eq.
  - intros p Hp. open_state s. unfold positioning in Hp. css_norm.
    repeat (apply elem_of_cons in Hp as [-> | Hp]; [by simplify_map_eq|]).
    by apply elem_of_nil in Hp.
  - intros p Hp. open_state s. unfold positioning in Hp. css_norm.
    repeat (apply elem_of_cons in Hp as [-> | Hp]; [by simplify_map_eq|]).
    by apply elem_of_nil in Hp.
Qed.

Lemma shaped_count (s : Layout.State) :
  shaped s →
  count_present (mode_classes (Layout.opts s)) (el_layout s) = 1%nat.
Proof.
  unfold shaped. cbn zeta.
  destruct (Layout.isMobile (this s)) as [[]|]; [by intros (_ & ? & _)
                                                | by intros (_ & ? & _) | done].
Qed.

Lemma resize_crossing_shaped (s : Layout.State) :
  NoDup (mode_classes (Layout.opts s)) →
  Layout.isMobile (this s) ≠
    Some (windowWidth s <? Layout.breakpoint (Layout.opts s)) →
  shaped (Layout._resize s).
Proof.
  intros Hnd Hne.
  set (s0 := with_this
               (Layout.mkInstance (Layout.opts s) None (Layout.isShown (this s))
                  (Layout.resizeAnimationFrame (this s))) s).
  assert (He : Layout._resize s = Layout._resize s0).
  { rewrite (resize_applies s Hne). rewrite (resize_applies s0); [|by destruct s].
    by destruct s as [[]]. }
  rewrite He. apply resize_shaped; [by destruct s as [[]]|].
  intros H. by destruct s as [[]].
Qed.

(** X11.  After [destroy] an instance of version 1.0.1 still holds its mode and
    its handlers.  Take any reachable state with no frame callback pending
    and call [destroy].  A resize that stays on the same side of the
    breakpoint, followed by a frame, changes none of the four elements: the
    presentation stays removed.  A resize that crosses the breakpoint, with
    three distinct presentation classes, stores the new mode and puts
    exactly one presentation class back on the root. *)
Theorem resize_after_destroy
    o root btn bar ovl w0 h0 (evs : list Event) (w : Z) :
  NoDup (mode_classes o) →
  let s := Layout.destroy (Layout.run evs (Layout.init o root btn bar ovl w0 h0)) in
  frames s = [] →
  let s' := Layout.run [Resized w; AnimationFrame] s in
  ((w <? Layout.breakpoint o) = (windowWidth s <? Layout.breakpoint o) →
   elems s' = elems s) ∧
  ((w <? Layout.breakpoint o) ≠ (windowWidth s <? Layout.breakpoint o) →
   Layout.isMobile (this s') = Some (w <? Layout.breakpoint o) ∧
   count_present (mode_classes o) (el_layout s') = 1%nat).
Proof.
  intros Hnd s Hnil s'.
  set (s0 := Layout.run evs (Layout.init o root btn bar ovl w0 h0)) in *.
  assert (Hrun0 : running s0) by (apply run_running, init_running).
  assert (Ho0 : Layout.opts s0 = o).
  { unfold s0. rewrite run_opts by apply init_running. apply init_opts. }
  destruct (destroy_untouched s0) as (Ht & Hw & Hf & _). fold s in Ht, Hw, Hf.
  assert (Hm0 : Layout.isMobile (this s0) = Some (windowWidth s0 <? Layout.breakpoint o)).
  { rewrite <- Ho0. apply (run_sync o root btn bar ovl w0 h0 evs).
    fold s0. congruence. }
  assert (Hrun : running s) by exact (same_frame_running _ _ (destroy_frame s0) Hrun0).
  assert (Ho : Layout.opts s = o) by (unfold Layout.opts; rewrite Ht; exact Ho0).
  unfold s'. rewrite resized_frame by exact Hrun.
  set (X := Layout.set_resizeAnimationFrame _ _).
  assert (HoX : Layout.opts X = o) by (rewrite <- Ho; by destruct s).
  assert (HwX : windowWidth X = w) by (by destruct s).
  assert (HmX : Layout.isMobile (this X) = Some (windowWidth s <? Layout.breakpoint o)).
  { rewrite Hw, <- Hm0, <- Ht. by destruct s. }
  split.
  - intros Hside. rewrite resize_stable; [by destruct s|].
    rewrite HmX, HoX, HwX. by rewrite Hside.
  - intros Hside.
    assert (Hne : Layout.isMobile (this X) ≠
                  Some (windowWidth X <? Layout.breakpoint (Layout.opts X))).
    { rewrite HmX, HoX, HwX. intros [= H]. apply Hside. symmetry. exact H. }
    split.
    + rewrite resize_mode. by rewrite HoX, HwX.
    + assert (Hsh : shaped (Layout._resize X)).
      { apply resize_crossing_shaped; [by rewrite HoX | exact Hne]. }
      apply shaped_count in Hsh.
      destruct (resize_keeps X) as (Hk & _). rewrite Hk, HoX in Hsh. exact Hsh.
Qed.

Lemma resize_after_destroy_witness :
  elems (Layout.run [Resized 900; AnimationFrame]
    (Layout.destroy (Layout.run []
       (Layout.init Layout.defaults blank blank blank blank 1000 1)))) =
  elems (Layout.destroy (Layout.run []
       (Layout.init Layout.defaults blank blank blank blank 1000 1))).
Proof.
  pose proof (resize_after_destroy Layout.defaults blank blank blank blank 1000
                1%positive [] 900 defaults_distinct eq_refl) as X.
  cbv zeta in X. destruct X as [X _]. apply X. vm_compute. reflexivity.
Defined.

Lemma destroy_clears_witness :
  style (el_navbar (Layout.destroy (started 1000))) !! "left" = None ∧
  "layout-mobile" ∉ classList (el_layout (Layout.destroy (started 1000))).
Proof.
  pose proof (destroy_clears (started 1000)) as X. cbv zeta in X.
  destruct X as (Xc & _ & _ & Xp & _). split.
  - apply Xp. unfold positioning.
    do 5 apply list_elem_of_further. apply list_elem_of_here.
  - apply (Xc "layout-mobile"). apply list_elem_of_here.
Defined.

(** ** Creation, and a full open and close *)

(** X12.  [_create] of version 1.0.1 makes the three bindings, requests no frame,
    leaves [isShown] undefined and runs one layout evaluation, which makes
    six jQuery calls.  Under the breakpoint the navigation starts closed:
    the panel is positioned absolutely at minus its configured width, its
    inline width is the configured one, or [0px] when that is negative, the
    toggle is displayed and the overlay hidden.  From the breakpoint on, the
    toggle and the overlay are hidden and the panel keeps no inline
    position; its inline width is the configured one (again [0px] when
    negative) with the sidebar flag and absent without it. *)
Theorem init_presentation o root btn bar ovl w h :
  let s := Layout.init o root btn bar ovl w h in
  bindings s = wiring ∧ frames s = [] ∧
  Layout.isShown (this s) = None ∧
  Layout.isMobile (this s) = Some (w <? Layout.breakpoint o) ∧
  length (writes s) = 6%nat ∧
  (w < Layout.breakpoint o →
   style (el_navbar s) !! "position" = Some "absolute" ∧
   style (el_navbar s) !! "left" = Some (pretty (- Layout.width o) +:+ "px") ∧
   style (el_navbar s) !! "width" =
     Some (pretty (Z.max 0 (Layout.width o)) +:+ "px") ∧
   displayed (el_navbtn s) ∧ hidden (el_overlay s)) ∧
  (Layout.breakpoint o ≤ w →
   hidden (el_navbtn s) ∧ hidden (el_overlay s) ∧
   style (el_navbar s) !! "position" = None ∧
   style (el_navbar s) !! "width" =
     (if Layout.o_sidebar o
      then Some (pretty (Z.max 0 (Layout.width o)) +:+ "px")
      else None)).
Proof.
  cbn zeta.
  destruct (init_fields o root btn bar ovl w h) as [Hm Hs].
  destruct (init_frames o root btn bar ovl w h) as [Hf _].
  split_and!; [apply init_wired | exact Hf | exact Hs | exact Hm | | |].
  - rewrite init_exact.
    by destruct (w <? Layout.breakpoint o), (Layout.o_sidebar o).
  - intros Hw. rewrite init_exact.
    assert (Hb : (w <? Layout.breakpoint o) = true) by (by apply Z.ltb_lt).
    rewrite Hb.
    match goal with |- context [Layout._applyMobile ?s] =>
      destruct (applyMobile_style s) as (H1 & H2 & H3 & H4 & _ & H6) end.
    split_and!; [exact H1 | exact H2 | exact H3 | exact H4 | exact H6].
  - intros Hw. rewrite init_exact.
    assert (Hb : (w <? Layout.breakpoint o) = false) by (apply Z.ltb_ge; lia).
    rewrite Hb. destruct (Layout.o_sidebar o) eqn:Hsb.
    + match goal with |- context [Layout._applySidebar ?s] =>
        destruct (applySidebar_style s) as (H1 & H2 & H3 & H4) end.
      split_and!; [exact H3 | exact H4 | exact H1 | exact H2].
    + match goal with |- context [Layout._applyDesktop ?s] =>
        destruct (applyDesktop_style s) as (H1 & H2 & H3 & H4) end.
      split_and!; [exact H3 | exact H4 | exact H1 | exact H2].
Qed.

Lemma init_presentation_witness :
  style (el_navbar (Layout.init Layout.defaults blank blank blank blank 1000 1))
    !! "width" = Some (pretty (Z.max 0 (Layout.width Layout.defaults)) +:+ "px") ∧
  hidden (el_overlay (Layout.init Layout.defaults blank blank blank blank 1000 1)) ∧
  hidden (el_navbtn (Layout.init Layout.defaults blank blank blank blank 1300 1)).
Proof.
  pose proof (init_presentation Layout.defaults blank blank blank blank 1000
                1%positive) as X.
  pose proof (init_presentation Layout.defaults blank blank blank blank 1300
                1%positive) as Y.
  cbv zeta in X, Y.
  destruct X as (_ & _ & _ & _ & _ & X & _).
  destruct Y as (_ & _ & _ & _ & _ & _ & Y).
  assert (Hx : 1000 < Layout.breakpoint Layout.defaults).
  { vm_compute. reflexivity. }
  assert (Hy : Layout.breakpoint Layout.defaults ≤ 1300).
  { vm_compute. intros H. discriminate H. }
  destruct (X Hx) as (_ & _ & X1 & _ & X2). destruct (Y Hy) as (Y1 & _).
  split_and!; [exact X1 | exact X2 | exact Y1].
Defined.

(** One transition and the end of its animation, on an element that was
    at rest. *)
Lemma slide_settles (z d : Z) (ea : string) (e : Elem) :
  fx e = [] →
  fx_done (fx_enqueue (Animate [("left", Num z)] d ea) (fx_stop e)) =
    css [("left", Num z)] e.
Proof.
  destruct e as [c st q od]. cbn. intros ->.
  unfold fx_stop, fx_enqueue, fx_done. cbn [fx fx_go].
  unfold instant. cbn [anim_duration fx_start fx_finish].
  destruct (d <=? 0); reflexivity.
Qed.

Lemma hide_with_fx (q : list Anim) (e : Elem) :
  hide (with_fx q e) = with_fx q (hide e).
Proof.
  unfold hide, display_none. cbn.
  by destruct (style e !! "display") as [x|]; [destruct (String.eqb x "none")|].
Qed.

Lemma with_fx_same (q : list Anim) (e : Elem) : fx e = q → with_fx q e = e.
Proof. destruct e. cbn. by intros ->. Qed.

Lemma fade_in_settles (d : Z) (ea : string) (e : Elem) :
  fx e = [] → fx_done (fx_enqueue (FadeIn d ea) (fx_stop e)) = show e.
Proof.
  intros He. unfold fx_stop. rewrite He. unfold fx_enqueue. rewrite He.
  cbn [fx_go]. unfold instant. cbn [anim_duration fx_start fx_finish].
  destruct (d <=? 0).
  - unfold fx_done. cbn [fx with_fx]. apply with_fx_same.
    by rewrite show_fx.
  - rewrite show_with_fx. transitivity (with_fx [] (show e)); [reflexivity|].
    apply with_fx_same. by rewrite show_fx.
Qed.

Lemma fade_out_settles (d : Z) (ea : string) (e : Elem) :
  fx e = [] → fx_done (fx_enqueue (FadeOut d ea) (fx_stop e)) = hide e.
Proof.
  intros He. unfold fx_stop. rewrite He. unfold fx_enqueue. rewrite He.
  cbn [fx_go]. unfold instant. cbn [anim_duration fx_start fx_finish].
  destruct (d <=? 0).
  - unfold fx_done. cbn [fx with_fx]. apply with_fx_same.
    by rewrite hide_fx.
  - transitivity (with_fx [] (hide (with_fx [FadeOut d ea] e))); [reflexivity|].
    rewrite hide_with_fx. transitivity (with_fx [] (hide e)); [reflexivity|].
    apply with_fx_same. by rewrite hide_fx.
Qed.

Lemma css_display (v : string) (e : Elem) :
  style (css [("display", Str v)] e) = decl_set v (style e) "display".
Proof. reflexivity. Qed.

Lemma show_olddisplay (e : Elem) : olddisplay (show e) = olddisplay e.
Proof. unfold show. by destruct (display_none e). Qed.

(** Showing a hidden element and hiding it again gives the element back,
    with what jQuery kept for it. *)
Lemma hide_show (e : Elem) : hidden e → hide (show e) = e.
Proof.
  intros Hh. pose proof Hh as Hd. apply display_none_hidden in Hd.
  pose proof (show_display e) as Hsd. rewrite Hd in Hsd.
  assert (Hst : style (show e) = decl_set (olddisplay e) (style e) "display").
  { unfold show. rewrite Hd. apply css_display. }
  unfold hide. destruct (display_none (show e)) eqn:Hn.
  - apply display_none_hidden in Hn. unfold hidden in Hn. rewrite Hsd in Hn.
    destruct (String.eqb (olddisplay e) "") eqn:He; [discriminate|].
    injection Hn as Hn.
    apply elem_eq;
      [apply show_classList | | apply show_fx | apply show_olddisplay].
    rewrite Hst, Hn. unfold decl_set. cbn [String.eqb Ascii.eqb Bool.eqb].
    by apply insert_id.
  - apply elem_eq.
    + apply show_classList.
    + change (decl_set "none" (style (show e)) "display" = style e).
      rewrite Hst. unfold decl_set at 1. cbn [String.eqb Ascii.eqb Bool.eqb].
      apply map_eq. intros k. destruct (decide (k = "display")) as [-> | Hk].
      * by rewrite lookup_insert_eq.
      * rewrite lookup_insert_ne by done. unfold decl_set.
        destruct (String.eqb (olddisplay e) "");
          [by rewrite lookup_delete_ne | by rewrite lookup_insert_ne].
    + apply show_fx.
    + change (default "" (style (show e) !! "display") = olddisplay e).
      rewrite Hsd. destruct (String.eqb (olddisplay e) "") eqn:He; [|done].
      apply String.eqb_eq in He. by rewrite He.
Qed.

Lemma open_then_ends (s : Layout.State) :
  let o := Layout.opts s in
  let s' := Layout.run [FxEnd Navbar; FxEnd Overlay] (Layout._open s) in
  Layout.opts s' = o ∧
  Layout.isMobile (this s') = Layout.isMobile (this s) ∧
  Layout.isShown (this s') = Some true ∧
  el_layout s' = el_layout s ∧
  el_navbtn s' = addClass (Layout.active (Layout.classes o)) (el_navbtn s) ∧
  el_navbar s' =
    fx_done
      (fx_enqueue (Animate [("left", Num 0)] (Layout.duration o) (Layout.easing o))
         (fx_stop (el_navbar s))) ∧
  el_overlay s' =
    fx_done
      (fx_enqueue (FadeIn (Layout.duration o) (Layout.easing o))
         (fx_stop (el_overlay s))).
Proof. by destruct s. Qed.

Lemma close_then_ends (s : Layout.State) :
  let o := Layout.opts s in
  let s' := Layout.run [FxEnd Navbar; FxEnd Overlay] (Layout._close s) in
  Layout.isShown (this s') = Some false ∧
  el_layout s' = el_layout s ∧
  el_navbtn s' = removeClass (Layout.active (Layout.classes o)) (el_navbtn s) ∧
  el_navbar s' =
    fx_done
      (fx_enqueue
         (Animate [("left", Num (- Layout.width o))] (Layout.duration o)
            (Layout.easing o))
         (fx_stop (el_navbar s))) ∧
  el_overlay s' =
    fx_done
      (fx_enqueue (FadeOut (Layout.duration o) (Layout.easing o))
         (fx_stop (el_overlay s))).
Proof. by destruct s. Qed.

(** X13.  In mobile mode, from a closed navigation at rest (nothing animating,
    panel off canvas, overlay hidden, toggle unmarked), [open], the end of
    its two animations, [close] and the end of its two animations bring the
    four elements back exactly as they were, with [isShown] false. *)
Theorem open_close_round_trip (s : Layout.State) :
  Layout.isMobile (this s) = Some true →
  Layout.isShown (this s) ≠ Some true →
  fx (el_navbar s) = [] → fx (el_overlay s) = [] →
  Layout.active (Layout.classes (Layout.opts s)) ∉ classList (el_navbtn s) →
  style (el_navbar s) !! "left" =
    Some (pretty (- Layout.width (Layout.opts s)) +:+ "px") →
  hidden (el_overlay s) →
  let s' :=
    Layout.run [CallOpen; FxEnd Navbar; FxEnd Overlay;
                CallClose; FxEnd Navbar; FxEnd Overlay] s in
  elems s' = elems s ∧ Layout.isShown (this s') = Some false.
Proof.
  intros Hm Hs Hb Ho Ha Hl Hh. cbn zeta.
  assert (Hsh : truthy (Layout.isShown (this s)) = false)
    by (by destruct (Layout.isShown (this s)) as [[]|]).
  change (Layout.run _ s) with
    (Layout.run [FxEnd Navbar; FxEnd Overlay]
       (Layout.close (Layout.run [FxEnd Navbar; FxEnd Overlay] (Layout.open s)))).
  assert (Hopen : Layout.open s = Layout._open s).
  { unfold Layout.open. by rewrite Hm, Hsh. }
  rewrite Hopen.
  destruct (open_then_ends s) as (Ho1 & Hm1 & Hs1 & L1 & N1 & B1 & O1).
  set (s1 := Layout.run [FxEnd Navbar; FxEnd Overlay] (Layout._open s)) in *.
  assert (Hclose : Layout.close s1 = Layout._close s1).
  { unfold Layout.close. by rewrite Hm1, Hs1, Hm. }
  rewrite Hclose.
  destruct (close_then_ends s1) as (Hs2 & L2 & N2 & B2 & O2).
  split; [|exact Hs2]. unfold elems.
  rewrite L2, N2, B2, O2, L1, N1, B1, O1, Ho1.
  rewrite (slide_settles 0) by exact Hb.
  rewrite (fade_in_settles _ _ _ Ho).
  rewrite slide_settles by (cbn; exact Hb).
  rewrite fade_out_settles by (rewrite show_fx; exact Ho).
  rewrite (hide_show _ Hh).
  repeat apply (f_equal2 pair); try reflexivity.
  - apply elem_eq; [cbn; set_solver | reflexivity | reflexivity | reflexivity].
  - apply elem_eq; [reflexivity | | reflexivity | reflexivity]. css_norm.
    rewrite ?decl_set_zero_px. apply map_eq. intros k. map_keys k.
    reflexivity.
Qed.

Lemma open_close_round_trip_witness :
  elems (Layout.run [CallOpen; FxEnd Navbar; FxEnd Overlay;
                     CallClose; FxEnd Navbar; FxEnd Overlay] (started 1000)) =
  elems (started 1000).
Proof.
  assert (Ha : Layout.active (Layout.classes (Layout.opts (started 1000))) ∉
               classList (el_navbtn (started 1000))).
  { vm_compute. intros H. discriminate H. }
  assert (Hs : Layout.isShown (this (started 1000)) ≠ Some true).
  { vm_compute. intros H. discriminate H. }
  assert (Hl : style (el_navbar (started 1000)) !! "left" =
               Some (pretty (- Layout.width (Layout.opts (started 1000))) +:+ "px")).
  { vm_compute. reflexivity. }
  assert (Hh : hidden (el_overlay (started 1000))).
  { vm_compute. reflexivity. }
  pose proof (open_close_round_trip (started 1000) eq_refl Hs eq_refl eq_refl
                Ha Hl Hh) as X.
  cbv zeta in X. destruct X as [X _]. exact X.
Defined.

(** ** Version 1.0.0 *)

Lemma call_keeps100 (h : string) (s : Layout100.State) :
  Layout100.navbarWidth (this (Layout100.call h s)) =
    Layout100.navbarWidth (this s) ∧
  Layout100.opts (Layout100.call h s) = Layout100.opts s.
Proof.
  unfold Layout100.call.
  destruct (String.eqb h "_onResize").
  - unfold Layout100._onResize.
    destruct (Layout100.resizeAnimationFrame (this s)); by destruct s.
  - destruct (String.eqb h "_onToggle"); [|done].
    unfold Layout100._onToggle. destruct (truthy _); by destruct s.
Qed.

Lemma trigger_keeps100 (src : Source) (ev : string) (s : Layout100.State) :
  Layout100.navbarWidth (this (Layout100.trigger src ev s)) =
    Layout100.navbarWidth (this s) ∧
  Layout100.opts (Layout100.trigger src ev s) = Layout100.opts s.
Proof.
  unfold Layout100.trigger. generalize (handlers src ev s). intros hs.
  revert s. induction hs as [|h hs IH]; intros s; [done|].
  cbn [foldl]. destruct (IH (Layout100.call h s)) as [-> ->].
  apply call_keeps100.
Qed.

Lemma animationFrame_keeps100 (s : Layout100.State) :
  Layout100.navbarWidth (this (Layout100.animationFrame s)) =
    Layout100.navbarWidth (this s) ∧
  Layout100.opts (Layout100.animationFrame s) = Layout100.opts s.
Proof.
  unfold Layout100.animationFrame.
  assert (H : ∀ (fs : list positive) (s : Layout100.State),
            Layout100.navbarWidth
              (this (foldl (λ s _, Layout100._resizeLayout s) s fs)) =
              Layout100.navbarWidth (this s) ∧
            Layout100.opts (foldl (λ s _, Layout100._resizeLayout s) s fs) =
              Layout100.opts s).
  { intros fs. induction fs as [|f fs IH]; intros s1; [done|].
    cbn [foldl]. destruct (IH (Layout100._resizeLayout s1)) as [-> ->].
    destruct (resizeLayout_keeps s1) as (Ho & _). split; [|exact Ho].
    unfold Layout100._resizeLayout.
    destruct (strict_neq (Layout100.isMobile (this s1)) _); [|done].
    destruct (windowWidth s1 <? Layout100.breakpoint (Layout100.opts s1));
      by destruct s1. }
  destruct (H (frames s) (with_frames [] (nextFrame s) s)) as [-> ->].
  by destruct s.
Qed.

Lemma step_keeps100 (s : Layout100.State) (ev : Event) :
  Layout100.navbarWidth (this (Layout100.step s ev)) =
    Layout100.navbarWidth (this s) ∧
  Layout100.opts (Layout100.step s ev) = Layout100.opts s.
Proof.
  destruct ev as [w | | r | r | | | |]; cbn [Layout100.step]; try done.
  - destruct (trigger_keeps100 Window "resize" (with_windowWidth w s)) as [-> ->].
    by destruct s.
  - apply animationFrame_keeps100.
  - apply trigger_keeps100.
  - destruct s; by destruct r.
Qed.

Lemma last_enqueue (a : Anim) (e : Elem) :
  instant a = false → last (fx (fx_enqueue a e)) = Some a.
Proof.
  intros Ha. unfold fx_enqueue. destruct (fx e) as [|b q].
  - rewrite fx_go_one. unfold pending. by rewrite Ha.
  - cbn [fx with_fx]. by rewrite last_snoc.
Qed.

Lemma run_keeps100 (evs : list Event) (s : Layout100.State) :
  Layout100.navbarWidth (this (Layout100.run evs s)) =
    Layout100.navbarWidth (this s) ∧
  Layout100.opts (Layout100.run evs s) = Layout100.opts s.
Proof.
  revert s. induction evs as [|ev evs IH]; intros s; [done|].
  change (Layout100.run (ev :: evs) s)
    with (Layout100.run evs (Layout100.step s ev)).
  destruct (IH (Layout100.step s ev)) as [-> ->]. apply step_keeps100.
Qed.

Lemma run_init_keeps100 o ow root btn bar ovl w0 h0 (evs : list Event) :
  let s := Layout100.run evs (Layout100.init o ow root btn bar ovl w0 h0) in
  Layout100.navbarWidth (this s) = Some ow ∧ Layout100.opts s = o.
Proof.
  cbn zeta.
  destruct (run_keeps100 evs (Layout100.init o ow root btn bar ovl w0 h0))
    as [Hw Ho].
  pose proof (init_fields100 o ow root btn bar ovl w0 h0) as Hi.
  unfold Layout100.opts in Ho |- *. rewrite Hi in Hw, Ho.
  cbn [Layout100.navbarWidth Layout100.options] in Hw, Ho. by split.
Qed.

(** X16.  Version 1.0.0 measures the panel once, in [_initWidget]: in every state
    the instance reaches, whatever the events, [navbarWidth] is the outer
    width measured then and the options are those it started with; so what
    every [_closeNavbar] does to the panel is [.stop()] and then a slide to
    minus that width, which, when the duration is positive, is the last
    animation in the panel's queue afterwards. *)
Theorem width_measured_once
    o ow root btn bar ovl w0 h0 (evs : list Event) :
  let s := Layout100.run evs (Layout100.init o ow root btn bar ovl w0 h0) in
  let slide :=
    Animate [("left", Num (- ow))] (Layout100.duration o) (Layout100.easing o) in
  Layout100.navbarWidth (this s) = Some ow ∧
  Layout100.opts s = o ∧
  el_navbar (Layout100._closeNavbar s) = fx_enqueue slide (fx_stop (el_navbar s)) ∧
  (0 < Layout100.duration o →
   last (fx (el_navbar (Layout100._closeNavbar s))) = Some slide).
Proof.
  cbn zeta.
  destruct (run_init_keeps100 o ow root btn bar ovl w0 h0 evs) as [Hw Ho].
  split; [exact Hw|]. split; [exact Ho|].
  set (s := Layout100.run evs (Layout100.init o ow root btn bar ovl w0 h0)) in *.
  assert (He : el_navbar (Layout100._closeNavbar s) =
               fx_enqueue
                 (Animate [("left", Layout100.neg (Layout100.navbarWidth (this s)))]
                    (Layout100.duration (Layout100.opts s))
                    (Layout100.easing (Layout100.opts s)))
                 (fx_stop (el_navbar s))) by (by destruct s).
  rewrite Hw, Ho in He. cbn [Layout100.neg] in He.
  split; [exact He|]. intros Hd. rewrite He. apply last_enqueue.
  apply Z.leb_gt. exact Hd.
Qed.

Lemma width_measured_once_witness :
  last (fx (el_navbar (Layout100._closeNavbar
    (Layout100.run [Click Navbtn]
       (Layout100.init Layout100.defaults 300 blank blank blank blank 1000 1))))) =
  Some (Animate [("left", Num (- 300))] (Layout100.duration Layout100.defaults)
          (Layout100.easing Layout100.defaults)).
Proof.
  pose proof (width_measured_once Layout100.defaults 300 blank blank blank blank
                1000 1%positive [Click Navbtn]) as X.
  cbv zeta in X. destruct X as (_ & _ & _ & X).
  apply X. vm_compute. reflexivity.
Defined.

Lemma step_navbarOpen100 (s : Layout100.State) (ev : Event) :
  running100 s → transition ev = false →
  Layout100.navbarOpen (this (Layout100.step s ev)) =
    Layout100.navbarOpen (this s).
Proof.
  intros [Hw Hs] Hev.
  destruct ev as [w | | r | r | | | |]; cbn [Layout100.step];
    try discriminate Hev; try reflexivity.
  - destruct Hw as [Hw | Hw]; [|by rewrite trigger_unbound100].
    assert (Hw' : bindings (with_windowWidth w s) = wiring) by exact Hw.
    destruct (trigger_wired100 _ Hw') as (-> & _).
    assert (Hs' : sched_ok
                    (Layout100.resizeAnimationFrame (this (with_windowWidth w s)))
                    (with_windowWidth w s)) by exact Hs.
    rewrite onResize_exact100 by exact Hs'. by destruct s.
  - destruct (animationFrame_cases100 s Hs) as [[_ ->] | (h & Hh & ->)];
      [reflexivity|].
    destruct (resizeLayout_keeps (with_frames [] (nextFrame s) s))
      as (_ & _ & -> & _).
    reflexivity.
  - destruct r; try discriminate Hev.
    + destruct Hw as [Hw | Hw]; [|by rewrite trigger_unbound100].
      by destruct (trigger_wired100 _ Hw) as (_ & _ & _ & -> & _).
    + destruct Hw as [Hw | Hw]; [|by rewrite trigger_unbound100].
      by destruct (trigger_wired100 _ Hw) as (_ & _ & _ & _ & ->).
  - destruct s. by destruct r.
Qed.

Lemma run_navbarOpen100 (evs : list Event) (s : Layout100.State) :
  running100 s → Forall (λ ev, transition ev = false) evs →
  Layout100.navbarOpen (this (Layout100.run evs s)) =
    Layout100.navbarOpen (this s).
Proof.
  revert s. induction evs as [|ev evs IH]; intros s Hr Hq; [done|].
  apply Forall_cons in Hq as [Hev Hq].
  change (Layout100.run (ev :: evs) s)
    with (Layout100.run evs (Layout100.step s ev)).
  rewrite IH; [by apply step_navbarOpen100 | by apply step_running100 | done].
Qed.

(** What jQuery keeps for the toggle and the overlay stays restorable. *)
Lemma css_restorable (props : list (string * CssVal)) (e : Elem) :
  restorable e → restorable (css props e).
Proof. done. Qed.

Lemma show_restorable (e : Elem) : restorable e → restorable (show e).
Proof. unfold restorable. by rewrite show_olddisplay. Qed.

Lemma fx_go_restorable (q : list Anim) (e : Elem) :
  restorable e → restorable (fx_go q e).
Proof.
  revert e. induction q as [|a q IH]; intros e He; [done|].
  cbn. destruct (instant a).
  - apply IH. destruct a; cbn; auto using show_restorable, hide_restorable.
  - destruct a; cbn; try done. rewrite show_with_fx. by apply show_restorable.
Qed.

Lemma jq_apply_restorable (op : JOp) (e : Elem) :
  restorable e → restorable (jq_apply op e).
Proof.
  intros He. destruct op as [c | c | c b | p | | | b | | a]; cbn.
  - done.
  - done.
  - by destruct b.
  - done.
  - by apply show_restorable.
  - by apply hide_restorable.
  - destruct b; cbn; [by apply show_restorable | by apply hide_restorable].
  - unfold fx_stop. destruct (fx e); [done | by apply fx_go_restorable].
  - unfold fx_enqueue. destruct (fx e); [by apply fx_go_restorable | done].
Qed.

Lemma fx_done_restorable (e : Elem) : restorable e → restorable (fx_done e).
Proof.
  intros He. unfold fx_done. destruct (fx e) as [|a q]; [done|].
  apply fx_go_restorable.
  destruct a; cbn; auto using hide_restorable.
Qed.

Lemma jq_kept {W} (r : Region) (op : JOp) (s : World W) :
  kept s → kept (jq r op s).
Proof.
  intros [Hb Ho]. destruct s. destruct r; split; cbn in *;
    try assumption; by apply jq_apply_restorable.
Qed.

Lemma fx_end_kept {W} (r : Region) (s : World W) :
  kept s → kept (fx_end r s).
Proof.
  intros [Hb Ho]. destruct s. destruct r; split; cbn in *;
    try assumption; by apply fx_done_restorable.
Qed.
Ltac kept_block :=
  unfold block; cbn [foldl]; repeat apply jq_kept.

Lemma resizeLayout_kept (s : Layout100.State) :
  kept s → kept (Layout100._resizeLayout s).
Proof.
  intros H. unfold Layout100._resizeLayout.
  destruct (strict_neq (Layout100.isMobile (this s)) _); [|exact H].
  destruct (windowWidth s <? Layout100.breakpoint (Layout100.opts s));
    [unfold Layout100._applyMobileLayout | unfold Layout100._applyDesktopLayout];
    kept_block; exact H.
Qed.

Lemma call_kept100 (h : string) (s : Layout100.State) :
  kept s → kept (Layout100.call h s).
Proof.
  intros H. unfold Layout100.call.
  destruct (String.eqb h "_onResize").
  - unfold Layout100._onResize.
    destruct (Layout100.resizeAnimationFrame (this s)); exact H.
  - destruct (String.eqb h "_onToggle"); [|exact H].
    unfold Layout100._onToggle.
    destruct (truthy _);
      [unfold Layout100._closeNavbar | unfold Layout100._openNavbar];
      kept_block; exact H.
Qed.

Lemma trigger_kept100 (src : Source) (ev : string) (s : Layout100.State) :
  kept s → kept (Layout100.trigger src ev s).
Proof.
  unfold Layout100.trigger. generalize (handlers src ev s). intros hs.
  revert s. induction hs as [|h hs IH]; intros s H; [exact H|].
  cbn [foldl]. by apply IH, call_kept100.
Qed.

Lemma step_kept100 (s : Layout100.State) (ev : Event) :
  kept s → kept (Layout100.step s ev).
Proof.
  intros H. destruct ev as [w | | r | r | | | |]; cbn [Layout100.step];
    try exact H.
  - apply trigger_kept100. exact H.
  - unfold Layout100.animationFrame.
    assert (Hf : ∀ (fs : list positive) (s1 : Layout100.State),
              kept s1 → kept (foldl (λ s _, Layout100._resizeLayout s) s1 fs)).
    { intros fs. induction fs as [|f fs IH]; intros s1 H1; [exact H1|].
      cbn [foldl]. by apply IH, resizeLayout_kept. }
    apply Hf. exact H.
  - by apply trigger_kept100.
  - by apply fx_end_kept.
Qed.

Lemma run_kept100 (evs : list Event) (s : Layout100.State) :
  kept s → kept (Layout100.run evs s).
Proof.
  revert s. induction evs as [|ev evs IH]; intros s H; [exact H|].
  change (Layout100.run (ev :: evs) s)
    with (Layout100.run evs (Layout100.step s ev)).
  by apply IH, step_kept100.
Qed.

Lemma init_kept100 o ow root btn bar ovl w h :
  restorable btn → restorable ovl →
  kept (Layout100.init o ow root btn bar ovl w h).
Proof.
  intros Hb Ho.
  destruct (init_navbtn100 o ow root btn bar ovl w h) as [H1 H2].
  split.
  - rewrite H1. destruct (w <? Layout100.breakpoint o);
      [by apply show_restorable | by apply hide_restorable].
  - rewrite H2. by apply hide_restorable.
Qed.

(** X17.  Version 1.0.0 also remembers the open state across mode changes, and
    re-applies it differently.  The page is one where what jQuery kept for
    the toggle and for the overlay is not [none].  Take a state an instance
    reaches with the navigation open, let pass any events that are neither
    [destroy] nor a click on the toggle or the overlay, and suppose the
    instance is then in non-mobile mode.  A resize to a width under the
    breakpoint, followed by a frame, puts it in mobile mode; [.show()] has
    been called on the toggle and on the overlay, so neither has an inline
    [display: none] any more, and the panel's inline [left] is cleared:
    where the open panel sits is left to the style sheet. *)
Theorem open_state_survives_mode_changes_100
    o ow root btn bar ovl w0 h0 (evs quiet : list Event) (w : Z) :
  restorable btn → restorable ovl →
  CallDestroy ∉ evs → CallDestroy ∉ quiet →
  Forall (λ ev, transition ev = false) quiet →
  let s := Layout100.run evs (Layout100.init o ow root btn bar ovl w0 h0) in
  Layout100.navbarOpen (this s) = Some true →
  let s1 := Layout100.run quiet s in
  Layout100.navbarOpen (this s1) = Some true ∧
  (Layout100.isMobile (this s1) = Some false →
   w < Layout100.breakpoint o →
   let s2 := Layout100.run [Resized w; AnimationFrame] s1 in
   Layout100.isMobile (this s2) = Some true ∧
   style (el_navbar s2) !! "position" = Some "absolute" ∧
   style (el_navbar s2) !! "left" = None ∧
   el_navbtn s2 = show (el_navbtn s1) ∧ el_overlay s2 = show (el_overlay s1) ∧
   visible (el_navbtn s2) ∧ visible (el_overlay s2)).
Proof.
  intros Hrb Hro Hd Hdq Hq s Hopen s1.
  set (i := Layout100.init o ow root btn bar ovl w0 h0) in *.
  assert (Hrun : running100 s) by (apply run_running100, init_running100).
  assert (Hrun1 : running100 s1) by (by apply run_running100).
  assert (Hw : bindings s = wiring).
  { apply run_wired100; [apply init_running100 | apply init_wired100 | done]. }
  assert (Hw1 : bindings s1 = wiring) by (by apply run_wired100).
  assert (Hopen1 : Layout100.navbarOpen (this s1) = Some true).
  { unfold s1. rewrite run_navbarOpen100 by done. exact Hopen. }
  assert (Hk1 : kept s1).
  { unfold s1, s. by apply run_kept100, run_kept100, init_kept100. }
  split; [exact Hopen1|]. intros Hm Hlt s2.
  assert (Hk : Layout100.navbarWidth (this s1) = Some ow ∧ Layout100.opts s1 = o).
  { unfold s1, s. destruct (run_keeps100 quiet (Layout100.run evs i)) as [-> ->].
    apply run_init_keeps100. }
  destruct Hk as [Hnw Ho].
  assert (Hne : Layout100.isMobile (this s1) ≠ Some true) by (rewrite Hm; discriminate).
  assert (Hlt1 : w < Layout100.breakpoint (Layout100.opts s1)) by (by rewrite Ho).
  destruct (cross_into_mobile100 s1 w ow Hrun1 Hw1 Hne Hnw Hlt1)
    as (H1 & H2 & H3 & H4 & H5).
  fold s2 in H1, H2, H3, H4, H5. rewrite Hopen1 in H3, H5.
  change (truthy (Some true)) with true in H3, H5.
  change (toggle true (el_overlay s1)) with (show (el_overlay s1)) in H5.
  destruct Hk1 as [Hkb Hko].
  split_and!; [exact H1 | exact H2 | exact H3 | exact H4 | exact H5 | |].
  - rewrite H4. by apply show_visible.
  - rewrite H5. by apply show_visible.
Qed.

Lemma open_state_survives_mode_changes_100_witness :
  style (el_navbar
    (Layout100.run [Resized 1000; AnimationFrame]
       (Layout100.run [Resized 1300; AnimationFrame]
          (Layout100.run [Click Navbtn]
             (Layout100.init Layout100.defaults 300 blank blank blank blank 1000 1)))))
    !! "left" = None ∧
  visible (el_overlay
    (Layout100.run [Resized 1000; AnimationFrame]
       (Layout100.run [Resized 1300; AnimationFrame]
          (Layout100.run [Click Navbtn]
             (Layout100.init Layout100.defaults 300 blank blank blank blank 1000 1))))).
Proof.
  assert (Hr : restorable blank).
  { unfold restorable. cbn. discriminate. }
  assert (Hd : CallDestroy ∉ [Click Navbtn]).
  { intros H. apply list_elem_of_singleton in H. discriminate H. }
  assert (Hdq : CallDestroy ∉ [Resized 1300; AnimationFrame]).
  { intros H. repeat (apply elem_of_cons in H as [H | H]; [discriminate H|]).
    by apply elem_of_nil in H. }
  assert (Hq : Forall (λ ev, transition ev = false) [Resized 1300; AnimationFrame]).
  { repeat constructor. }
  assert (Ho : Layout100.navbarOpen
            (this (Layout100.run [Click Navbtn]
               (Layout100.init Layout100.defaults 300 blank blank blank blank 1000 1)))
            = Some true).
  { vm_compute. reflexivity. }
  pose proof (open_state_survives_mode_changes_100 Layout100.defaults 300 blank
                blank blank blank 1000 1%positive [Click Navbtn]
                [Resized 1300; AnimationFrame] 1000 Hr Hr Hd Hdq Hq Ho) as X.
  cbv zeta in X. destruct X as [_ X].
  assert (Hm : Layout100.isMobile
            (this (Layout100.run [Resized 1300; AnimationFrame]
               (Layout100.run [Click Navbtn]
                  (Layout100.init Layout100.defaults 300 blank blank blank blank
                     1000 1)))) = Some false).
  { vm_compute. reflexivity. }
  assert (Hlt : 1000 < Layout100.breakpoint Layout100.defaults).
  { vm_compute. reflexivity. }
  destruct (X Hm Hlt) as (_ & _ & X3 & _ & _ & _ & X7). split; [exact X3 | exact X7].
Defined.

(** X18.  [destroy] of version 1.0.0 is the widget factory's: it takes the
    handlers away and nothing else.  The four elements keep every class and
    inline declaration the widget put on them, the instance keeps its
    fields, and a pending frame callback stays pending.  Afterwards a click
    on any bound element changes nothing and a resize changes only the
    viewport width; but a layout evaluation that was pending when [destroy]
    was called still runs at the next frame and stores the mode of the
    current width. *)
Theorem destroy_detaches_100 (s : Layout100.State) :
  let s' := Layout100.destroy s in
  elems s' = elems s ∧ this s' = this s ∧ frames s' = frames s ∧
  (∀ r, Layout100.step s' (Click r) = s') ∧
  (∀ w, Layout100.step s' (Resized w) = with_windowWidth w s') ∧
  (∀ h, frames s = [h] →
     Layout100.isMobile (this (Layout100.step s' AnimationFrame)) =
       Some (windowWidth s <? Layout100.breakpoint (Layout100.opts s))).
Proof.
  cbn zeta. split_and!; try reflexivity.
  intros h Hh. cbn [Layout100.step]. unfold Layout100.animationFrame.
  assert (Hf : frames (Layout100.destroy s) = [h]) by exact Hh.
  rewrite Hf. cbn [foldl]. rewrite resizeLayout_mode. by destruct s.
Qed.

Lemma destroy_detaches_100_witness :
  Layout100.isMobile
    (this (Layout100.step
       (Layout100.destroy
          (Layout100.step (started100 1300) (Resized 1000))) AnimationFrame)) =
  Some (windowWidth (Layout100.step (started100 1300) (Resized 1000))
        <? Layout100.breakpoint
             (Layout100.opts (Layout100.step (started100 1300) (Resized 1000)))).
Proof.
  pose proof (destroy_detaches_100
                (Layout100.step (started100 1300) (Resized 1000))) as X.
  cbv zeta in X. destruct X as (_ & _ & _ & _ & _ & X).
  apply (X 1%positive). vm_compute. reflexivity.
Defined.

(** ** Resize notifications and frames *)

Lemma resized_exact (s : Layout.State) (w : Z) :
  running s →
  Layout.step s (Resized w) =
    Layout.set_resizeAnimationFrame (nextFrame s)
      (with_frames [nextFrame s] (Pos.succ (nextFrame s)) (with_windowWidth w s)).
Proof.
  intros [Hw Hs]. cbn [Layout.step].
  assert (Hw' : bindings (with_windowWidth w s) = wiring) by exact Hw.
  destruct (trigger_wired _ Hw') as (-> & _).
  by rewrite onResize_exact by exact Hs.
Qed.

Lemma burst_quiet (ws : list Z) (s : Layout.State) :
  running s →
  elems (Layout.run (Resized <$> ws) s) = elems s ∧
  writes (Layout.run (Resized <$> ws) s) = writes s ∧
  Layout.isMobile (this (Layout.run (Resized <$> ws) s)) =
    Layout.isMobile (this s) ∧
  Layout.isShown (this (Layout.run (Resized <$> ws) s)) =
    Layout.isShown (this s).
Proof.
  revert s. induction ws as [|w ws IH]; intros s Hrun; [done|].
  change (Layout.run (Resized <$> w :: ws) s)
    with (Layout.run (Resized <$> ws) (Layout.step s (Resized w))).
  destruct (IH (Layout.step s (Resized w))) as (-> & -> & -> & ->);
    [by apply step_running|].
  rewrite resized_exact by exact Hrun. by destruct s.
Qed.

(** X14.  The resize handler itself does no work on the page: however many
    resize notifications arrive before a frame, the four elements, the
    trace of jQuery calls, the stored mode and the open state of an instance
    of version 1.0.1 stay as they were; only the viewport width and the
    pending callback change. *)
Theorem resize_burst_writes_nothing
    o root btn bar ovl w0 h0 (evs : list Event) (ws : list Z) :
  let s := Layout.run evs (Layout.init o root btn bar ovl w0 h0) in
  let s' := Layout.run (Resized <$> ws) s in
  elems s' = elems s ∧ writes s' = writes s ∧
  Layout.isMobile (this s') = Layout.isMobile (this s) ∧
  Layout.isShown (this s') = Layout.isShown (this s).
Proof.
  cbn zeta. apply burst_quiet. apply run_running, init_running.
Qed.

(** X6.  A frame always leaves the stored mode up to date: after any events
    followed by a frame, nothing is pending and [isMobile] is true or false
    exactly as the viewport width is under the breakpoint or not. *)
Theorem frame_settles_mode o root btn bar ovl w0 h0 (evs : list Event) :
  let s := Layout.run (evs ++ [AnimationFrame])
             (Layout.init o root btn bar ovl w0 h0) in
  frames s = [] ∧
  Layout.isMobile (this s) = Some (windowWidth s <? Layout.breakpoint o).
Proof.
  cbn zeta.
  set (s := Layout.run (evs ++ [AnimationFrame])
              (Layout.init o root btn bar ovl w0 h0)).
  assert (Hf : frames s = []).
  { unfold s. rewrite run_app.
    set (s0 := Layout.run evs (Layout.init o root btn bar ovl w0 h0)).
    assert (Hrun0 : running s0) by (apply run_running, init_running).
    destruct Hrun0 as [_ Hs0].
    change (Layout.run [AnimationFrame] s0) with (Layout.animationFrame s0).
    destruct (animationFrame_cases s0 Hs0) as [[H0 ->] | (h & _ & ->)];
      [exact H0|].
    by destruct (resize_keeps (with_frames [] (nextFrame s0) s0))
      as (_ & _ & _ & -> & _). }
  split; [exact Hf|].
  assert (Ho : Layout.opts s = o).
  { unfold s. rewrite run_opts by apply init_running. apply init_opts. }
  rewrite <- Ho.
  by apply (run_sync o root btn bar ovl w0 h0 (evs ++ [AnimationFrame])).
Qed.

(** ** Creation in version 1.0.0 *)

(** X19.  [_create] of version 1.0.0 measures the panel, sets [navbarOpen] to
    false, runs one layout evaluation (six jQuery calls) and then makes the
    three bindings.  Under the breakpoint the panel is positioned absolutely
    at minus the measured width, with no inline width, the overlay is
    hidden, and [.show()] has been called on the toggle, which has no
    inline [display: none] afterwards, what jQuery kept for it not being
    [none].  From the breakpoint on, the toggle and the overlay are hidden,
    the panel has no inline position or offset, and its inline width is
    [100%] unless the sidebar flag is set. *)
Theorem init_presentation_100 o ow root btn bar ovl w h :
  restorable btn →
  let s := Layout100.init o ow root btn bar ovl w h in
  bindings s = wiring ∧ frames s = [] ∧
  this s =
    Layout100.mkInstance o (Some false) (Some ow)
      (Some (w <? Layout100.breakpoint o)) None ∧
  length (writes s) = 6%nat ∧
  (w < Layout100.breakpoint o →
   style (el_navbar s) !! "position" = Some "absolute" ∧
   style (el_navbar s) !! "left" = Some (pretty (- ow) +:+ "px") ∧
   style (el_navbar s) !! "width" = None ∧
   el_navbtn s = show btn ∧ visible (el_navbtn s) ∧ hidden (el_overlay s)) ∧
  (Layout100.breakpoint o ≤ w →
   hidden (el_navbtn s) ∧ hidden (el_overlay s) ∧
   style (el_navbar s) !! "position" = None ∧
   style (el_navbar s) !! "left" = None ∧
   style (el_navbar s) !! "width" =
     (if Layout100.sidebar o then None else Some "100%")).
Proof.
  intros Hr. cbn zeta.
  split_and!; [apply init_wired100 | | apply init_fields100 | | |].
  - rewrite init_exact100. by destruct (w <? Layout100.breakpoint o).
  - rewrite init_exact100. by destruct (w <? Layout100.breakpoint o).
  - intros Hw.
    assert (Hb : (w <? Layout100.breakpoint o) = true) by (by apply Z.ltb_lt).
    destruct (init_navbtn100 o ow root btn bar ovl w h) as [Hn Ho].
    rewrite Hb in Hn. rewrite Hn, Ho. rewrite init_exact100, Hb.
    match goal with |- context [Layout100._applyMobileLayout ?s] =>
      destruct (applyMobileLayout_style s ow eq_refl) as (H1 & H2 & H3 & _);
      generalize dependent (Layout100._applyMobileLayout s) end.
    intros s H1 H2 H3.
    split_and!; [exact H1 | exact H2 | exact H3 | reflexivity
                | by apply show_visible | apply hide_hidden].
  - intros Hw. rewrite init_exact100.
    assert (Hb : (w <? Layout100.breakpoint o) = false) by (apply Z.ltb_ge; lia).
    rewrite Hb.
    match goal with |- context [Layout100._applyDesktopLayout ?s] =>
      destruct (applyDesktopLayout_style s) as (H1 & H2 & H3 & H4 & H5);
      generalize dependent (Layout100._applyDesktopLayout s) end.
    intros s H1 H2 H3 H4 H5.
    split_and!; [exact H4 | exact H5 | exact H1 | exact H2 | exact H3].
Qed.

Lemma init_presentation_100_witness :
  visible (el_navbtn (Layout100.init Layout100.defaults 300 blank blank blank blank 1000 1)) ∧
  hidden (el_overlay (Layout100.init Layout100.defaults 300 blank blank blank blank 1000 1)) ∧
  style (el_navbar (Layout100.init Layout100.defaults 300 blank blank blank blank 1300 1))
    !! "width" = (if Layout100.sidebar Layout100.defaults then None else Some "100%").
Proof.
  assert (Hr : restorable blank).
  { unfold restorable. cbn. discriminate. }
  pose proof (init_presentation_100 Layout100.defaults 300 blank blank blank blank
                1000 1%positive Hr) as X.
  pose proof (init_presentation_100 Layout100.defaults 300 blank blank blank blank
                1300 1%positive Hr) as Y.
  cbv zeta in X, Y.
  destruct X as (_ & _ & _ & _ & X & _).
  destruct Y as (_ & _ & _ & _ & _ & Y).
  assert (Hx : 1000 < Layout100.breakpoint Layout100.defaults).
  { vm_compute. reflexivity. }
  assert (Hy : Layout100.breakpoint Layout100.defaults ≤ 1300).
  { vm_compute. intros H. discriminate H. }
  destruct (X Hx) as (_ & _ & _ & _ & X1 & X2).
  destruct (Y Hy) as (_ & _ & _ & _ & Y1).
  split_and!; [exact X1 | exact X2 | exact Y1].
Defined.
